(** * The htclow channel multiplexer ([ams::htclow::mux::Mux])

    A shallow embedding of
    [libraries/libstratosphere/source/htclow/mux/htclow_mux.cpp]
    and the properties of the multiplexer that its specification states.

    The member functions of [Mux] are written as computations in a small
    state-and-abort monad over the multiplexer object.  Calls that leave
    the multiplexer (mutex operations, calls into a per-channel engine,
    the packet factory, the readiness event, the task manager) are also
    recorded, in order, in a trace that is part of the state.  For the
    statements about the lock the member functions are also written as
    sequences of primitive steps, run with a log of the state of the
    mutex at every step. *)

From Stdlib Require Import ZArith List Lia.
From stdpp Require Import base option list numbers.

Local Open Scope Z_scope.

(** ** Packets and results *)

(** Channel identifiers ([impl::ChannelInternalType]).  The multiplexer
    only compares them for equality. *)
Abbreviation ChannelInternalType := Z (only parsing).

(** [PacketType]; a header received from the transport may carry a value
    that is none of the three kinds, which is what the default case of
    the switch in [CheckReceivedHeader] is for. *)
Inductive PacketType : Type :=
  | PacketType_Data
  | PacketType_MaxData
  | PacketType_Error
  | PacketType_Invalid (raw : Z).

Inductive Result : Type :=
  | ResultSuccess
  | ResultProtocolError
  | ResultChannelNotExist
  | ResultChannelAlreadyExist
  | ResultAllocationFailure
  | ResultOutOfChannel
  | ResultOther (description : Z).

Definition R_FAILED (r : Result) : bool :=
  match r with
  | ResultSuccess => false
  | _ => true
  end.

(** The fields of [PacketHeader] that the multiplexer reads.  Their
    widths are fixed by a declaration outside this file; the
    comparisons of the multiplexer are on the numbers the fields hold. *)
Record PacketHeader : Type := MkPacketHeader {
  signature : Z;
  version : Z;
  packet_type : PacketType;
  channel : ChannelInternalType;
  body_size : Z
}.

Abbreviation PacketBody := (list Byte.byte) (only parsing).

(** Modelled from the spec: the [Packet] class is declared outside this
    file; a control packet carries only a header (no body). *)
Record Packet : Type := MkPacket { GetHeader : PacketHeader }.

(** The three locations [QuerySendPacket] writes through its pointer
    arguments [header], [body] and [out_body_size]. *)
Record SendOut : Type := MkSendOut {
  out_header : PacketHeader;
  out_body : PacketBody;
  out_body_size : Z
}.

Inductive MuxState : Type :=
  | MuxState_Normal
  | MuxState_Sleep.

(** ** Collaborators *)

(** Modelled from the spec: the per-channel protocol engine
    ([ChannelImpl], declared outside this file), as the fixed operation
    set of section 6: [ProcessReceivePacket(header, body) -> Result],
    [QuerySendPacket() -> Option<packet>], [RemovePacket(header)],
    [UpdateState()], [SetVersion(v)] and the three buffer setters.  Every
    operation may change the engine's own state.  A channel owns a
    negotiated protocol version, which [SetVersion] sets. *)
Class ChannelEngine (Chan : Type) : Type := {
  chan_new : ChannelInternalType -> Chan;
  chan_ProcessReceivePacket :
    PacketHeader -> PacketBody -> Z -> Chan -> Result * Chan;
  chan_QuerySendPacket : Chan -> option SendOut * Chan;
  chan_RemovePacket : PacketHeader -> Chan -> Chan;
  chan_UpdateState : Chan -> Chan;
  chan_SetVersion : Z -> Chan -> Chan;
  chan_SetSendBuffer : Z -> Z -> Z -> Chan -> Chan;
  chan_SetSendBufferWithData : Z -> Z -> Z -> Chan -> Chan;
  chan_SetReceiveBuffer : Z -> Z -> Chan -> Chan;
  chan_version : Chan -> Z;
  chan_SetVersion_version :
    forall v c, chan_version (chan_SetVersion v c) = v
}.

(** Engines whose other operations leave the negotiated version alone. *)
Class VersionOnlySetBySetVersion (Chan : Type) `{ChannelEngine Chan} : Prop := {
  version_ProcessReceivePacket : forall h b n c,
    chan_version (chan_ProcessReceivePacket h b n c).2 = chan_version c;
  version_QuerySendPacket : forall c,
    chan_version (chan_QuerySendPacket c).2 = chan_version c;
  version_RemovePacket : forall h c,
    chan_version (chan_RemovePacket h c) = chan_version c;
  version_UpdateState : forall c,
    chan_version (chan_UpdateState c) = chan_version c;
  version_SetSendBuffer : forall b n k c,
    chan_version (chan_SetSendBuffer b n k c) = chan_version c;
  version_SetSendBufferWithData : forall b n k c,
    chan_version (chan_SetSendBufferWithData b n k c) = chan_version c;
  version_SetReceiveBuffer : forall b n c,
    chan_version (chan_SetReceiveBuffer b n c) = chan_version c
}.

(** Engines whose send query is repeatable: asking again, with nothing
    in between, gives the same answer and changes nothing further. *)
Class RepeatableQuery (Chan : Type) `{ChannelEngine Chan} : Prop := {
  query_again : forall c,
    chan_QuerySendPacket (chan_QuerySendPacket c).2 =
    ((chan_QuerySendPacket c).1, (chan_QuerySendPacket c).2)
}.

(** Modelled from the spec: the packet factory ([PacketFactory],
    declared outside this file), section 6:
    [MakeErrorPacket(channel_id) -> Packet | AllocationFailure].  The
    packet it makes is an Error-kind control packet addressed to the
    channel, without a body. *)
Class PacketFactory (PF : Type) : Type := {
  pf_MakeErrorPacket : ChannelInternalType -> PF -> option Packet * PF;
  pf_MakeErrorPacket_header : forall ch pf p pf',
    pf_MakeErrorPacket ch pf = (Some p, pf') ->
    packet_type (GetHeader p) = PacketType_Error /\
    channel (GetHeader p) = ch /\
    body_size (GetHeader p) = 0
}.

(** Modelled from the spec: the control queue ([GlobalSendBuffer],
    declared outside this file): the control packets not yet
    transmitted, retrieved first in, first out.  [AddPacket] is handed
    what the factory returned and reports the factory's failure. *)
Module GlobalSendBuffer.
Definition t : Type := list Packet.

(** Modelled from the spec: [GlobalSendBuffer::GetNextPacket], the next
    pending item, or nothing ([nullptr]). *)
Definition GetNextPacket (q : t) : option Packet := head q.

(** Modelled from the spec: [GlobalSendBuffer::AddPacket], enqueues
    what the factory made and reports the factory's failure. *)
Definition AddPacket (p : option Packet) (q : t) : Result * t :=
  match p with
  | Some pkt => (ResultSuccess, q ++ [pkt])
  | None => (ResultAllocationFailure, q)
  end.

(** Modelled from the spec: [GlobalSendBuffer::RemovePacket], pops the
    front of the queue. *)
Definition RemovePacket (q : t) : t := tail q.
End GlobalSendBuffer.

(** Modelled from the spec: the sleep/wake detector
    ([ctrl::HtcctrlStateMachine], declared outside this file), of which
    the multiplexer only polls [IsSleeping]. *)
Record HtcctrlStateMachine : Type := MkStateMachine { IsSleeping : bool }.

(** Modelled from the spec: the task registry (the task manager,
    declared outside this file); its state here is the number of
    "send ready" notifications it has received. *)
Record TaskManager : Type := MkTaskManager { send_ready_notifications : nat }.

(** Modelled from the spec: [NotifySendReady] of the task registry. *)
Definition NotifySendReady (tm : TaskManager) : TaskManager :=
  MkTaskManager (S (send_ready_notifications tm)).

(** ** The trace of outward calls *)

Inductive ChannelCall : Type :=
  | Call_ProcessReceivePacket
  | Call_QuerySendPacket
  | Call_RemovePacket
  | Call_UpdateState
  | Call_SetVersion
  | Call_SetSendBuffer
  | Call_SetSendBufferWithData
  | Call_SetReceiveBuffer.

Inductive Event : Type :=
  | EvLock
  | EvUnlock
  | EvChannel (index : nat) (call : ChannelCall)
  | EvMakeErrorPacket (ch : ChannelInternalType)
  | EvSignal
  | EvNotifySendReady.

Global Instance ChannelCall_eq_dec : EqDecision ChannelCall.
Proof. solve_decision. Defined.

Global Instance Event_eq_dec : EqDecision Event.
Proof. solve_decision. Defined.

Definition is_lock_event (e : Event) : bool :=
  match e with
  | EvLock | EvUnlock => true
  | _ => false
  end.

(** ** Ways in which execution stops instead of returning *)

Inductive Fault : Type :=
  | AssertionFailed        (* AMS_ASSERT *)
  | AbortUnlessFailed      (* AMS_ABORT_UNLESS *)
  | UnreachableDefaultCase (* AMS_UNREACHABLE_DEFAULT_CASE *)
  | InvalidChannelIndex    (* operator[] on a slot that holds no channel *)
  | LockAlreadyHeld.       (* scoped_lock on the mutex while it is held *)

(** ** The multiplexer object *)

(** Modelled from the spec: the channel table ([ChannelImplMap],
    declared outside this file): a mapping from channel id to channel
    with a stable iteration order.  [GetMap] pairs every id with the
    slot that holds its channel, [operator[]] reaches a channel through
    its slot.  The slot of an entry is its position in the list below. *)
Abbreviation ChannelImplMap Chan := (list (ChannelInternalType * Chan)).

Section Multiplexer.

Context {Chan : Type} `{ChannelEngine Chan}.
Context {PF : Type} `{PacketFactory PF}.

(** Constants that are declared outside this file. *)
Variable HtcGen2Signature : Z.
Variable sizeof_PacketBody : Z.
Variable ProtocolVersion : Z.
Variable MaxChannelCount : nat.

Record Mux : Type := MkMux {
  m_packet_factory : PF;
  m_state_machine : HtcctrlStateMachine;
  m_task_manager : TaskManager;
  m_event : bool;
  m_channel_impl_map : ChannelImplMap Chan;
  m_global_send_buffer : GlobalSendBuffer.t;
  m_mutex : bool;
  m_state : MuxState;
  m_version : Z;
  m_trace : list Event
}.

Definition set_packet_factory (x : PF) (m : Mux) : Mux :=
  MkMux x (m_state_machine m) (m_task_manager m) (m_event m)
    (m_channel_impl_map m) (m_global_send_buffer m) (m_mutex m)
    (m_state m) (m_version m) (m_trace m).

Definition set_state_machine (x : HtcctrlStateMachine) (m : Mux) : Mux :=
  MkMux (m_packet_factory m) x (m_task_manager m) (m_event m)
    (m_channel_impl_map m) (m_global_send_buffer m) (m_mutex m)
    (m_state m) (m_version m) (m_trace m).

Definition set_task_manager (x : TaskManager) (m : Mux) : Mux :=
  MkMux (m_packet_factory m) (m_state_machine m) x (m_event m)
    (m_channel_impl_map m) (m_global_send_buffer m) (m_mutex m)
    (m_state m) (m_version m) (m_trace m).

Definition set_event (x : bool) (m : Mux) : Mux :=
  MkMux (m_packet_factory m) (m_state_machine m) (m_task_manager m) x
    (m_channel_impl_map m) (m_global_send_buffer m) (m_mutex m)
    (m_state m) (m_version m) (m_trace m).

Definition set_channel_impl_map (x : ChannelImplMap Chan) (m : Mux) : Mux :=
  MkMux (m_packet_factory m) (m_state_machine m) (m_task_manager m)
    (m_event m) x (m_global_send_buffer m) (m_mutex m)
    (m_state m) (m_version m) (m_trace m).

Definition set_global_send_buffer (x : GlobalSendBuffer.t) (m : Mux) : Mux :=
  MkMux (m_packet_factory m) (m_state_machine m) (m_task_manager m)
    (m_event m) (m_channel_impl_map m) x (m_mutex m)
    (m_state m) (m_version m) (m_trace m).

Definition set_mutex (x : bool) (m : Mux) : Mux :=
  MkMux (m_packet_factory m) (m_state_machine m) (m_task_manager m)
    (m_event m) (m_channel_impl_map m) (m_global_send_buffer m) x
    (m_state m) (m_version m) (m_trace m).

Definition set_state (x : MuxState) (m : Mux) : Mux :=
  MkMux (m_packet_factory m) (m_state_machine m) (m_task_manager m)
    (m_event m) (m_channel_impl_map m) (m_global_send_buffer m) (m_mutex m)
    x (m_version m) (m_trace m).

Definition set_version (x : Z) (m : Mux) : Mux :=
  MkMux (m_packet_factory m) (m_state_machine m) (m_task_manager m)
    (m_event m) (m_channel_impl_map m) (m_global_send_buffer m) (m_mutex m)
    (m_state m) x (m_trace m).

Definition set_trace (x : list Event) (m : Mux) : Mux :=
  MkMux (m_packet_factory m) (m_state_machine m) (m_task_manager m)
    (m_event m) (m_channel_impl_map m) (m_global_send_buffer m) (m_mutex m)
    (m_state m) (m_version m) x.

(** [Mux::Mux(pf, sm)]: no channel, no control packet, event clear,
    mutex free, state Normal, version [ProtocolVersion]. *)
Definition Mux_new (pf : PF) (sm : HtcctrlStateMachine) : Mux :=
  MkMux pf sm (MkTaskManager 0) false [] [] false
    MuxState_Normal ProtocolVersion [].

(** ** The monad of member functions *)

Inductive Outcome (A : Type) : Type :=
  | Returns (a : A) (m : Mux)
  | Stops (f : Fault).

Arguments Returns {A} a m.
Arguments Stops {A} f.

Definition M (A : Type) : Type := Mux -> Outcome A.

Definition ret {A : Type} (a : A) : M A := fun m => Returns a m.

Definition bind {A B : Type} (c : M A) (k : A -> M B) : M B :=
  fun m =>
    match c m with
    | Returns a m' => k a m'
    | Stops f => Stops f
    end.

Definition gets {A : Type} (f : Mux -> A) : M A := fun m => Returns (f m) m.

Definition modify (f : Mux -> Mux) : M unit := fun m => Returns tt (f m).

Definition stop {A : Type} (f : Fault) : M A := fun _ => Stops f.

Definition record (e : Event) : M unit :=
  modify (fun m => set_trace (m_trace m ++ [e]) m).

Notation "'do' x <- c ; k" := (bind c (fun x => k))
  (at level 10, x name, c at level 100, k at level 200).
Notation "'do' '_' <- c ; k" := (bind c (fun _ => k))
  (at level 10, c at level 100, k at level 200).

(** Modelled from the spec: the one exclusive lock ([m_mutex], whose
    class is declared outside this file).  It is not re-entrant: taking
    it while it is held never returns. *)
Definition mutex_lock : M unit :=
  do held <- gets m_mutex;
  if (held : bool) then stop LockAlreadyHeld
  else do _ <- modify (set_mutex true); record EvLock.

Definition mutex_unlock : M unit :=
  do _ <- modify (set_mutex false); record EvUnlock.

(** [std::scoped_lock lk(m_mutex)] at the head of a body: the mutex is
    taken before the body and released when the body returns, whatever
    it returns. *)
Definition scoped_lock {A : Type} (body : M A) : M A :=
  do _ <- mutex_lock;
  do r <- body;
  do _ <- mutex_unlock;
  ret r.

(** Modelled from the spec: [m_event.Signal()], the readiness signal is
    manual-reset and binary; signalling sets it. *)
Definition event_Signal : M unit :=
  do _ <- modify (set_event true); record EvSignal.

(** [m_task_manager.NotifySendReady()] *)
Definition task_manager_NotifySendReady : M unit :=
  do _ <- modify (fun m => set_task_manager (NotifySendReady (m_task_manager m)) m);
  record EvNotifySendReady.

(** ** The channel table *)

Fixpoint pairs_from (i : nat) (t : ChannelImplMap Chan)
  : list (ChannelInternalType * nat) :=
  match t with
  | [] => []
  | (k, _) :: t' => (k, i) :: pairs_from (S i) t'
  end.

(** Modelled from the spec: [m_channel_impl_map.GetMap()], the pairs of
    channel id and slot in the table's iteration order. *)
Definition GetMap (m : Mux) : list (ChannelInternalType * nat) :=
  pairs_from 0%nat (m_channel_impl_map m).

(** Modelled from the spec: [GetMap().find(channel)], the lookup of a
    channel id; [None] is [end()]. *)
Definition map_find (ch : ChannelInternalType)
    (pairs : list (ChannelInternalType * nat))
  : option (ChannelInternalType * nat) :=
  List.find (fun p => Z.eqb (fst p) ch) pairs.

(** Modelled from the spec: [m_channel_impl_map.Exists(channel)], the
    existence check of the table. *)
Definition Exists (ch : ChannelInternalType) (m : Mux) : bool :=
  match map_find ch (GetMap m) with
  | Some _ => true
  | None => false
  end.

(** Modelled from the spec: [m_channel_impl_map[index].f(...)], a call
    into the engine of the channel in slot [index], which may change
    that engine. *)
Definition channel_call {B : Type} (index : nat) (call : ChannelCall)
    (f : Chan -> B * Chan) : M B :=
  fun m =>
    match m_channel_impl_map m !! index with
    | Some (k, c) =>
        let '(b, c') := f c in
        Returns b
          (set_trace (m_trace m ++ [EvChannel index call])
             (set_channel_impl_map
                (<[index := (k, c')]> (m_channel_impl_map m)) m))
    | None => Stops InvalidChannelIndex
    end.

(** Modelled from the spec: [m_channel_impl_map.AddChannel(channel)],
    the insertion of a new channel entry; it can fail (the source
    wraps it in [R_TRY]), here when the table has no room left.  New
    entries come last in the iteration order. *)
Definition AddChannel (ch : ChannelInternalType) : M Result :=
  do t <- gets m_channel_impl_map;
  if (length t <? MaxChannelCount)%nat
  then do _ <- modify (set_channel_impl_map (t ++ [(ch, chan_new ch)]));
       ret ResultSuccess
  else ret ResultOutOfChannel.

(** Modelled from the spec: [m_channel_impl_map.GetChannelImpl(channel)
    .f(...)], a call into the engine of the channel with this id. *)
Definition GetChannelImpl_call {B : Type} (ch : ChannelInternalType)
    (call : ChannelCall) (f : Chan -> B * Chan) : M B :=
  do pairs <- gets GetMap;
  match map_find ch pairs with
  | Some it => channel_call (snd it) call f
  | None => stop InvalidChannelIndex
  end.

(** A range-for over [GetMap()]. *)
Fixpoint for_each {A : Type} (l : list A) (body : A -> M unit) : M unit :=
  match l with
  | [] => ret tt
  | x :: l' => do _ <- body x; for_each l' body
  end.

(** ** Member functions *)

Definition SetVersion (version : Z) : M unit :=
  (* Set our version. *)
  do _ <- modify (set_version version);
  (* Set all entries in our map. *)
  do pairs <- gets GetMap;
  for_each pairs (fun pr =>
    do v <- gets m_version;
    channel_call (snd pr) Call_SetVersion (fun c => (tt, chan_SetVersion v c))).

(** [AMS_ASSERT] on the signature is taken as enabled: a header with a
    bad signature stops execution. *)
Definition CheckReceivedHeader (header : PacketHeader) : M Result :=
  (* Check the packet signature. *)
  if negb (signature header =? HtcGen2Signature) then stop AssertionFailed
  else
  do m_version <- gets m_version;
  (* Switch on the packet type. *)
  match packet_type header with
  | PacketType_Data =>
      if negb (version header =? m_version) then ret ResultProtocolError
      else if negb (body_size header <=? sizeof_PacketBody) then ret ResultProtocolError
      else ret ResultSuccess
  | PacketType_MaxData =>
      if negb (version header =? m_version) then ret ResultProtocolError
      else if negb (body_size header =? 0) then ret ResultProtocolError
      else ret ResultSuccess
  | PacketType_Error =>
      if negb (body_size header =? 0) then ret ResultProtocolError
      else ret ResultSuccess
  | PacketType_Invalid _ => stop UnreachableDefaultCase
  end.

Definition SendErrorPacket (ch : ChannelInternalType) : M Result :=
  (* Create and send the packet. *)
  do _ <- record (EvMakeErrorPacket ch);
  do pf <- gets m_packet_factory;
  let '(packet, pf') := pf_MakeErrorPacket ch pf in
  do _ <- modify (set_packet_factory pf');
  do q <- gets m_global_send_buffer;
  let '(r, q') := GlobalSendBuffer.AddPacket packet q in
  do _ <- modify (set_global_send_buffer q');
  if R_FAILED r then ret r
  else
  (* Signal our event. *)
  do _ <- event_Signal;
  ret ResultSuccess.

Definition ProcessReceivePacket (header : PacketHeader) (body : PacketBody)
    (body_size : Z) : M Result :=
  (* Lock ourselves. *)
  scoped_lock (
    (* Process for the channel. *)
    do pairs <- gets GetMap;
    match map_find (channel header) pairs with
    | Some it =>
        channel_call (snd it) Call_ProcessReceivePacket
          (chan_ProcessReceivePacket header body body_size)
    | None =>
        do _ <- match packet_type header with
                | PacketType_Data | PacketType_MaxData =>
                    do _ <- SendErrorPacket (channel header); ret tt
                | _ => ret tt
                end;
        ret ResultChannelNotExist
    end).

Definition IsSendable (packet_type : PacketType) : M bool :=
  do state <- gets m_state;
  match state with
  | MuxState_Normal => ret true
  | MuxState_Sleep => ret false
  end.

(** The loop of [QuerySendPacket] over [GetMap()]. *)
Fixpoint QuerySendPacket_loop (pairs : list (ChannelInternalType * nat))
    (out : SendOut) : M (bool * SendOut) :=
  match pairs with
  | [] => ret (false, out)
  | pr :: rest =>
      (* See if the channel has something for us to send. *)
      do found <- channel_call (snd pr) Call_QuerySendPacket chan_QuerySendPacket;
      match found with
      | Some out' =>
          do sendable <- IsSendable (packet_type (out_header out'));
          ret (sendable, out')
      | None => QuerySendPacket_loop rest out
      end
  end.

Definition QuerySendPacket (out : SendOut) : M (bool * SendOut) :=
  (* Lock ourselves. *)
  scoped_lock (
    (* Check for an error packet. *)
    do q <- gets m_global_send_buffer;
    match GlobalSendBuffer.GetNextPacket q with
    | Some error_packet =>
        ret (true, MkSendOut (GetHeader error_packet) (out_body out) 0)
    | None =>
        (* Iterate the map, checking each channel for a valid packet. *)
        do pairs <- gets GetMap;
        QuerySendPacket_loop pairs out
    end).

Definition RemovePacket (header : PacketHeader) : M unit :=
  (* Lock ourselves. *)
  scoped_lock (
    (* Remove the packet from the appropriate source. *)
    do _ <- match packet_type header with
            | PacketType_Error =>
                modify (fun m => set_global_send_buffer
                          (GlobalSendBuffer.RemovePacket (m_global_send_buffer m)) m)
            | _ =>
                do pairs <- gets GetMap;
                match map_find (channel header) pairs with
                | Some it =>
                    channel_call (snd it) Call_RemovePacket
                      (fun c => (tt, chan_RemovePacket header c))
                | None => ret tt
                end
            end;
    (* Notify the task manager. *)
    task_manager_NotifySendReady).

Definition UpdateChannelState : M unit :=
  (* Lock ourselves. *)
  scoped_lock (
    (* Update the state of all channels in our map. *)
    do pairs <- gets GetMap;
    for_each pairs (fun pr =>
      channel_call (snd pr) Call_UpdateState (fun c => (tt, chan_UpdateState c)))).

Definition UpdateMuxState : M unit :=
  (* Lock ourselves. *)
  scoped_lock (
    (* Update whether we're sleeping. *)
    do sm <- gets m_state_machine;
    if IsSleeping sm then modify (set_state MuxState_Sleep)
    else do _ <- modify (set_state MuxState_Normal); event_Signal).

Definition CheckChannelExist (ch : ChannelInternalType) : M Result :=
  do present <- gets (Exists ch);
  if (present : bool) then ret ResultSuccess else ret ResultChannelNotExist.

Definition Open (ch : ChannelInternalType) : M Result :=
  (* Lock ourselves. *)
  scoped_lock (
    (* Check that the channel doesn't already exist. *)
    do present <- gets (Exists ch);
    if (present : bool) then ret ResultChannelAlreadyExist
    else
    (* Add the channel. *)
    do r <- AddChannel ch;
    if R_FAILED r then ret r
    else
    (* Set the channel version. *)
    do v <- gets m_version;
    do _ <- GetChannelImpl_call ch Call_SetVersion (fun c => (tt, chan_SetVersion v c));
    ret ResultSuccess).

(** The task manager's [GetTaskEvent(task_id)] is declared outside this
    file; the handle it returns is named here by the task it belongs
    to. *)
Definition GetTaskEvent (task_id : Z) : M Z :=
  (* Lock ourselves. *)
  scoped_lock (ret task_id).

Definition SetSendBuffer (ch : ChannelInternalType)
    (buf buf_size max_packet_size : Z) : M unit :=
  (* Lock ourselves. *)
  scoped_lock (
    (* Find the channel. *)
    do pairs <- gets GetMap;
    match map_find ch pairs with
    | None => stop AbortUnlessFailed
    | Some it =>
        (* Set the send buffer. *)
        channel_call (snd it) Call_SetSendBuffer
          (fun c => (tt, chan_SetSendBuffer buf buf_size max_packet_size c))
    end).

Definition SetSendBufferWithData (ch : ChannelInternalType)
    (buf buf_size max_packet_size : Z) : M unit :=
  (* Lock ourselves. *)
  scoped_lock (
    (* Find the channel. *)
    do pairs <- gets GetMap;
    match map_find ch pairs with
    | None => stop AbortUnlessFailed
    | Some it =>
        (* Set the send buffer. *)
        channel_call (snd it) Call_SetSendBufferWithData
          (fun c => (tt, chan_SetSendBufferWithData buf buf_size max_packet_size c))
    end).

Definition SetReceiveBuffer (ch : ChannelInternalType) (buf buf_size : Z) : M unit :=
  (* Lock ourselves. *)
  scoped_lock (
    (* Find the channel. *)
    do pairs <- gets GetMap;
    match map_find ch pairs with
    | None => stop AbortUnlessFailed
    | Some it =>
        (* Set the send buffer. *)
        channel_call (snd it) Call_SetReceiveBuffer
          (fun c => (tt, chan_SetReceiveBuffer buf buf_size c))
    end).

End Multiplexer.

Notation "'do' x <- c ; k" := (bind c (fun x => k))
  (at level 10, x name, c at level 100, k at level 200).
Notation "'do' '_' <- c ; k" := (bind c (fun _ => k))
  (at level 10, c at level 100, k at level 200).

Arguments Mux : clear implicits.
Arguments Outcome : clear implicits.
Arguments Returns {Chan PF A} a m.
Arguments Stops {Chan PF A} f.
Arguments MkMux {Chan PF}.
Arguments M : clear implicits.

(** ** The public operations as data

    The operations of the multiplexer's exposed surface, so that
    statements can range over all of them and over sequences of calls.
    [Op_DetectorReports] is not a member function: it stands for the
    sleep/wake detector changing its answer between two calls. *)

Inductive Operation : Type :=
  | Op_SetVersion (version : Z)
  | Op_CheckReceivedHeader (header : PacketHeader)
  | Op_ProcessReceivePacket (header : PacketHeader) (body : PacketBody) (body_size : Z)
  | Op_QuerySendPacket (out : SendOut)
  | Op_RemovePacket (header : PacketHeader)
  | Op_UpdateChannelState
  | Op_UpdateMuxState
  | Op_CheckChannelExist (ch : ChannelInternalType)
  | Op_SendErrorPacket (ch : ChannelInternalType)
  | Op_Open (ch : ChannelInternalType)
  | Op_GetTaskEvent (task_id : Z)
  | Op_SetSendBuffer (ch : ChannelInternalType) (buf buf_size max_packet_size : Z)
  | Op_SetSendBufferWithData (ch : ChannelInternalType) (buf buf_size max_packet_size : Z)
  | Op_SetReceiveBuffer (ch : ChannelInternalType) (buf buf_size : Z)
  | Op_DetectorReports (sleeping : bool).

(** Whether the body of the member function begins with
    [std::scoped_lock lk(m_mutex)]. *)
Definition takes_lock (op : Operation) : bool :=
  match op with
  | Op_SetVersion _ | Op_CheckReceivedHeader _
  | Op_CheckChannelExist _ | Op_SendErrorPacket _
  | Op_DetectorReports _ => false
  | _ => true
  end.

Section Calls.

Context {Chan : Type} `{ChannelEngine Chan}.
Context {PF : Type} `{PacketFactory PF}.
Variable HtcGen2Signature : Z.
Variable sizeof_PacketBody : Z.
Variable MaxChannelCount : nat.

Local Abbreviation MuxT := (Mux Chan PF).

Definition discard {A : Type} (c : M Chan PF A) : M Chan PF unit :=
  bind c (fun _ => ret tt).

Definition perform (op : Operation) : M Chan PF unit :=
  match op with
  | Op_SetVersion v => SetVersion v
  | Op_CheckReceivedHeader h =>
      discard (CheckReceivedHeader HtcGen2Signature sizeof_PacketBody h)
  | Op_ProcessReceivePacket h b n => discard (ProcessReceivePacket h b n)
  | Op_QuerySendPacket out => discard (QuerySendPacket out)
  | Op_RemovePacket h => RemovePacket h
  | Op_UpdateChannelState => UpdateChannelState
  | Op_UpdateMuxState => UpdateMuxState
  | Op_CheckChannelExist ch => discard (CheckChannelExist ch)
  | Op_SendErrorPacket ch => discard (SendErrorPacket ch)
  | Op_Open ch => discard (Open MaxChannelCount ch)
  | Op_GetTaskEvent id => discard (GetTaskEvent id)
  | Op_SetSendBuffer ch b n k => SetSendBuffer ch b n k
  | Op_SetSendBufferWithData ch b n k => SetSendBufferWithData ch b n k
  | Op_SetReceiveBuffer ch b n => SetReceiveBuffer ch b n
  | Op_DetectorReports s => modify (set_state_machine (MkStateMachine s))
  end.

(** A sequence of calls, one after the other. *)
Fixpoint perform_all (ops : list Operation) : M Chan PF unit :=
  match ops with
  | [] => ret tt
  | op :: ops' => bind (perform op) (fun _ => perform_all ops')
  end.

(** Every open channel has the multiplexer's current version. *)
Definition versions_agree (m : Mux Chan PF) : Prop :=
  Forall (fun kc => chan_version (snd kc) = m_version m) (m_channel_impl_map m).

(** What the loop of [QuerySendPacket] does to a table, slot by slot:
    the packet of the first channel that has one, the table after the
    queries, and the number of channels asked. *)
Fixpoint scan (t : ChannelImplMap Chan)
  : option SendOut * ChannelImplMap Chan * nat :=
  match t with
  | [] => (None, [], 0%nat)
  | (k, c) :: t' =>
      let '(found, c') := chan_QuerySendPacket c in
      match found with
      | Some o => (Some o, (k, c') :: t', 1%nat)
      | None =>
          let '(r, t'', n) := scan t' in (r, (k, c') :: t'', S n)
      end
  end.

(** The table after every channel of it has been asked once. *)
Definition queried (t : ChannelImplMap Chan) : ChannelImplMap Chan :=
  map (fun kc => (fst kc, snd (chan_QuerySendPacket (snd kc)))) t.

(** The events of calls [call] into the slots [first], [first+1], ... *)
Definition channel_events (call : ChannelCall) (first count : nat) : list Event :=
  map (fun i => EvChannel i call) (seq first count).

Definition count_send_ready (t : list Event) : nat :=
  count_occ Event_eq_dec t EvNotifySendReady.

(** ** Vocabulary of the statements *)

(** Under condition [P] the header is accepted, and otherwise it is
    rejected with [ProtocolError]; the multiplexer is left as it was. *)
Definition accepted_iff (header : PacketHeader) (m : MuxT) (P : Prop) : Prop :=
  (P -> CheckReceivedHeader HtcGen2Signature sizeof_PacketBody header m
        = Returns ResultSuccess m) /\
  (~ P -> CheckReceivedHeader HtcGen2Signature sizeof_PacketBody header m
          = Returns ResultProtocolError m).

Definition locked (m : MuxT) : MuxT :=
  set_trace (m_trace m ++ [EvLock]) (set_mutex true m).

Definition unlocked (m : MuxT) : MuxT :=
  set_trace (m_trace m ++ [EvUnlock]) (set_mutex false m).

(** What [SendErrorPacket] does, by what the factory returns. *)
Definition after_error_packet_made (ch : ChannelInternalType) (p : Packet)
    (pf' : PF) (m : MuxT) : MuxT :=
  set_trace (m_trace m ++ [EvMakeErrorPacket ch; EvSignal])
    (set_event true
       (set_global_send_buffer (m_global_send_buffer m ++ [p])
          (set_packet_factory pf' m))).

Definition after_error_packet_failed (ch : ChannelInternalType)
    (pf' : PF) (m : MuxT) : MuxT :=
  set_trace (m_trace m ++ [EvMakeErrorPacket ch]) (set_packet_factory pf' m).

(** The part of [RemovePacket] that depends on the header: the events
    between the lock and the notification. *)
Definition removal_events (m : MuxT) (header : PacketHeader) : list Event :=
  match packet_type header with
  | PacketType_Error => []
  | _ =>
      match map_find (channel header) (GetMap m) with
      | Some it => [EvChannel (snd it) Call_RemovePacket]
      | None => []
      end
  end.

(** The table after the channel in slot [index] has run [g]. *)
Definition table_apply (index : nat) (g : Chan -> Chan)
    (t : ChannelImplMap Chan) : ChannelImplMap Chan :=
  match t !! index with
  | Some (k, c) => <[index := (k, g c)]> t
  | None => t
  end.

Definition after_removal (m : MuxT) (header : PacketHeader) : MuxT :=
  set_trace
    (m_trace m ++ [EvLock] ++ removal_events m header
       ++ [EvNotifySendReady; EvUnlock])
    (set_task_manager (NotifySendReady (m_task_manager m))
       match packet_type header with
       | PacketType_Error =>
           set_global_send_buffer
             (GlobalSendBuffer.RemovePacket (m_global_send_buffer m)) m
       | _ =>
           match map_find (channel header) (GetMap m) with
           | Some it =>
               set_channel_impl_map
                 (table_apply (snd it) (chan_RemovePacket header)
                    (m_channel_impl_map m)) m
           | None => m
           end
       end).

(** The sendability gate, as a function of the state. *)
Definition gate (m : MuxT) : bool :=
  match m_state m with
  | MuxState_Normal => true
  | MuxState_Sleep => false
  end.

Definition respects (R : MuxT -> MuxT -> Prop) {A : Type}
    (c : M Chan PF A) : Prop :=
  forall m a m', c m = Returns a m' -> R m m'.

(** The invariant, read as a relation between the states before and
    after a step. *)
Definition keeps_versions (m m' : MuxT) : Prop :=
  versions_agree m -> versions_agree m'.

(** Nothing between [m] and [m'] touched the mutex: its state is the
    same and the trace grew by events that are neither lock nor unlock. *)
Definition lock_free_steps (m m' : MuxT) : Prop :=
  m_mutex m' = m_mutex m /\
  exists evs, m_trace m' = m_trace m ++ evs /\
              Forall (fun e => is_lock_event e = false) evs.

(** Between [m] and [m'] the mutex was taken once, first, and released
    once, last: every other outward call lies between the two. *)
Definition lock_bracketed (m m' : MuxT) : Prop :=
  m_mutex m' = false /\
  exists evs, m_trace m' = m_trace m ++ [EvLock] ++ evs ++ [EvUnlock] /\
              Forall (fun e => is_lock_event e = false) evs.

(** The ways a call can stop that the source itself declares. *)
Definition declared_abort (op : Operation) (m : MuxT) (f : Fault) : Prop :=
  match op with
  | Op_CheckReceivedHeader h =>
      (f = AssertionFailed /\ signature h <> HtcGen2Signature) \/
      (f = UnreachableDefaultCase /\ exists raw, packet_type h = PacketType_Invalid raw)
  | Op_SetSendBuffer ch _ _ _
  | Op_SetSendBufferWithData ch _ _ _
  | Op_SetReceiveBuffer ch _ _ =>
      f = AbortUnlessFailed /\ ch ∉ map fst (m_channel_impl_map m)
  | _ => False
  end.

(** ** Vocabulary of further statements *)

(** The channel ids of the table, in iteration order. *)
Definition channel_ids (m : MuxT) : list ChannelInternalType :=
  map fst (m_channel_impl_map m).

(** The number of notifications the task manager has received. *)
Definition notifications (m : MuxT) : nat :=
  send_ready_notifications (m_task_manager m).

(** A step leaves the observation [f] of the state as it was. *)
Definition same_on {A : Type} (f : MuxT -> A) (m m' : MuxT) : Prop :=
  f m' = f m.

(** A step does not clear the event. *)
Definition event_kept (m m' : MuxT) : Prop :=
  m_event m = true -> m_event m' = true.

Definition is_SetVersion (op : Operation) : bool :=
  match op with Op_SetVersion _ => true | _ => false end.

Definition is_UpdateMuxState (op : Operation) : bool :=
  match op with Op_UpdateMuxState => true | _ => false end.

Definition is_RemovePacket (op : Operation) : bool :=
  match op with Op_RemovePacket _ => true | _ => false end.

Fixpoint count_RemovePacket_calls (ops : list Operation) : nat :=
  match ops with
  | [] => 0%nat
  | op :: ops' =>
      ((if is_RemovePacket op then 1 else 0) + count_RemovePacket_calls ops')%nat
  end.

(** No call in the sequence is [SetVersion], respectively
    [UpdateMuxState]. *)
Definition without_SetVersion (ops : list Operation) : bool :=
  forallb (fun op => negb (is_SetVersion op)) ops.

Definition without_UpdateMuxState (ops : list Operation) : bool :=
  forallb (fun op => negb (is_UpdateMuxState op)) ops.

End Calls.

(** ** The member functions, step by step

    A computation of the monad says what a member function does to the
    multiplexer, not at which moment: a write of [m_state] made before
    the mutex is taken and one made under it give the same function.
    To speak of the lock, the member functions are written once more as
    sequences of primitive steps -- one per read or write of a member
    and per outward call of the source -- and run with a log that notes,
    for every step, whether the mutex was held when the step was made. *)

(** The state that the lock is there to guard. *)
Inductive Guarded : Type :=
  | G_channel_table   (* m_channel_impl_map *)
  | G_control_queue   (* m_global_send_buffer *)
  | G_version         (* m_version *)
  | G_state.          (* m_state *)

(** What a step does as far as the lock is concerned. *)
Inductive Action : Type :=
  | A_lock
  | A_unlock
  | A_read (g : Guarded)
  | A_write (g : Guarded)
  | A_other.           (* a step that touches no guarded member *)

Definition is_lock_action (a : Action) : bool :=
  match a with
  | A_lock | A_unlock => true
  | _ => false
  end.

(** A value for one guarded member. *)
Inductive GuardedValue (Chan : Type) : Type :=
  | V_channel_table (t : ChannelImplMap Chan)
  | V_control_queue (q : GlobalSendBuffer.t)
  | V_version (v : Z)
  | V_state (s : MuxState).

Arguments V_channel_table {Chan} t.
Arguments V_control_queue {Chan} q.
Arguments V_version {Chan} v.
Arguments V_state {Chan} s.

Section Steps.

Context {Chan : Type} `{ChannelEngine Chan}.
Context {PF : Type} `{PacketFactory PF}.
Variable HtcGen2Signature : Z.
Variable sizeof_PacketBody : Z.
Variable MaxChannelCount : nat.

(** The primitive steps of the member functions. *)
Inductive Prim : Type -> Type :=
  | P_lock : Prim unit                       (* std::scoped_lock lk(m_mutex) *)
  | P_unlock : Prim unit                     (* the end of lk's scope *)
  | P_read_version : Prim Z                  (* m_version, read *)
  | P_write_version (v : Z) : Prim unit      (* m_version = v *)
  | P_read_state : Prim MuxState             (* m_state, read *)
  | P_write_state (s : MuxState) : Prim unit (* m_state = s *)
  | P_GetMap : Prim (list (ChannelInternalType * nat))
  | P_Exists (ch : ChannelInternalType) : Prim bool
  | P_channel_call {B : Type} (index : nat) (call : ChannelCall)
      (f : Chan -> B * Chan) : Prim B
  | P_AddChannel (ch : ChannelInternalType) : Prim Result
  | P_GetChannelImpl_call {B : Type} (ch : ChannelInternalType)
      (call : ChannelCall) (f : Chan -> B * Chan) : Prim B
  | P_GetNextPacket : Prim (option Packet)
  | P_RemovePacket : Prim unit               (* m_global_send_buffer.RemovePacket() *)
  | P_AddPacket (packet : option Packet) : Prim Result
  | P_MakeErrorPacket (ch : ChannelInternalType) : Prim (option Packet)
  | P_Signal : Prim unit                     (* m_event.Signal() *)
  | P_IsSleeping : Prim bool                 (* m_state_machine->IsSleeping() *)
  | P_NotifySendReady : Prim unit
  | P_GetTaskEvent (task_id : Z) : Prim Z    (* m_task_manager.GetTaskEvent(task_id) *)
  | P_DetectorReports (sleeping : bool) : Prim unit.

(** What a primitive step does, in the monad of the member functions. *)
Definition prim_run {B : Type} (p : Prim B) : M Chan PF B :=
  match p in Prim B0 return M Chan PF B0 with
  | P_lock => mutex_lock
  | P_unlock => mutex_unlock
  | P_read_version => gets m_version
  | P_write_version v => modify (set_version v)
  | P_read_state => gets m_state
  | P_write_state s => modify (set_state s)
  | P_GetMap => gets GetMap
  | P_Exists ch => gets (Exists ch)
  | P_channel_call index call f => channel_call index call f
  | P_AddChannel ch => AddChannel MaxChannelCount ch
  | P_GetChannelImpl_call ch call f => GetChannelImpl_call ch call f
  | P_GetNextPacket =>
      gets (fun m => GlobalSendBuffer.GetNextPacket (m_global_send_buffer m))
  | P_RemovePacket =>
      modify (fun m => set_global_send_buffer
                (GlobalSendBuffer.RemovePacket (m_global_send_buffer m)) m)
  | P_AddPacket packet =>
      do q <- gets m_global_send_buffer;
      let '(r, q') := GlobalSendBuffer.AddPacket packet q in
      do _ <- modify (set_global_send_buffer q');
      ret r
  | P_MakeErrorPacket ch =>
      do _ <- record (EvMakeErrorPacket ch);
      do pf <- gets m_packet_factory;
      let '(packet, pf') := pf_MakeErrorPacket ch pf in
      do _ <- modify (set_packet_factory pf');
      ret packet
  | P_Signal => event_Signal
  | P_IsSleeping => gets (fun m => IsSleeping (m_state_machine m))
  | P_NotifySendReady => task_manager_NotifySendReady
  | P_GetTaskEvent task_id => ret task_id
  | P_DetectorReports s => modify (set_state_machine (MkStateMachine s))
  end.

(** The guarded members a primitive step reads or writes. *)
Definition prim_actions {B : Type} (p : Prim B) : list Action :=
  match p with
  | P_lock => [A_lock]
  | P_unlock => [A_unlock]
  | P_read_version => [A_read G_version]
  | P_write_version _ => [A_write G_version]
  | P_read_state => [A_read G_state]
  | P_write_state _ => [A_write G_state]
  | P_GetMap => [A_read G_channel_table]
  | P_Exists _ => [A_read G_channel_table]
  | P_channel_call _ _ _ => [A_read G_channel_table; A_write G_channel_table]
  | P_AddChannel _ => [A_read G_channel_table; A_write G_channel_table]
  | P_GetChannelImpl_call _ _ _ =>
      [A_read G_channel_table; A_write G_channel_table]
  | P_GetNextPacket => [A_read G_control_queue]
  | P_RemovePacket => [A_read G_control_queue; A_write G_control_queue]
  | P_AddPacket _ => [A_read G_control_queue; A_write G_control_queue]
  | P_MakeErrorPacket _ => [A_other]
  | P_Signal => [A_other]
  | P_IsSleeping => [A_other]
  | P_NotifySendReady => [A_other]
  | P_GetTaskEvent _ => [A_other]
  | P_DetectorReports _ => [A_other]
  end.

Definition is_lock_prim {B : Type} (p : Prim B) : bool :=
  match p with
  | P_lock | P_unlock => true
  | _ => false
  end.

Definition accesses (g : Guarded) (a : Action) : bool :=
  match a, g with
  | A_read G_channel_table, G_channel_table
  | A_write G_channel_table, G_channel_table
  | A_read G_control_queue, G_control_queue
  | A_write G_control_queue, G_control_queue
  | A_read G_version, G_version
  | A_write G_version, G_version
  | A_read G_state, G_state
  | A_write G_state, G_state => true
  | _, _ => false
  end.

(** Whether a primitive step reads or writes the guarded member [g]. *)
Definition touches {B : Type} (g : Guarded) (p : Prim B) : bool :=
  existsb (accesses g) (prim_actions p).

Definition guarded_of (x : GuardedValue Chan) : Guarded :=
  match x with
  | V_channel_table _ => G_channel_table
  | V_control_queue _ => G_control_queue
  | V_version _ => G_version
  | V_state _ => G_state
  end.

(** The multiplexer with one guarded member overwritten. *)
Definition put (x : GuardedValue Chan) (m : Mux Chan PF) : Mux Chan PF :=
  match x with
  | V_channel_table t => set_channel_impl_map t m
  | V_control_queue q => set_global_send_buffer q m
  | V_version v => set_version v m
  | V_state s => set_state s m
  end.

(** A member function as a sequence of primitive steps: it returns,
    stops, or makes a step and goes on with what the step gave. *)
Inductive Code (A : Type) : Type :=
  | Return (a : A)
  | Halt (f : Fault)
  | Step {B : Type} (p : Prim B) (k : B -> Code A).

Arguments Return {A} a.
Arguments Halt {A} f.
Arguments Step {A B} p k.

(** One sequence of steps after another. *)
Fixpoint code_bind {A B : Type} (c : Code A) (k : A -> Code B) : Code B :=
  match c with
  | Return a => k a
  | Halt f => Halt f
  | Step p k' => Step p (fun b => code_bind (k' b) k)
  end.

Notation "'prim' x <- p ; k" := (Step p (fun x => k))
  (at level 10, x name, p at level 100, k at level 200).
Notation "'prim' '_' <- p ; k" := (Step p (fun _ => k))
  (at level 10, p at level 100, k at level 200).
Notation "'sub' x <- c ; k" := (code_bind c (fun x => k))
  (at level 10, x name, c at level 100, k at level 200).
Notation "'sub' '_' <- c ; k" := (code_bind c (fun _ => k))
  (at level 10, c at level 100, k at level 200).

(** The computation a sequence of steps stands for. *)
Fixpoint run {A : Type} (c : Code A) : M Chan PF A :=
  match c with
  | Return a => ret a
  | Halt f => stop f
  | Step p k => do b <- prim_run p; run (k b)
  end.

(** The same run with its log: every step is entered with the state of
    the mutex at the moment the step is made.  A run that stops keeps
    the log of the steps made so far. *)
Fixpoint run_logged {A : Type} (c : Code A) (m : Mux Chan PF)
  : Outcome Chan PF A * list (bool * Action) :=
  match c with
  | Return a => (Returns a m, [])
  | Halt f => (Stops f, [])
  | Step p k =>
      let here := map (fun a => (m_mutex m, a)) (prim_actions p) in
      match prim_run p m with
      | Returns b m' =>
          let '(o, l) := run_logged (k b) m' in (o, here ++ l)
      | Stops f => (Stops f, here)
      end
  end.

(** [std::scoped_lock lk(m_mutex)] at the head of a body. *)
Definition scoped_lock_steps {A : Type} (body : Code A) : Code A :=
  prim _ <- P_lock;
  sub r <- body;
  prim _ <- P_unlock;
  Return r.

(** A range-for over [GetMap()]. *)
Fixpoint for_each_steps {X : Type} (l : list X) (body : X -> Code unit)
  : Code unit :=
  match l with
  | [] => Return tt
  | x :: l' => sub _ <- body x; for_each_steps l' body
  end.

Definition SetVersion_steps (version : Z) : Code unit :=
  (* Set our version. *)
  prim _ <- P_write_version version;
  (* Set all entries in our map. *)
  prim pairs <- P_GetMap;
  for_each_steps pairs (fun pr =>
    prim v <- P_read_version;
    prim _ <- P_channel_call (snd pr) Call_SetVersion
                (fun c => (tt, chan_SetVersion v c));
    Return tt).

Definition CheckReceivedHeader_steps (header : PacketHeader) : Code Result :=
  (* Check the packet signature. *)
  if negb (signature header =? HtcGen2Signature) then Halt AssertionFailed
  else
  (* Switch on the packet type. *)
  match packet_type header with
  | PacketType_Data =>
      prim m_version <- P_read_version;
      if negb (version header =? m_version) then Return ResultProtocolError
      else if negb (body_size header <=? sizeof_PacketBody)
           then Return ResultProtocolError
      else Return ResultSuccess
  | PacketType_MaxData =>
      prim m_version <- P_read_version;
      if negb (version header =? m_version) then Return ResultProtocolError
      else if negb (body_size header =? 0) then Return ResultProtocolError
      else Return ResultSuccess
  | PacketType_Error =>
      if negb (body_size header =? 0) then Return ResultProtocolError
      else Return ResultSuccess
  | PacketType_Invalid _ => Halt UnreachableDefaultCase
  end.

Definition SendErrorPacket_steps (ch : ChannelInternalType) : Code Result :=
  (* Create and send the packet. *)
  prim packet <- P_MakeErrorPacket ch;
  prim r <- P_AddPacket packet;
  if R_FAILED r then Return r
  else
  (* Signal our event. *)
  prim _ <- P_Signal;
  Return ResultSuccess.

Definition ProcessReceivePacket_steps (header : PacketHeader)
    (body : PacketBody) (body_size : Z) : Code Result :=
  (* Lock ourselves. *)
  scoped_lock_steps (
    (* Process for the channel. *)
    prim pairs <- P_GetMap;
    match map_find (channel header) pairs with
    | Some it =>
        prim r <- P_channel_call (snd it) Call_ProcessReceivePacket
                    (chan_ProcessReceivePacket header body body_size);
        Return r
    | None =>
        sub _ <- match packet_type header with
                 | PacketType_Data | PacketType_MaxData =>
                     sub _ <- SendErrorPacket_steps (channel header); Return tt
                 | _ => Return tt
                 end;
        Return ResultChannelNotExist
    end).

Definition IsSendable_steps (packet_type : PacketType) : Code bool :=
  prim state <- P_read_state;
  match state with
  | MuxState_Normal => Return true
  | MuxState_Sleep => Return false
  end.

(** The loop of [QuerySendPacket] over [GetMap()]. *)
Fixpoint QuerySendPacket_loop_steps (pairs : list (ChannelInternalType * nat))
    (out : SendOut) : Code (bool * SendOut) :=
  match pairs with
  | [] => Return (false, out)
  | pr :: rest =>
      (* See if the channel has something for us to send. *)
      prim found <- P_channel_call (snd pr) Call_QuerySendPacket
                      chan_QuerySendPacket;
      match found with
      | Some out' =>
          sub sendable <- IsSendable_steps (packet_type (out_header out'));
          Return (sendable, out')
      | None => QuerySendPacket_loop_steps rest out
      end
  end.

Definition QuerySendPacket_steps (out : SendOut) : Code (bool * SendOut) :=
  (* Lock ourselves. *)
  scoped_lock_steps (
    (* Check for an error packet. *)
    prim next <- P_GetNextPacket;
    match next with
    | Some error_packet =>
        Return (true, MkSendOut (GetHeader error_packet) (out_body out) 0)
    | None =>
        (* Iterate the map, checking each channel for a valid packet. *)
        prim pairs <- P_GetMap;
        QuerySendPacket_loop_steps pairs out
    end).

Definition RemovePacket_steps (header : PacketHeader) : Code unit :=
  (* Lock ourselves. *)
  scoped_lock_steps (
    (* Remove the packet from the appropriate source. *)
    sub _ <- match packet_type header with
             | PacketType_Error =>
                 prim _ <- P_RemovePacket; Return tt
             | _ =>
                 prim pairs <- P_GetMap;
                 match map_find (channel header) pairs with
                 | Some it =>
                     prim _ <- P_channel_call (snd it) Call_RemovePacket
                                 (fun c => (tt, chan_RemovePacket header c));
                     Return tt
                 | None => Return tt
                 end
             end;
    (* Notify the task manager. *)
    prim _ <- P_NotifySendReady;
    Return tt).

Definition UpdateChannelState_steps : Code unit :=
  (* Lock ourselves. *)
  scoped_lock_steps (
    (* Update the state of all channels in our map. *)
    prim pairs <- P_GetMap;
    for_each_steps pairs (fun pr =>
      prim _ <- P_channel_call (snd pr) Call_UpdateState
                  (fun c => (tt, chan_UpdateState c));
      Return tt)).

Definition UpdateMuxState_steps : Code unit :=
  (* Lock ourselves. *)
  scoped_lock_steps (
    (* Update whether we're sleeping. *)
    prim sleeping <- P_IsSleeping;
    if (sleeping : bool)
    then prim _ <- P_write_state MuxState_Sleep; Return tt
    else prim _ <- P_write_state MuxState_Normal;
         prim _ <- P_Signal;
         Return tt).

Definition CheckChannelExist_steps (ch : ChannelInternalType) : Code Result :=
  prim present <- P_Exists ch;
  if (present : bool) then Return ResultSuccess
  else Return ResultChannelNotExist.

Definition Open_steps (ch : ChannelInternalType) : Code Result :=
  (* Lock ourselves. *)
  scoped_lock_steps (
    (* Check that the channel doesn't already exist. *)
    prim present <- P_Exists ch;
    if (present : bool) then Return ResultChannelAlreadyExist
    else
    (* Add the channel. *)
    prim r <- P_AddChannel ch;
    if R_FAILED r then Return r
    else
    (* Set the channel version. *)
    prim v <- P_read_version;
    prim _ <- P_GetChannelImpl_call ch Call_SetVersion
                (fun c => (tt, chan_SetVersion v c));
    Return ResultSuccess).

Definition GetTaskEvent_steps (task_id : Z) : Code Z :=
  (* Lock ourselves. *)
  scoped_lock_steps (
    prim event <- P_GetTaskEvent task_id;
    Return event).

Definition SetSendBuffer_steps (ch : ChannelInternalType)
    (buf buf_size max_packet_size : Z) : Code unit :=
  (* Lock ourselves. *)
  scoped_lock_steps (
    (* Find the channel. *)
    prim pairs <- P_GetMap;
    match map_find ch pairs with
    | None => Halt AbortUnlessFailed
    | Some it =>
        (* Set the send buffer. *)
        prim _ <- P_channel_call (snd it) Call_SetSendBuffer
                    (fun c => (tt, chan_SetSendBuffer buf buf_size max_packet_size c));
        Return tt
    end).

Definition SetSendBufferWithData_steps (ch : ChannelInternalType)
    (buf buf_size max_packet_size : Z) : Code unit :=
  (* Lock ourselves. *)
  scoped_lock_steps (
    (* Find the channel. *)
    prim pairs <- P_GetMap;
    match map_find ch pairs with
    | None => Halt AbortUnlessFailed
    | Some it =>
        (* Set the send buffer. *)
        prim _ <- P_channel_call (snd it) Call_SetSendBufferWithData
                    (fun c => (tt, chan_SetSendBufferWithData buf buf_size
                                     max_packet_size c));
        Return tt
    end).

Definition SetReceiveBuffer_steps (ch : ChannelInternalType)
    (buf buf_size : Z) : Code unit :=
  (* Lock ourselves. *)
  scoped_lock_steps (
    (* Find the channel. *)
    prim pairs <- P_GetMap;
    match map_find ch pairs with
    | None => Halt AbortUnlessFailed
    | Some it =>
        (* Set the send buffer. *)
        prim _ <- P_channel_call (snd it) Call_SetReceiveBuffer
                    (fun c => (tt, chan_SetReceiveBuffer buf buf_size c));
        Return tt
    end).

(** The steps of a call of the exposed surface, its result discarded. *)
Definition steps_of (op : Operation) : Code unit :=
  match op with
  | Op_SetVersion v => SetVersion_steps v
  | Op_CheckReceivedHeader h => sub _ <- CheckReceivedHeader_steps h; Return tt
  | Op_ProcessReceivePacket h b n =>
      sub _ <- ProcessReceivePacket_steps h b n; Return tt
  | Op_QuerySendPacket out => sub _ <- QuerySendPacket_steps out; Return tt
  | Op_RemovePacket h => RemovePacket_steps h
  | Op_UpdateChannelState => UpdateChannelState_steps
  | Op_UpdateMuxState => UpdateMuxState_steps
  | Op_CheckChannelExist ch => sub _ <- CheckChannelExist_steps ch; Return tt
  | Op_SendErrorPacket ch => sub _ <- SendErrorPacket_steps ch; Return tt
  | Op_Open ch => sub _ <- Open_steps ch; Return tt
  | Op_GetTaskEvent id => sub _ <- GetTaskEvent_steps id; Return tt
  | Op_SetSendBuffer ch b n k => SetSendBuffer_steps ch b n k
  | Op_SetSendBufferWithData ch b n k => SetSendBufferWithData_steps ch b n k
  | Op_SetReceiveBuffer ch b n => SetReceiveBuffer_steps ch b n
  | Op_DetectorReports s => prim _ <- P_DetectorReports s; Return tt
  end.

(** ** Vocabulary of the statements about the lock *)

(** No step of the sequence takes or releases the mutex. *)
Fixpoint lock_free_code {A : Type} (c : Code A) : Prop :=
  match c with
  | Return _ | Halt _ => True
  | Step p k => is_lock_prim p = false /\ forall b, lock_free_code (k b)
  end.

(** Every step of the log was made with the mutex in state [held], and
    none of them took or released it. *)
Definition all_steps_with (held : bool) (l : list (bool * Action)) : Prop :=
  Forall (fun e => fst e = held /\ is_lock_action (snd e) = false) l.

(** The run took the free mutex with its first step and made every
    other step with the mutex held; if it returned, its last step
    released the mutex, which is free afterwards. *)
Definition lock_held_throughout {A : Type}
    (r : Outcome Chan PF A * list (bool * Action)) : Prop :=
  exists body,
    all_steps_with true body /\
    match fst r with
    | Returns _ m' =>
        snd r = (false, A_lock) :: body ++ [(true, A_unlock)] /\
        m_mutex m' = false
    | Stops _ => snd r = (false, A_lock) :: body
    end.

(** A guarded member that a member function without
    [std::scoped_lock] reads or writes. *)
Definition unlocked_access (op : Operation) : option Action :=
  match op with
  | Op_SetVersion _ => Some (A_write G_version)
  | Op_CheckReceivedHeader h =>
      if signature h =? HtcGen2Signature
      then match packet_type h with
           | PacketType_Data | PacketType_MaxData => Some (A_read G_version)
           | _ => None
           end
      else None
  | Op_CheckChannelExist _ => Some (A_read G_channel_table)
  | Op_SendErrorPacket _ => Some (A_write G_control_queue)
  | _ => None
  end.

End Steps.

Arguments P_lock {Chan}.
Arguments P_unlock {Chan}.
Arguments P_read_version {Chan}.
Arguments P_write_version {Chan} v.
Arguments P_read_state {Chan}.
Arguments P_write_state {Chan} s.
Arguments P_GetMap {Chan}.
Arguments P_Exists {Chan} ch.
Arguments P_channel_call {Chan B} index call f.
Arguments P_AddChannel {Chan} ch.
Arguments P_GetChannelImpl_call {Chan B} ch call f.
Arguments P_GetNextPacket {Chan}.
Arguments P_RemovePacket {Chan}.
Arguments P_AddPacket {Chan} packet.
Arguments P_MakeErrorPacket {Chan} ch.
Arguments P_Signal {Chan}.
Arguments P_IsSleeping {Chan}.
Arguments P_NotifySendReady {Chan}.
Arguments P_GetTaskEvent {Chan} task_id.
Arguments P_DetectorReports {Chan} sleeping.
Arguments Return {Chan A} a.
Arguments Halt {Chan A} f.
Arguments Step {Chan A B} p k.

(** ** A concrete engine and factory, to run the multiplexer *)

(** A channel that keeps its version and a list of packets waiting to be
    sent; the send query shows the first of them, removal drops it, and
    a send buffer installed with data queues one Data packet. *)
Record TestChannel : Type := MkTestChannel {
  tc_id : ChannelInternalType;
  tc_version : Z;
  tc_pending : list SendOut
}.

Definition test_data_packet (sig : Z) (c : TestChannel) (size : Z) : SendOut :=
  MkSendOut (MkPacketHeader sig (tc_version c) PacketType_Data (tc_id c) size) [] size.

Definition TestChannel_version_law (v : Z) (c : TestChannel) :
  tc_version (MkTestChannel (tc_id c) v (tc_pending c)) = v := eq_refl.

#[global] Instance TestChannel_engine : ChannelEngine TestChannel := {|
  chan_new ch := MkTestChannel ch 0 [];
  chan_ProcessReceivePacket h b n c := (ResultSuccess, c);
  chan_QuerySendPacket c := (head (tc_pending c), c);
  chan_RemovePacket h c := MkTestChannel (tc_id c) (tc_version c) (tail (tc_pending c));
  chan_UpdateState c := c;
  chan_SetVersion v c := MkTestChannel (tc_id c) v (tc_pending c);
  chan_SetSendBuffer b n k c := c;
  chan_SetSendBufferWithData b n k c :=
    MkTestChannel (tc_id c) (tc_version c) (tc_pending c ++ [test_data_packet 0 c n]);
  chan_SetReceiveBuffer b n c := c;
  chan_version := tc_version;
  chan_SetVersion_version := TestChannel_version_law
|}.

(** A factory that can still make as many packets as its state says. *)
Definition test_MakeErrorPacket (ch : ChannelInternalType) (budget : nat)
  : option Packet * nat :=
  match budget with
  | O => (None, O)
  | S budget' =>
      (Some (MkPacket (MkPacketHeader 0 0 PacketType_Error ch 0)), budget')
  end.

Definition test_MakeErrorPacket_law (ch : ChannelInternalType) (pf : nat)
    (p : Packet) (pf' : nat) (E : test_MakeErrorPacket ch pf = (Some p, pf')) :
  packet_type (GetHeader p) = PacketType_Error /\
  channel (GetHeader p) = ch /\ body_size (GetHeader p) = 0 :=
  match pf as n return test_MakeErrorPacket ch n = (Some p, pf') -> _ with
  | O => fun E0 => match E0 in _ = y return
                     match fst y with Some _ => _ | None => True end
                   with eq_refl => I end
  | S n => fun E0 =>
      match E0 in _ = y return
        match fst y with
        | Some p0 => packet_type (GetHeader p0) = PacketType_Error /\
                     channel (GetHeader p0) = ch /\ body_size (GetHeader p0) = 0
        | None => True
        end
      with eq_refl => conj eq_refl (conj eq_refl eq_refl) end
  end E.

#[global] Instance test_factory : PacketFactory nat := {|
  pf_MakeErrorPacket := test_MakeErrorPacket;
  pf_MakeErrorPacket_header := test_MakeErrorPacket_law
|}.

(** Sample values for the constants. *)
Definition sample_signature : Z := 0xA79F3540.
Definition sample_body_capacity : Z := 0x3E000.
Definition sample_version : Z := 5.
Definition sample_channel_count : nat := 64.

(** A multiplexer with two open channels, 10 and 20; channel 20 has a
    Data packet waiting, channel 10 has none. *)
Definition sample_packet : SendOut :=
  MkSendOut (MkPacketHeader sample_signature 5 PacketType_Data 20 3) [] 3.

Definition sample_control_packet : Packet :=
  MkPacket (MkPacketHeader sample_signature 0 PacketType_Error 77 0).

Definition sample_out : SendOut :=
  MkSendOut (MkPacketHeader 0 0 (PacketType_Invalid 0) 0 0) [] (-1).

Definition sample_channel_10 : TestChannel := MkTestChannel 10 5 [].

Definition sample_channel_20 : TestChannel :=
  MkTestChannel 20 5 [sample_packet].

Definition sample_mux (budget : nat) (state : MuxState) (q : list Packet)
  : Mux TestChannel nat :=
  MkMux budget (MkStateMachine false) (MkTaskManager 0) false
    [(10, sample_channel_10); (20, sample_channel_20)]
    q false state 5 [].

(** A Data packet and an Error packet for channel 99, which is not
    open in [sample_mux], and an Error header whose version is not the
    multiplexer's. *)
Definition sample_unknown_data : PacketHeader :=
  MkPacketHeader sample_signature 5 PacketType_Data 99 3.

Definition sample_unknown_error : PacketHeader :=
  MkPacketHeader sample_signature 5 PacketType_Error 99 0.

Definition sample_old_error : PacketHeader :=
  MkPacketHeader sample_signature 2 PacketType_Error 20 0.

(** A newly constructed multiplexer, a sequence of calls on it, and the
    state they lead to. *)
Definition sample_new : Mux TestChannel nat :=
  Mux_new sample_version 0%nat (MkStateMachine false).

Definition sample_calls : list Operation :=
  [Op_Open 30; Op_SetVersion 7; Op_Open 40; Op_SetSendBufferWithData 40 0 8 8].

Definition sample_after_calls : Mux TestChannel nat :=
  MkMux 0%nat (MkStateMachine false) (MkTaskManager 0) false
    [(30, MkTestChannel 30 7 []);
     (40, MkTestChannel 40 7
            [MkSendOut (MkPacketHeader 0 7 PacketType_Data 40 8) [] 8])]
    [] false MuxState_Normal 7
    [EvLock; EvChannel 0 Call_SetVersion; EvUnlock;
     EvChannel 0 Call_SetVersion;
     EvLock; EvChannel 1 Call_SetVersion; EvUnlock;
     EvLock; EvChannel 1 Call_SetSendBufferWithData; EvUnlock].

(** A Data packet for channel 20, which is open in [sample_mux]; a
    multiplexer whose only channel has nothing to send; a sequence of
    calls with two retirements and no [SetVersion]; a sequence that puts
    the multiplexer to sleep. *)
Definition sample_known_data : PacketHeader :=
  MkPacketHeader sample_signature 5 PacketType_Data 20 3.

Definition sample_idle_mux : Mux TestChannel nat :=
  MkMux 0%nat (MkStateMachine false) (MkTaskManager 0) false
    [(10, sample_channel_10)] [] false MuxState_Normal 5 [].

Definition sample_retirements : list Operation :=
  [Op_Open 30; Op_RemovePacket sample_unknown_error; Op_Open 30;
   Op_RemovePacket sample_unknown_data].

Definition sample_going_to_sleep : list Operation :=
  [Op_SendErrorPacket 99; Op_DetectorReports true; Op_UpdateMuxState;
   Op_QuerySendPacket sample_out].

(** * Properties *)

Section Properties.

Context {Chan : Type} `{ChannelEngine Chan}.
Context {PF : Type} `{PacketFactory PF}.
Variable HtcGen2Signature : Z.
Variable sizeof_PacketBody : Z.
Variable ProtocolVersion : Z.
Variable MaxChannelCount : nat.

Local Abbreviation MuxT := (Mux Chan PF).

Ltac unfold_monad :=
  unfold scoped_lock, mutex_lock, mutex_unlock, event_Signal,
    task_manager_NotifySendReady, record, discard, bind, gets, modify,
    ret, stop in *.

Lemma Mux_ext (m1 m2 : MuxT) :
  m_packet_factory m1 = m_packet_factory m2 ->
  m_state_machine m1 = m_state_machine m2 ->
  m_task_manager m1 = m_task_manager m2 ->
  m_event m1 = m_event m2 ->
  m_channel_impl_map m1 = m_channel_impl_map m2 ->
  m_global_send_buffer m1 = m_global_send_buffer m2 ->
  m_mutex m1 = m_mutex m2 ->
  m_state m1 = m_state m2 ->
  m_version m1 = m_version m2 ->
  m_trace m1 = m_trace m2 ->
  m1 = m2.
Proof. destruct m1, m2; simpl; intros; subst; reflexivity. Qed.

(** Reads the fields of a state through the updates made to it. *)
Ltac read_fields :=
  cbn
    [set_packet_factory set_state_machine set_task_manager set_event
     set_channel_impl_map set_global_send_buffer set_mutex set_state
     set_version set_trace
     m_packet_factory m_state_machine m_task_manager m_event
     m_channel_impl_map m_global_send_buffer m_mutex m_state m_version
     m_trace].

(** Two states built from the same state by field updates are equal,
    field by field. *)
Ltac mux_eq :=
  apply Mux_ext; read_fields; rewrite <- ?app_assoc;
  first [reflexivity | congruence].

Lemma Mux_eta (m : MuxT) :
  set_trace (m_trace m) (set_channel_impl_map (m_channel_impl_map m) m) = m.
Proof. destruct m; reflexivity. Qed.

(** ** The channel table *)

Lemma map_find_pairs_from (t : ChannelImplMap Chan) :
  forall (i : nat) ch it,
    map_find ch (pairs_from i t) = Some it ->
    fst it = ch /\ (i <= snd it)%nat /\
    exists c, t !! (snd it - i)%nat = Some (ch, c).
Proof.
  induction t as [|[k c] t IH]; intros i ch it; simpl.
  - discriminate.
  - unfold map_find; simpl. destruct (Z.eqb_spec k ch) as [->|Hne].
    + intros [= <-]; simpl. repeat split; [lia|].
      exists c. now rewrite Nat.sub_diag.
    + intros Hf. destruct (IH (S i) ch it Hf) as (Hk & Hle & c' & Hc).
      repeat split; [assumption|lia|]. exists c'.
      replace (snd it - i)%nat with (S (snd it - S i)) by lia. exact Hc.
Qed.

Lemma map_find_GetMap (m : MuxT) ch it :
  map_find ch (GetMap m) = Some it ->
  exists c, m_channel_impl_map m !! snd it = Some (ch, c).
Proof.
  intros Hf. destruct (map_find_pairs_from _ _ _ _ Hf) as (_ & _ & c & Hc).
  exists c. now rewrite Nat.sub_0_r in Hc.
Qed.

Lemma map_find_pairs_from_None (t : ChannelImplMap Chan) :
  forall (i : nat) ch,
    map_find ch (pairs_from i t) = None <-> ch ∉ map fst t.
Proof.
  induction t as [|[k c] t IH]; intros i ch; simpl.
  - split; [intros _; apply not_elem_of_nil | reflexivity].
  - unfold map_find; simpl. rewrite not_elem_of_cons.
    destruct (Z.eqb_spec k ch) as [->|Hne].
    + split; [discriminate | intros [Hc _]; now contradiction Hc].
    + fold (map_find ch (pairs_from (S i) t)). rewrite IH.
      split; [intros Hn; split; [congruence | exact Hn] | intros [_ Hn]; exact Hn].
Qed.

Lemma Exists_spec (m : MuxT) ch :
  Exists ch m = true <-> ch ∈ map fst (m_channel_impl_map m).
Proof.
  unfold Exists, GetMap.
  destruct (map_find ch (pairs_from 0 (m_channel_impl_map m))) eqn:E.
  - split; [intros _ | reflexivity].
    destruct (decide (ch ∈ map fst (m_channel_impl_map m))) as [Hin|Hn]; [exact Hin|].
    apply (map_find_pairs_from_None _ 0%nat) in Hn. congruence.
  - apply map_find_pairs_from_None in E. split; [discriminate | contradiction].
Qed.

(** ** C1: header validation *)

(** C1. For a header with a valid signature, [CheckReceivedHeader]
    accepts a Data header exactly when its version is the multiplexer's
    and its body size is at most [sizeof(PacketBody)], a MaxData header
    exactly when its version is the multiplexer's and its body size is
    0, and an Error header exactly when its body size is 0, whatever its
    version; every rejection is [ProtocolError]. *)
Theorem C1_header_validation_matrix (m : MuxT) (header : PacketHeader) :
  signature header = HtcGen2Signature ->
  (packet_type header = PacketType_Data ->
     accepted_iff HtcGen2Signature sizeof_PacketBody header m
       (version header = m_version m /\ body_size header <= sizeof_PacketBody)) /\
  (packet_type header = PacketType_MaxData ->
     accepted_iff HtcGen2Signature sizeof_PacketBody header m
       (version header = m_version m /\ body_size header = 0)) /\
  (packet_type header = PacketType_Error ->
     accepted_iff HtcGen2Signature sizeof_PacketBody header m (body_size header = 0)).
Proof.
  intros Hsig. unfold accepted_iff, CheckReceivedHeader.
  rewrite Hsig, Z.eqb_refl. unfold_monad. simpl.
  split; [|split]; intros Hk; rewrite Hk; (split; intros HP).
  - destruct HP as [-> Hle]. rewrite Z.eqb_refl. simpl.
    apply Z.leb_le in Hle. now rewrite Hle.
  - destruct (Z.eqb_spec (version header) (m_version m)); simpl; [|reflexivity].
    destruct (Z.leb_spec (body_size header) sizeof_PacketBody); simpl; [|reflexivity].
    contradiction HP. split; assumption.
  - destruct HP as [-> ->]. now rewrite Z.eqb_refl.
  - destruct (Z.eqb_spec (version header) (m_version m)); simpl; [|reflexivity].
    destruct (Z.eqb_spec (body_size header) 0); simpl; [|reflexivity].
    contradiction HP. split; assumption.
  - now rewrite HP.
  - destruct (Z.eqb_spec (body_size header) 0); simpl; [|reflexivity].
    contradiction.
Qed.

(** ** Locking and the control path *)

Lemma scoped_lock_run {A : Type} (body : M Chan PF A) (m : MuxT) :
  m_mutex m = false ->
  scoped_lock body m =
  match body (locked m) with
  | Returns a m1 => Returns a (unlocked m1)
  | Stops f => Stops f
  end.
Proof.
  intros Hm. unfold_monad. rewrite Hm. simpl.
  fold (locked m). destruct (body (locked m)); reflexivity.
Qed.

Lemma scoped_lock_held {A : Type} (body : M Chan PF A) (m : MuxT) :
  m_mutex m = true -> scoped_lock body m = Stops LockAlreadyHeld.
Proof. intros Hm. unfold_monad. now rewrite Hm. Qed.

Lemma SendErrorPacket_run (m : MuxT) (ch : ChannelInternalType) :
  SendErrorPacket ch m =
  match pf_MakeErrorPacket ch (m_packet_factory m) with
  | (Some p, pf') => Returns ResultSuccess (after_error_packet_made ch p pf' m)
  | (None, pf') => Returns ResultAllocationFailure (after_error_packet_failed ch pf' m)
  end.
Proof.
  unfold SendErrorPacket, after_error_packet_made, after_error_packet_failed.
  unfold_monad. simpl.
  destruct (pf_MakeErrorPacket ch (m_packet_factory m)) as [[p|] pf']; simpl.
  - f_equal; mux_eq.
  - f_equal; mux_eq.
Qed.

Lemma ProcessReceivePacket_unknown (m : MuxT) header body n :
  m_mutex m = false ->
  channel header ∉ map fst (m_channel_impl_map m) ->
  ProcessReceivePacket header body n m =
  match packet_type header with
  | PacketType_Data | PacketType_MaxData =>
      match SendErrorPacket (channel header) (locked m) with
      | Returns _ m1 => Returns ResultChannelNotExist (unlocked m1)
      | Stops f => Stops f
      end
  | _ => Returns ResultChannelNotExist (unlocked (locked m))
  end.
Proof.
  intros Hm Hch. unfold ProcessReceivePacket. rewrite scoped_lock_run by assumption.
  apply (map_find_pairs_from_None _ 0%nat) in Hch.
  unfold bind at 1. unfold gets at 1. unfold GetMap. simpl. rewrite Hch.
  destruct (packet_type header); unfold_monad; simpl; try reflexivity;
    fold (locked m); destruct (SendErrorPacket (channel header) (locked m));
    reflexivity.
Qed.

Lemma QuerySendPacket_control_run (m : MuxT) (out : SendOut)
    (p : Packet) (q : list Packet) :
  m_mutex m = false ->
  m_global_send_buffer m = p :: q ->
  QuerySendPacket out m =
  Returns (true, MkSendOut (GetHeader p) (out_body out) 0)
          (set_trace (m_trace m ++ [EvLock; EvUnlock]) m).
Proof.
  intros Hm Hq. unfold QuerySendPacket. rewrite scoped_lock_run by assumption.
  unfold_monad. simpl. rewrite Hq. simpl. unfold locked, unlocked.
  f_equal; mux_eq.
Qed.

(** C2. Whenever the control queue is not empty, [QuerySendPacket]
    returns true with the header of the front control packet copied out
    and the reported body size 0 (the body location is not written).
    The multiplexer is unchanged but for the trace, which gains the lock
    and the unlock and nothing between them: no channel was asked. *)
Theorem C2_control_precedes_data (m : MuxT) (out : SendOut)
    (p : Packet) (q : list Packet) :
  m_mutex m = false ->
  m_global_send_buffer m = p :: q ->
  QuerySendPacket out m =
  Returns (true, MkSendOut (GetHeader p) (out_body out) 0)
          (set_trace (m_trace m ++ [EvLock; EvUnlock]) m).
Proof. apply QuerySendPacket_control_run. Qed.

(** C10. [SendErrorPacket] changes nothing but the factory when making
    the packet fails: the failure is returned, the control queue and the
    event are as before and [Signal] is not called.  When the packet is
    made it is appended to the control queue and only then is the event
    signalled. *)
Theorem C10_SendErrorPacket_atomic (m : MuxT) (ch : ChannelInternalType) :
  exists r m',
    SendErrorPacket ch m = Returns r m' /\
    (R_FAILED r = true ->
       m_global_send_buffer m' = m_global_send_buffer m /\
       m_event m' = m_event m /\
       m_trace m' = m_trace m ++ [EvMakeErrorPacket ch]) /\
    (R_FAILED r = false ->
       (exists p, m_global_send_buffer m' = m_global_send_buffer m ++ [p]) /\
       m_event m' = true /\
       m_trace m' = m_trace m ++ [EvMakeErrorPacket ch; EvSignal]) /\
    (R_FAILED r = true <->
       fst (pf_MakeErrorPacket ch (m_packet_factory m)) = None).
Proof.
  rewrite SendErrorPacket_run.
  destruct (pf_MakeErrorPacket ch (m_packet_factory m)) as [[p|] pf']; simpl.
  - eexists _, _. split; [reflexivity|]. simpl.
    repeat split; try discriminate. exists p. reflexivity.
  - eexists _, _. split; [reflexivity|]. simpl.
    repeat split; try discriminate.
Qed.

(** C8 as amended. [SendErrorPacket] returns the failure of
    [MakeErrorPacket]/[AddPacket] to its caller.  [ProcessReceivePacket]
    calls it for a Data or MaxData packet of an unknown channel and does
    not look at what it returns: the caller gets [ChannelNotExist], and
    the failed reply leaves no other mark than the call to the factory. *)
Theorem C8_reply_failure_not_surfaced (m : MuxT) (header : PacketHeader)
    (body : PacketBody) (n : Z) (pf' : PF) :
  m_mutex m = false ->
  channel header ∉ map fst (m_channel_impl_map m) ->
  packet_type header = PacketType_Data \/ packet_type header = PacketType_MaxData ->
  pf_MakeErrorPacket (channel header) (m_packet_factory m) = (None, pf') ->
  SendErrorPacket (channel header) m =
    Returns ResultAllocationFailure
      (after_error_packet_failed (channel header) pf' m) /\
  ProcessReceivePacket header body n m =
    Returns ResultChannelNotExist
      (set_trace (m_trace m ++ [EvLock; EvMakeErrorPacket (channel header); EvUnlock])
         (set_packet_factory pf' m)).
Proof.
  intros Hm Hch Hk Hpf. split.
  - now rewrite SendErrorPacket_run, Hpf.
  - rewrite ProcessReceivePacket_unknown by assumption.
    rewrite SendErrorPacket_run. simpl. rewrite Hpf.
    unfold after_error_packet_made, after_error_packet_failed, locked, unlocked.
    destruct Hk as [-> | ->]; f_equal; mux_eq.
Qed.

(** C4 as amended. For a packet whose channel is not in the table,
    [ProcessReceivePacket] returns [ChannelNotExist].  If the packet is
    Data or MaxData and the factory makes the reply, exactly that one
    packet, of kind Error and addressed to the channel, is appended to
    the control queue and the event is signalled; if the factory fails,
    nothing is enqueued.  If the packet is Error, nothing is enqueued
    and the factory is not called. *)
Theorem C4_unknown_channel_reply (m : MuxT) (header : PacketHeader)
    (body : PacketBody) (n : Z) :
  m_mutex m = false ->
  channel header ∉ map fst (m_channel_impl_map m) ->
  (packet_type header = PacketType_Data \/ packet_type header = PacketType_MaxData ->
     (forall p pf',
        pf_MakeErrorPacket (channel header) (m_packet_factory m) = (Some p, pf') ->
        packet_type (GetHeader p) = PacketType_Error /\
        channel (GetHeader p) = channel header /\
        ProcessReceivePacket header body n m =
          Returns ResultChannelNotExist
            (set_trace (m_trace m ++ [EvLock; EvMakeErrorPacket (channel header);
                                      EvSignal; EvUnlock])
               (set_event true
                  (set_global_send_buffer (m_global_send_buffer m ++ [p])
                     (set_packet_factory pf' m))))) /\
     (forall pf',
        pf_MakeErrorPacket (channel header) (m_packet_factory m) = (None, pf') ->
        ProcessReceivePacket header body n m =
          Returns ResultChannelNotExist
            (set_trace (m_trace m ++ [EvLock; EvMakeErrorPacket (channel header);
                                      EvUnlock])
               (set_packet_factory pf' m)))) /\
  (packet_type header = PacketType_Error ->
     ProcessReceivePacket header body n m =
       Returns ResultChannelNotExist (set_trace (m_trace m ++ [EvLock; EvUnlock]) m)).
Proof.
  intros Hm Hch. rewrite ProcessReceivePacket_unknown by assumption.
  rewrite SendErrorPacket_run. simpl. split; [intros Hk; split|intros Hk].
  - intros p pf' Hpf. destruct (pf_MakeErrorPacket_header _ _ _ _ Hpf) as (Ht & Hc & _).
    split; [exact Ht|]. split; [exact Hc|]. rewrite Hpf.
    unfold after_error_packet_made, after_error_packet_failed, locked, unlocked.
    destruct Hk as [-> | ->]; f_equal; mux_eq.
  - intros pf' Hpf. rewrite Hpf.
    unfold after_error_packet_made, after_error_packet_failed, locked, unlocked.
    destruct Hk as [-> | ->]; f_equal; mux_eq.
  - rewrite Hk. unfold locked, unlocked. f_equal; mux_eq.
Qed.

(** ** Retirement *)

Lemma channel_call_run {B : Type} (m : MuxT) (index : nat) call
    (f : Chan -> B * Chan) k c :
  m_channel_impl_map m !! index = Some (k, c) ->
  channel_call index call f m =
  Returns (fst (f c))
    (set_trace (m_trace m ++ [EvChannel index call])
       (set_channel_impl_map
          (<[index := (k, snd (f c))]> (m_channel_impl_map m)) m)).
Proof.
  intros Hl. unfold channel_call. rewrite Hl. now destruct (f c).
Qed.

Lemma count_send_ready_app (t1 t2 : list Event) :
  count_send_ready (t1 ++ t2) = (count_send_ready t1 + count_send_ready t2)%nat.
Proof. unfold count_send_ready. apply count_occ_app. Qed.

Lemma RemovePacket_run (m : MuxT) (header : PacketHeader) :
  m_mutex m = false ->
  RemovePacket header m = Returns tt (after_removal m header).
Proof.
  intros Hm. unfold RemovePacket. rewrite scoped_lock_run by assumption.
  unfold after_removal, removal_events.
  unfold bind at 1.
  assert (Hother :
    (do pairs <- gets GetMap;
     match map_find (channel header) pairs with
     | Some it =>
         channel_call (snd it) Call_RemovePacket
           (fun c => (tt, chan_RemovePacket header c))
     | None => ret tt
     end) (locked m) =
    Returns tt
      match map_find (channel header) (GetMap m) with
      | Some it =>
          set_trace (m_trace m ++ [EvLock; EvChannel (snd it) Call_RemovePacket])
            (set_channel_impl_map
               (table_apply (snd it) (chan_RemovePacket header)
                  (m_channel_impl_map m)) (set_mutex true m))
      | None => locked m
      end).
  { unfold bind at 1. unfold gets at 1.
    change (GetMap (locked m)) with (GetMap m).
    destruct (map_find (channel header) (GetMap m)) as [it|] eqn:Hf.
    - destruct (map_find_GetMap _ _ _ Hf) as [c Hc].
      rewrite (channel_call_run (locked m) _ _ _ _ _ Hc).
      unfold table_apply. rewrite Hc. unfold locked. f_equal; mux_eq.
    - reflexivity. }
  destruct (packet_type header); try rewrite Hother;
    try destruct (map_find (channel header) (GetMap m));
    unfold_monad; unfold locked, unlocked; f_equal; mux_eq.
Qed.

(** C6. A call of [RemovePacket] always returns, and the task manager
    receives exactly one [NotifySendReady] in it, after whatever the
    branch taken did and before the lock is released: a header of kind
    Error pops the control queue, any other header whose channel is in
    the table has that channel remove the packet, and a header whose
    channel is absent changes nothing else. *)
Theorem C6_RemovePacket_notifies_once (m : MuxT) (header : PacketHeader) :
  m_mutex m = false ->
  exists m',
    RemovePacket header m = Returns tt m' /\
    count_send_ready (m_trace m') = S (count_send_ready (m_trace m)) /\
    send_ready_notifications (m_task_manager m') =
      S (send_ready_notifications (m_task_manager m)) /\
    m_trace m' = m_trace m ++ [EvLock] ++ removal_events m header
                   ++ [EvNotifySendReady; EvUnlock] /\
    count_send_ready (removal_events m header) = 0%nat /\
    match packet_type header with
    | PacketType_Error =>
        m_global_send_buffer m' =
          GlobalSendBuffer.RemovePacket (m_global_send_buffer m) /\
        m_channel_impl_map m' = m_channel_impl_map m
    | _ =>
        m_global_send_buffer m' = m_global_send_buffer m /\
        match map_find (channel header) (GetMap m) with
        | Some it =>
            exists c,
              m_channel_impl_map m !! snd it = Some (channel header, c) /\
              m_channel_impl_map m' =
                <[snd it := (channel header, chan_RemovePacket header c)]>
                  (m_channel_impl_map m)
        | None => m_channel_impl_map m' = m_channel_impl_map m
        end
    end.
Proof.
  intros Hm. exists (after_removal m header).
  split; [now apply RemovePacket_run|].
  assert (Hnone : count_send_ready (removal_events m header) = 0%nat).
  { unfold removal_events.
    destruct (packet_type header);
      try destruct (map_find (channel header) (GetMap m)); reflexivity. }
  split.
  { unfold after_removal. read_fields. rewrite !count_send_ready_app, Hnone.
    change (count_send_ready [EvLock]) with 0%nat.
    change (count_send_ready [EvNotifySendReady; EvUnlock]) with 1%nat. lia. }
  split; [reflexivity|]. split; [reflexivity|]. split; [exact Hnone|].
  unfold after_removal.
  destruct (packet_type header);
    (split; [try reflexivity|]);
    try (destruct (map_find (channel header) (GetMap m)) as [it|] eqn:Hf;
         [|reflexivity]);
    try (destruct (map_find_GetMap _ _ _ Hf) as [c Hc]; exists c;
         split; [exact Hc|]; read_fields; unfold table_apply; now rewrite Hc).
  all: try (destruct (map_find (channel header) (GetMap m)); reflexivity).
Qed.

(** ** Loops over the channel table *)

Lemma insert_middle {A : Type} (pre suf : list A) (x y : A) :
  <[length pre := y]> (pre ++ x :: suf) = pre ++ y :: suf.
Proof.
  rewrite insert_app_r_alt by lia. now rewrite Nat.sub_diag.
Qed.

Lemma channel_call_middle {B : Type} (m : MuxT) call (f : Chan -> B * Chan)
    (pre suf : ChannelImplMap Chan) k c :
  m_channel_impl_map m = pre ++ (k, c) :: suf ->
  channel_call (length pre) call f m =
  Returns (fst (f c))
    (set_trace (m_trace m ++ [EvChannel (length pre) call])
       (set_channel_impl_map (pre ++ (k, snd (f c)) :: suf) m)).
Proof.
  intros Ht.
  rewrite (channel_call_run m (length pre) call f k c).
  - now rewrite Ht, insert_middle.
  - rewrite Ht. now apply list_lookup_middle.
Qed.

Lemma length_snoc {A : Type} (l : list A) (x : A) :
  length (l ++ [x]) = S (length l).
Proof. rewrite length_app. simpl. lia. Qed.

Lemma IsSendable_run (m : MuxT) (kind : PacketType) :
  IsSendable kind m = Returns (gate m) m.
Proof. unfold IsSendable, gate. unfold_monad. now destruct (m_state m). Qed.

Lemma for_each_channels (call : ChannelCall) (g : Chan -> Chan)
    (body : ChannelInternalType * nat -> M Chan PF unit) (v : Z) :
  (forall pr m', m_version m' = v ->
     body pr m' = channel_call (snd pr) call (fun c => (tt, g c)) m') ->
  forall (suf pre : ChannelImplMap Chan) (m : MuxT),
    m_version m = v ->
    m_channel_impl_map m = pre ++ suf ->
    for_each (pairs_from (length pre) suf) body m =
    Returns tt
      (set_trace (m_trace m ++ channel_events call (length pre) (length suf))
         (set_channel_impl_map
            (pre ++ map (fun kc => (fst kc, g (snd kc))) suf) m)).
Proof.
  intros Hbody. induction suf as [|[k c] suf IH]; intros pre m Hv Ht; simpl.
  - unfold ret, channel_events. simpl. rewrite !app_nil_r.
    rewrite app_nil_r in Ht. rewrite <- Ht. now rewrite Mux_eta.
  - unfold bind. rewrite Hbody by assumption. simpl.
    rewrite (channel_call_middle m call _ pre suf k c Ht). simpl.
    rewrite <- (length_snoc pre (k, g c)).
    rewrite IH.
    + rewrite length_snoc. unfold channel_events. simpl.
      rewrite <- !app_assoc. simpl. f_equal; mux_eq.
    + simpl. exact Hv.
    + simpl. now rewrite <- app_assoc.
Qed.

Lemma SetVersion_run (m : MuxT) (v : Z) :
  SetVersion v m =
  Returns tt
    (set_trace (m_trace m
                ++ channel_events Call_SetVersion 0 (length (m_channel_impl_map m)))
       (set_channel_impl_map
          (map (fun kc => (fst kc, chan_SetVersion v (snd kc)))
               (m_channel_impl_map m))
          (set_version v m))).
Proof.
  unfold SetVersion. unfold bind at 1 2. unfold modify, gets at 1. unfold GetMap.
  change (pairs_from 0 (m_channel_impl_map (set_version v m)))
    with (pairs_from (length (@nil (ChannelInternalType * Chan)))
            (m_channel_impl_map (set_version v m))).
  rewrite (for_each_channels Call_SetVersion (chan_SetVersion v) _ v).
  - reflexivity.
  - intros pr m' Hv. unfold bind, gets. now rewrite Hv.
  - reflexivity.
  - reflexivity.
Qed.

Lemma UpdateChannelState_run (m : MuxT) :
  m_mutex m = false ->
  UpdateChannelState m =
  Returns tt
    (set_trace (m_trace m ++ [EvLock]
                ++ channel_events Call_UpdateState 0 (length (m_channel_impl_map m))
                ++ [EvUnlock])
       (set_channel_impl_map
          (map (fun kc => (fst kc, chan_UpdateState (snd kc)))
               (m_channel_impl_map m)) m)).
Proof.
  intros Hm. unfold UpdateChannelState. rewrite scoped_lock_run by assumption.
  unfold bind at 1. unfold gets at 1. unfold GetMap.
  change (pairs_from 0 (m_channel_impl_map (locked m)))
    with (pairs_from (length (@nil (ChannelInternalType * Chan)))
            (m_channel_impl_map (locked m))).
  rewrite (for_each_channels Call_UpdateState chan_UpdateState _ (m_version m)).
  - simpl. unfold unlocked, locked. f_equal; mux_eq.
  - reflexivity.
  - reflexivity.
  - reflexivity.
Qed.

Lemma QuerySendPacket_loop_run (out : SendOut) :
  forall (suf pre : ChannelImplMap Chan) (m : MuxT),
    m_channel_impl_map m = pre ++ suf ->
    QuerySendPacket_loop (pairs_from (length pre) suf) out m =
    Returns
      (match fst (fst (scan suf)) with
       | Some o => (gate m, o)
       | None => (false, out)
       end)
      (set_trace (m_trace m ++ channel_events Call_QuerySendPacket (length pre)
                                 (snd (scan suf)))
         (set_channel_impl_map (pre ++ snd (fst (scan suf))) m)).
Proof.
  induction suf as [|[k c] suf IH]; intros pre m Ht; simpl.
  - unfold ret, channel_events. simpl. rewrite !app_nil_r.
    rewrite app_nil_r in Ht. rewrite <- Ht. now rewrite Mux_eta.
  - unfold bind at 1.
    rewrite (channel_call_middle m Call_QuerySendPacket _ pre suf k c Ht).
    destruct (chan_QuerySendPacket c) as [[o|] c'] eqn:Hq; simpl.
    + unfold bind. rewrite IsSendable_run. unfold ret. reflexivity.
    + rewrite <- (length_snoc pre (k, c')). rewrite IH.
      * destruct (scan suf) as [[r t''] n]. simpl.
        rewrite length_snoc. unfold channel_events, gate. simpl.
        rewrite <- !app_assoc. simpl. f_equal; mux_eq.
      * simpl. now rewrite <- app_assoc.
Qed.

Lemma QuerySendPacket_run (m : MuxT) (out : SendOut) :
  m_mutex m = false ->
  m_global_send_buffer m = [] ->
  QuerySendPacket out m =
  Returns
    (match fst (fst (scan (m_channel_impl_map m))) with
     | Some o => (gate m, o)
     | None => (false, out)
     end)
    (set_trace (m_trace m ++ [EvLock]
                ++ channel_events Call_QuerySendPacket 0
                     (snd (scan (m_channel_impl_map m)))
                ++ [EvUnlock])
       (set_channel_impl_map (snd (fst (scan (m_channel_impl_map m)))) m)).
Proof.
  intros Hm Hq. unfold QuerySendPacket. rewrite scoped_lock_run by assumption.
  unfold bind at 1. unfold gets at 1. simpl. rewrite Hq. simpl.
  unfold bind at 1. unfold gets at 1. unfold GetMap.
  change (pairs_from 0 (m_channel_impl_map (locked m)))
    with (pairs_from (length (@nil (ChannelInternalType * Chan)))
            (m_channel_impl_map (locked m))).
  rewrite QuerySendPacket_loop_run by reflexivity.
  simpl. unfold unlocked, locked, gate. simpl. f_equal; mux_eq.
Qed.

Lemma scan_first_ready (pre post : ChannelImplMap Chan) k c o c' :
  Forall (fun kc => fst (chan_QuerySendPacket (snd kc)) = None) pre ->
  chan_QuerySendPacket c = (Some o, c') ->
  scan (pre ++ (k, c) :: post) =
  (Some o, queried pre ++ (k, c') :: post, S (length pre)).
Proof.
  intros Hpre Hc. induction Hpre as [|[k0 c0] pre Hno _ IH]; simpl.
  - now rewrite Hc.
  - simpl in Hno. destruct (chan_QuerySendPacket c0) as [f0 c0'].
    simpl in *. subst f0. now rewrite IH.
Qed.

Lemma scan_none_ready (t : ChannelImplMap Chan) :
  Forall (fun kc => fst (chan_QuerySendPacket (snd kc)) = None) t ->
  scan t = (None, queried t, length t).
Proof.
  intros Ht. induction Ht as [|[k0 c0] t Hno _ IH]; simpl; [reflexivity|].
  simpl in Hno. destruct (chan_QuerySendPacket c0) as [f0 c0'].
  simpl in *. subst f0. now rewrite IH.
Qed.

(** C5. With an empty control queue, [QuerySendPacket] asks the channels
    in table order and stops at the first that has a packet: the slots
    before it were each asked once, the slots after it were not asked
    and are untouched, its packet is what is written out, and the
    returned flag is [IsSendable] of that packet's kind, also when that
    is false. *)
Theorem C5_first_match (m : MuxT) (out : SendOut)
    (pre post : ChannelImplMap Chan) (k : ChannelInternalType) (c c' : Chan)
    (o : SendOut) :
  m_mutex m = false ->
  m_global_send_buffer m = [] ->
  m_channel_impl_map m = pre ++ (k, c) :: post ->
  Forall (fun kc => fst (chan_QuerySendPacket (snd kc)) = None) pre ->
  chan_QuerySendPacket c = (Some o, c') ->
  exists sendable,
    IsSendable (packet_type (out_header o)) m = Returns sendable m /\
    QuerySendPacket out m =
    Returns (sendable, o)
      (set_trace (m_trace m ++ [EvLock]
                  ++ channel_events Call_QuerySendPacket 0 (S (length pre))
                  ++ [EvUnlock])
         (set_channel_impl_map (queried pre ++ (k, c') :: post) m)).
Proof.
  intros Hm Hq Ht Hpre Hc. exists (gate m). split; [apply IsSendable_run|].
  rewrite QuerySendPacket_run by assumption.
  rewrite Ht, (scan_first_ready pre post k c o c' Hpre Hc). reflexivity.
Qed.

(** ** Sleep and wake *)

Lemma UpdateMuxState_run (m : MuxT) :
  m_mutex m = false ->
  UpdateMuxState m =
  Returns tt
    (if IsSleeping (m_state_machine m)
     then set_trace (m_trace m ++ [EvLock; EvUnlock]) (set_state MuxState_Sleep m)
     else set_trace (m_trace m ++ [EvLock; EvSignal; EvUnlock])
            (set_event true (set_state MuxState_Normal m))).
Proof.
  intros Hm. unfold UpdateMuxState. rewrite scoped_lock_run by assumption.
  unfold_monad. simpl. unfold unlocked, locked.
  destruct (IsSleeping (m_state_machine m)); simpl; f_equal; mux_eq.
Qed.

Lemma queried_not_ready `{!RepeatableQuery Chan} (t : ChannelImplMap Chan) :
  Forall (fun kc => fst (chan_QuerySendPacket (snd kc)) = None) t ->
  Forall (fun kc => fst (chan_QuerySendPacket (snd kc)) = None) (queried t).
Proof.
  unfold queried. intros Ht. induction Ht as [|[k c] t Hc _ IH]; simpl.
  - constructor.
  - constructor; [|exact IH]. simpl in *. now rewrite query_again.
Qed.

Lemma query_ready_again `{!RepeatableQuery Chan} (c c' : Chan) (o : SendOut) :
  chan_QuerySendPacket c = (Some o, c') ->
  chan_QuerySendPacket c' = (Some o, c').
Proof.
  intros Hc. pose proof (query_again c) as Ha. now rewrite Hc in Ha.
Qed.

(** C3 as amended. In state Sleep, [IsSendable] is false for every
    kind, and with an empty control queue [QuerySendPacket] returns
    false even though a channel has a packet ready (the packet is
    written out all the same).  A pending control packet is not gated:
    it is returned, with true, also in Sleep, and stays in the queue.
    Nothing is discarded: for an engine whose query is repeatable, once
    the detector reports awake and [UpdateMuxState] has run, the same
    query returns the same channel packet with true. *)
Theorem C3_sleep_gates_channel_data (m : MuxT) :
  m_state m = MuxState_Sleep ->
  m_mutex m = false ->
  (forall kind, IsSendable kind m = Returns false m) /\
  (forall out pre k c post o c',
     m_global_send_buffer m = [] ->
     m_channel_impl_map m = pre ++ (k, c) :: post ->
     Forall (fun kc => fst (chan_QuerySendPacket (snd kc)) = None) pre ->
     chan_QuerySendPacket c = (Some o, c') ->
     exists m1,
       QuerySendPacket out m = Returns (false, o) m1 /\
       m_global_send_buffer m1 = [] /\
       map fst (m_channel_impl_map m1) = map fst (m_channel_impl_map m) /\
       (RepeatableQuery Chan ->
        forall out2, exists m2 m3,
          UpdateMuxState (set_state_machine (MkStateMachine false) m1)
            = Returns tt m2 /\
          m_state m2 = MuxState_Normal /\
          QuerySendPacket out2 m2 = Returns (true, o) m3)) /\
  (forall out p q,
     m_global_send_buffer m = p :: q ->
     exists m1,
       QuerySendPacket out m
         = Returns (true, MkSendOut (GetHeader p) (out_body out) 0) m1 /\
       m_state m1 = MuxState_Sleep /\
       m_global_send_buffer m1 = p :: q).
Proof.
  intros Hs Hm. split; [|split].
  - intros kind. rewrite IsSendable_run. unfold gate. now rewrite Hs.
  - intros out pre k c post o c' Hq Ht Hpre Hc.
    rewrite QuerySendPacket_run by assumption.
    rewrite Ht, (scan_first_ready pre post k c o c' Hpre Hc). simpl.
    unfold gate. rewrite Hs. eexists. split; [reflexivity|]. simpl.
    split; [exact Hq|]. split.
    { unfold queried. rewrite !map_app. simpl. f_equal.
      rewrite map_map. reflexivity. }
    intros Hrepeat out2. rewrite UpdateMuxState_run by exact Hm. simpl.
    eexists _, _. split; [reflexivity|]. split; [reflexivity|].
    rewrite QuerySendPacket_run by (simpl; assumption). simpl.
    rewrite (scan_first_ready (queried pre) post k c' o c'
               (queried_not_ready pre Hpre) (query_ready_again c c' o Hc)).
    reflexivity.
  - intros out p q Hq.
    rewrite (QuerySendPacket_control_run m out p q Hm Hq).
    eexists. split; [reflexivity|]. simpl. split; assumption.
Qed.

(** ** Opening a channel *)

Lemma map_find_snoc (t : ChannelImplMap Chan) ch c :
  forall i : nat,
    ch ∉ map fst t ->
    map_find ch (pairs_from i (t ++ [(ch, c)])) = Some (ch, (i + length t)%nat).
Proof.
  induction t as [|[k0 c0] t IH]; intros i Hn; simpl.
  - unfold map_find. simpl. rewrite Z.eqb_refl. f_equal. f_equal. lia.
  - simpl in Hn. apply not_elem_of_cons in Hn as [Hne Hn].
    unfold map_find. simpl. destruct (Z.eqb_spec k0 ch) as [->|_]; [congruence|].
    fold (map_find ch (pairs_from (S i) (t ++ [(ch, c)]))).
    rewrite IH by assumption. f_equal. f_equal. lia.
Qed.

Lemma Open_run (m : MuxT) (ch : ChannelInternalType) :
  m_mutex m = false ->
  Open MaxChannelCount ch m =
  if Exists ch m
  then Returns ResultChannelAlreadyExist
         (set_trace (m_trace m ++ [EvLock; EvUnlock]) m)
  else if (length (m_channel_impl_map m) <? MaxChannelCount)%nat
  then Returns ResultSuccess
         (set_trace (m_trace m ++ [EvLock;
                                   EvChannel (length (m_channel_impl_map m))
                                             Call_SetVersion;
                                   EvUnlock])
            (set_channel_impl_map
               (m_channel_impl_map m
                ++ [(ch, chan_SetVersion (m_version m) (chan_new ch))]) m))
  else Returns ResultOutOfChannel
         (set_trace (m_trace m ++ [EvLock; EvUnlock]) m).
Proof.
  intros Hm. unfold Open. rewrite scoped_lock_run by assumption.
  unfold bind at 1. unfold gets at 1.
  change (Exists ch (locked m)) with (Exists ch m).
  destruct (Exists ch m) eqn:Hex.
  - unfold ret, locked, unlocked. f_equal; mux_eq.
  - assert (Hn : ch ∉ map fst (m_channel_impl_map m)).
    { intros Hin. apply Exists_spec in Hin. congruence. }
    unfold AddChannel. unfold bind at 1 2. unfold gets at 1.
    change (m_channel_impl_map (locked m)) with (m_channel_impl_map m).
    destruct (length (m_channel_impl_map m) <? MaxChannelCount)%nat.
    + cbv beta iota delta [bind modify ret gets R_FAILED].
      unfold GetChannelImpl_call.
      cbv beta iota delta [bind gets]. unfold GetMap.
      cbn [m_channel_impl_map set_channel_impl_map].
      rewrite (map_find_snoc _ ch (chan_new ch) 0%nat Hn).
      cbn [snd Nat.add].
      erewrite (channel_call_middle _ Call_SetVersion _
                  (m_channel_impl_map m) [] ch (chan_new ch)) by reflexivity.
      cbn [fst snd]. unfold unlocked, locked. f_equal; mux_eq.
    + cbv beta iota delta [bind modify ret gets R_FAILED].
      unfold locked, unlocked. f_equal; mux_eq.
Qed.

(** ** Relations that every step of a computation respects *)

Section Respects.

Variable R : MuxT -> MuxT -> Prop.
Context `{!PreOrder R}.

Lemma respects_ret {A : Type} (a : A) : respects R (ret a).
Proof. intros m a' m' [= _ <-]. reflexivity. Qed.

Lemma respects_gets {A : Type} (f : MuxT -> A) : respects R (gets f).
Proof. intros m a' m' [= _ <-]. reflexivity. Qed.

Lemma respects_stop {A : Type} (f : Fault) : respects R (@stop Chan PF A f).
Proof. intros m a' m'. discriminate. Qed.

Lemma respects_modify (f : MuxT -> MuxT) :
  (forall m, R m (f m)) -> respects R (modify f).
Proof. intros Hf m a' m' Hr. injection Hr as _ <-. apply Hf. Qed.

Lemma respects_bind {A B : Type} (c : M Chan PF A) (k : A -> M Chan PF B) :
  respects R c -> (forall a, respects R (k a)) -> respects R (bind c k).
Proof.
  intros Hc Hk m b m'. unfold bind. destruct (c m) as [a m1|] eqn:E; [|discriminate].
  intros Hb. transitivity m1; [exact (Hc _ _ _ E) | exact (Hk _ _ _ _ Hb)].
Qed.

Lemma respects_for_each {A : Type} (l : list A) (body : A -> M Chan PF unit) :
  (forall x, respects R (body x)) -> respects R (for_each l body).
Proof.
  intros Hb. induction l as [|x l IH]; simpl.
  - apply respects_ret.
  - apply respects_bind; [apply Hb | intros _; exact IH].
Qed.

Lemma respects_discard {A : Type} (c : M Chan PF A) :
  respects R c -> respects R (discard c).
Proof. intros Hc. apply respects_bind; [exact Hc | intros a; apply respects_ret]. Qed.

End Respects.

(** Breaks a computation into its steps; [leaf] is tried on the steps
    that change the state. *)
Ltac respects_steps leaf :=
  repeat first
    [ match goal with
      | |- respects ?R (ret _) => apply (respects_ret R)
      | |- respects ?R (gets _) => apply (respects_gets R)
      | |- respects ?R (stop _) => apply (respects_stop R)
      | |- respects ?R (discard _) => apply (respects_discard R)
      | |- respects ?R (bind _ _) => apply (respects_bind R); [|intros ?]
      | |- respects ?R (for_each _ _) => apply (respects_for_each R); intros ?
      | |- respects _ (match ?x with _ => _ end) => destruct x
      end
    | leaf ].

Ltac unfold_steps :=
  unfold scoped_lock, mutex_lock, mutex_unlock, event_Signal,
    task_manager_NotifySendReady, record, SendErrorPacket, IsSendable,
    AddChannel, GetChannelImpl_call.

(** ** Versions *)

#[local] Instance keeps_versions_preorder : PreOrder (@keeps_versions Chan _ PF).
Proof.
  split; unfold keeps_versions.
  - intros m Hm. exact Hm.
  - intros m1 m2 m3 H12 H23 Hm. auto.
Qed.

Lemma keeps_versions_channel_call `{!VersionOnlySetBySetVersion Chan}
    {B : Type} (index : nat) call (f : Chan -> B * Chan) :
  (forall c, chan_version (snd (f c)) = chan_version c) ->
  respects (@keeps_versions Chan _ PF) (channel_call index call f).
Proof.
  intros Hf m b m'. unfold channel_call.
  destruct (m_channel_impl_map m !! index) as [[k c]|] eqn:El; [|discriminate].
  destruct (f c) as [b' c'] eqn:Ef. intros [= _ <-].
  unfold keeps_versions, versions_agree. simpl. intros Hm.
  apply Forall_insert; [exact Hm|]. simpl.
  pose proof (Hf c) as Hc. rewrite Ef in Hc. simpl in Hc. rewrite Hc.
  exact (Forall_lookup_1 _ _ _ _ Hm El).
Qed.

Lemma keeps_versions_loop `{!VersionOnlySetBySetVersion Chan}
    (pairs : list (ChannelInternalType * nat)) (out : SendOut) :
  respects (@keeps_versions Chan _ PF) (QuerySendPacket_loop pairs out).
Proof.
  induction pairs as [|pr pairs IH]; simpl.
  - apply (respects_ret (@keeps_versions Chan _ PF)).
  - apply (respects_bind (@keeps_versions Chan _ PF)).
    + apply keeps_versions_channel_call. apply version_QuerySendPacket.
    + intros [o|]; [|exact IH]. unfold IsSendable.
      respects_steps fail.
Qed.

Ltac keeps_versions_leaf :=
  first
    [ apply (respects_modify (@keeps_versions Chan _ PF)); intros ? ?; assumption
    | apply keeps_versions_loop
    | apply keeps_versions_channel_call; intros ?; simpl;
      first [ apply version_ProcessReceivePacket
            | apply version_QuerySendPacket
            | apply version_RemovePacket
            | apply version_UpdateState
            | apply version_SetSendBuffer
            | apply version_SetSendBufferWithData
            | apply version_SetReceiveBuffer ] ].

Lemma versions_agree_new (pf : PF) (sm : HtcctrlStateMachine) :
  versions_agree (Mux_new ProtocolVersion pf sm).
Proof. constructor. Qed.

Lemma SetVersion_versions (m : MuxT) (v : Z) :
  exists m',
    SetVersion v m = Returns tt m' /\
    m_version m' = v /\
    map fst (m_channel_impl_map m') = map fst (m_channel_impl_map m) /\
    versions_agree m'.
Proof.
  rewrite SetVersion_run. eexists. split; [reflexivity|]. simpl.
  split; [reflexivity|]. split.
  - rewrite map_map. reflexivity.
  - unfold versions_agree. simpl. apply Forall_forall.
    intros kc Hin. apply in_map_iff in Hin as ([k c] & <- & _). simpl.
    apply chan_SetVersion_version.
Qed.

Lemma Open_versions (m m' : MuxT) (ch : ChannelInternalType) :
  m_mutex m = false ->
  Open MaxChannelCount ch m = Returns ResultSuccess m' ->
  (ch ∉ map fst (m_channel_impl_map m)) /\
  m_version m' = m_version m /\
  exists c,
    m_channel_impl_map m' = m_channel_impl_map m ++ [(ch, c)] /\
    chan_version c = m_version m.
Proof.
  intros Hm. rewrite Open_run by assumption.
  destruct (Exists ch m) eqn:Hex; [discriminate|].
  destruct (length (m_channel_impl_map m) <? MaxChannelCount)%nat; [|discriminate].
  intros [= <-]. simpl. split.
  - intros Hin. apply Exists_spec in Hin. congruence.
  - split; [reflexivity|]. eexists. split; [reflexivity|].
    apply chan_SetVersion_version.
Qed.

Lemma perform_keeps_versions `{!VersionOnlySetBySetVersion Chan} (op : Operation) :
  respects (@keeps_versions Chan _ PF)
    (perform HtcGen2Signature sizeof_PacketBody MaxChannelCount op).
Proof.
  destruct op; simpl.
  - (* SetVersion *)
    intros m a m' Hrun _.
    destruct (SetVersion_versions m version0) as (m1 & Hr & _ & _ & Hv).
    rewrite Hr in Hrun. injection Hrun as _ <-. exact Hv.
  - unfold CheckReceivedHeader. unfold_steps. respects_steps keeps_versions_leaf.
  - unfold ProcessReceivePacket. unfold_steps. respects_steps keeps_versions_leaf.
  - unfold QuerySendPacket. unfold_steps. respects_steps keeps_versions_leaf.
  - unfold RemovePacket. unfold_steps. respects_steps keeps_versions_leaf.
  - unfold UpdateChannelState. unfold_steps. respects_steps keeps_versions_leaf.
  - unfold UpdateMuxState. unfold_steps. respects_steps keeps_versions_leaf.
  - unfold CheckChannelExist. unfold_steps. respects_steps keeps_versions_leaf.
  - unfold_steps. respects_steps keeps_versions_leaf.
  - (* Open *)
    intros m a m' Hrun Hagree. unfold discard, bind in Hrun.
    destruct (m_mutex m) eqn:Hm.
    { unfold Open in Hrun. now rewrite scoped_lock_held in Hrun. }
    rewrite Open_run in Hrun by assumption.
    destruct (Exists ch m);
      [|destruct (length (m_channel_impl_map m) <? MaxChannelCount)%nat];
      unfold ret in Hrun; injection Hrun as _ <-; try exact Hagree.
    unfold versions_agree in *. simpl. apply Forall_app. split; [exact Hagree|].
    constructor; [|constructor]. simpl. apply chan_SetVersion_version.
  - unfold GetTaskEvent. unfold_steps. respects_steps keeps_versions_leaf.
  - unfold SetSendBuffer. unfold_steps. respects_steps keeps_versions_leaf.
  - unfold SetSendBufferWithData. unfold_steps. respects_steps keeps_versions_leaf.
  - unfold SetReceiveBuffer. unfold_steps. respects_steps keeps_versions_leaf.
  - respects_steps keeps_versions_leaf.
Qed.

Lemma perform_all_keeps_versions `{!VersionOnlySetBySetVersion Chan}
    (ops : list Operation) :
  respects (@keeps_versions Chan _ PF)
    (perform_all HtcGen2Signature sizeof_PacketBody MaxChannelCount ops).
Proof.
  induction ops as [|op ops IH]; simpl.
  - apply (respects_ret (@keeps_versions Chan _ PF)).
  - apply (respects_bind (@keeps_versions Chan _ PF));
      [apply perform_keeps_versions | intros _; exact IH].
Qed.

(** C7. [SetVersion v] always returns, with the multiplexer's version
    [v] and every channel of the table at version [v].  A successful
    [Open] adds one entry for the channel, whose version is the
    multiplexer's.  For engines that change their version only in
    [SetVersion], every open channel has the multiplexer's version after
    any sequence of calls on a newly constructed multiplexer. *)
Theorem C7_version_propagation :
  (forall (m : MuxT) v,
     exists m',
       SetVersion v m = Returns tt m' /\
       m_version m' = v /\
       map fst (m_channel_impl_map m') = map fst (m_channel_impl_map m) /\
       Forall (fun kc => chan_version (snd kc) = v) (m_channel_impl_map m')) /\
  (forall (m m' : MuxT) ch,
     m_mutex m = false ->
     Open MaxChannelCount ch m = Returns ResultSuccess m' ->
     m_version m' = m_version m /\
     exists c,
       m_channel_impl_map m' = m_channel_impl_map m ++ [(ch, c)] /\
       chan_version c = m_version m) /\
  (VersionOnlySetBySetVersion Chan ->
   forall pf sm ops (m : MuxT),
     perform_all HtcGen2Signature sizeof_PacketBody MaxChannelCount ops
       (Mux_new ProtocolVersion pf sm) = Returns tt m ->
     versions_agree m).
Proof.
  split; [|split].
  - intros m v. destruct (SetVersion_versions m v) as (m' & Hr & Hv & Hk & Ha).
    exists m'. repeat split; try assumption.
    unfold versions_agree in Ha. now rewrite Hv in Ha.
  - intros m m' ch Hm Hrun.
    destruct (Open_versions m m' ch Hm Hrun) as (_ & Hv & Hc). split; assumption.
  - intros Hstable pf sm ops m Hrun.
    exact (perform_all_keeps_versions ops _ _ _ Hrun (versions_agree_new pf sm)).
Qed.

(** ** The lock *)

#[local] Instance lock_free_steps_preorder : PreOrder (@lock_free_steps Chan PF).
Proof.
  split; unfold lock_free_steps.
  - intros m. split; [reflexivity|]. exists []. now rewrite app_nil_r.
  - intros m1 m2 m3 (Hm12 & e12 & Ht12 & Hf12) (Hm23 & e23 & Ht23 & Hf23).
    split; [congruence|]. exists (e12 ++ e23). split.
    + now rewrite Ht23, Ht12, app_assoc.
    + apply Forall_app. split; assumption.
Qed.

Lemma lock_free_channel_call {B : Type} (index : nat) call (f : Chan -> B * Chan) :
  respects (@lock_free_steps Chan PF) (channel_call index call f).
Proof.
  intros m b m'. unfold channel_call.
  destruct (m_channel_impl_map m !! index) as [[k c]|]; [|discriminate].
  destruct (f c) as [b' c']. intros Hr. injection Hr as _ <-.
  split; [reflexivity|]. eexists. split; [reflexivity|]. repeat constructor.
Qed.

Ltac lock_free_leaf :=
  first
    [ apply lock_free_channel_call
    | apply (respects_modify (@lock_free_steps Chan PF)); intros ?;
      (split; [reflexivity|]);
      first [ exists []; split; [symmetry; apply app_nil_r | constructor]
            | eexists; split; [reflexivity | repeat constructor] ] ].

Lemma lock_free_loop (pairs : list (ChannelInternalType * nat)) (out : SendOut) :
  respects (@lock_free_steps Chan PF) (QuerySendPacket_loop pairs out).
Proof.
  induction pairs as [|pr pairs IH]; simpl.
  - apply (respects_ret (@lock_free_steps Chan PF)).
  - apply (respects_bind (@lock_free_steps Chan PF)).
    + apply lock_free_channel_call.
    + intros [o|]; [|exact IH]. unfold IsSendable.
      respects_steps fail.
Qed.

Lemma scoped_lock_bracketed {A : Type} (body : M Chan PF A) :
  respects (@lock_free_steps Chan PF) body ->
  forall m a m',
    scoped_lock body m = Returns a m' ->
    m_mutex m = false /\ lock_bracketed m m'.
Proof.
  intros Hbody m a m' Hrun. destruct (m_mutex m) eqn:Hm.
  - rewrite scoped_lock_held in Hrun by assumption. discriminate.
  - split; [reflexivity|]. rewrite scoped_lock_run in Hrun by assumption.
    destruct (body (locked m)) as [a1 m1|] eqn:Eb; [|discriminate].
    injection Hrun as _ <-.
    destruct (Hbody _ _ _ Eb) as (_ & evs & Ht & Hf).
    split; [reflexivity|]. exists evs. split; [|exact Hf].
    unfold unlocked. read_fields. rewrite Ht. unfold locked. read_fields.
    now rewrite <- !app_assoc.
Qed.

Lemma discard_returns {A : Type} (c : M Chan PF A) (m m' : MuxT) (u : unit) :
  discard c m = Returns u m' -> exists a, c m = Returns a m'.
Proof.
  unfold discard, bind, ret. destruct (c m) as [a m1|]; [|discriminate].
  intros Hr. injection Hr as _ <-. now exists a.
Qed.

Lemma discard_stops {A : Type} (c : M Chan PF A) (m : MuxT) (f : Fault) :
  discard c m = Stops f -> c m = Stops f.
Proof.
  unfold discard, bind, ret. destruct (c m) as [a m1|]; [discriminate|].
  intros Hr. injection Hr as ->. reflexivity.
Qed.

Ltac lock_free_body :=
  unfold_steps; respects_steps ltac:(first [apply lock_free_loop | lock_free_leaf]).

Lemma perform_lock_discipline (op : Operation) (m m' : MuxT) :
  perform HtcGen2Signature sizeof_PacketBody MaxChannelCount op m = Returns tt m' ->
  if takes_lock op
  then m_mutex m = false /\ lock_bracketed m m'
  else lock_free_steps m m'.
Proof.
  destruct op; simpl; intros Hrun;
    try (apply discard_returns in Hrun as [a Hrun]);
    unfold ProcessReceivePacket, QuerySendPacket, RemovePacket,
      UpdateChannelState, UpdateMuxState, Open, GetTaskEvent, SetSendBuffer,
      SetSendBufferWithData, SetReceiveBuffer in Hrun;
    match type of Hrun with
    | scoped_lock ?body _ = _ =>
        revert Hrun; apply scoped_lock_bracketed
    | ?c _ = _ =>
        enough (Hc : respects (@lock_free_steps Chan PF) c) by exact (Hc _ _ _ Hrun)
    end.
  all: try unfold SetVersion; try unfold CheckReceivedHeader;
    try unfold CheckChannelExist; lock_free_body.
Qed.

(** Between calls the mutex is free: every state reached from a newly
    constructed multiplexer by public calls has it free, so the
    condition [m_mutex m = false] of the statements above holds
    wherever a call can begin. *)
Lemma reachable_mutex_free (pf : PF) (sm : HtcctrlStateMachine)
    (ops : list Operation) (m : MuxT) :
  perform_all HtcGen2Signature sizeof_PacketBody MaxChannelCount ops
    (Mux_new ProtocolVersion pf sm) = Returns tt m ->
  m_mutex m = false.
Proof.
  assert (Hgen : forall ops (m0 m1 : MuxT),
            m_mutex m0 = false ->
            perform_all HtcGen2Signature sizeof_PacketBody MaxChannelCount ops m0
              = Returns tt m1 ->
            m_mutex m1 = false).
  { clear ops m. induction ops as [|op ops IH]; intros m0 m1 Hm0; simpl.
    - unfold ret. intros Hr. injection Hr as <-. exact Hm0.
    - unfold bind.
      destruct (perform HtcGen2Signature sizeof_PacketBody MaxChannelCount op m0)
        as [[] m2|] eqn:Eop; [|discriminate].
      apply IH. apply perform_lock_discipline in Eop.
      destruct (takes_lock op).
      + destruct Eop as (_ & Hfree & _). exact Hfree.
      + destruct Eop as (Hsame & _). congruence. }
  apply Hgen. reflexivity.
Qed.

Lemma found_call_returns {B : Type} (m : MuxT) ch it call (f : Chan -> B * Chan) :
  map_find ch (GetMap m) = Some it ->
  exists b m', channel_call (snd it) call f m = Returns b m'.
Proof.
  intros Hf. destruct (map_find_GetMap _ _ _ Hf) as [c Hc].
  rewrite (channel_call_run m _ _ _ _ _ Hc). eauto.
Qed.

(** A call under the lock that looks the channel up first: it returns
    if the channel is there, and otherwise does what [other] does. *)
Lemma find_call_stops {B : Type} (m : MuxT) ch call (f : Chan -> B * Chan)
    (other : M Chan PF B) (flt : Fault) :
  m_mutex m = false ->
  scoped_lock
    (do pairs <- gets GetMap;
     match map_find ch pairs with
     | Some it => channel_call (snd it) call f
     | None => other
     end) m = Stops flt ->
  (ch ∉ map fst (m_channel_impl_map m)) /\ other (locked m) = Stops flt.
Proof.
  intros Hm. rewrite scoped_lock_run by assumption.
  unfold bind at 1. unfold gets at 1.
  destruct (map_find ch (GetMap (locked m))) as [it|] eqn:Hf.
  - destruct (found_call_returns (locked m) ch it call f Hf) as (b & m1 & Hr).
    rewrite Hr. discriminate.
  - intros Hs. split.
    + now apply (map_find_pairs_from_None _ 0%nat).
    + destruct (other (locked m)); [discriminate|exact Hs].
Qed.

Lemma perform_stops (op : Operation) (m : MuxT) (f : Fault) :
  m_mutex m = false ->
  perform HtcGen2Signature sizeof_PacketBody MaxChannelCount op m = Stops f ->
  declared_abort HtcGen2Signature op m f.
Proof.
  intros Hm. destruct op; simpl; intros Hrun;
    try apply discard_stops in Hrun.
  - now rewrite SetVersion_run in Hrun.
  - unfold CheckReceivedHeader in Hrun.
    destruct (Z.eqb_spec (signature header) HtcGen2Signature) as [Hs|Hs];
      simpl in Hrun.
    + right. unfold_monad.
      destruct (packet_type header) eqn:Hk;
        repeat match type of Hrun with
               | context [if ?b then _ else _] => destruct b
               end; try discriminate.
      injection Hrun as <-. eauto.
    + left. unfold stop in Hrun. injection Hrun as <-. split; [reflexivity|exact Hs].
  - unfold ProcessReceivePacket in Hrun.
    apply find_call_stops in Hrun as [_ Hrun]; [|assumption].
    revert Hrun. unfold bind at 1.
    destruct (packet_type header); unfold bind, ret;
      try rewrite SendErrorPacket_run;
      try destruct (pf_MakeErrorPacket _ _) as [[p|] pf']; discriminate.
  - destruct (m_global_send_buffer m) as [|p q] eqn:Hq.
    + now rewrite QuerySendPacket_run in Hrun.
    + now rewrite (QuerySendPacket_control_run m out p q) in Hrun.
  - now rewrite RemovePacket_run in Hrun.
  - now rewrite UpdateChannelState_run in Hrun.
  - now rewrite UpdateMuxState_run in Hrun.
  - unfold CheckChannelExist in Hrun. unfold_monad.
    destruct (Exists ch m); discriminate.
  - rewrite SendErrorPacket_run in Hrun.
    destruct (pf_MakeErrorPacket _ _) as [[p|] pf']; discriminate.
  - rewrite Open_run in Hrun by assumption.
    destruct (Exists ch m); [discriminate|].
    destruct (_ <? _)%nat; discriminate.
  - unfold GetTaskEvent in Hrun. rewrite scoped_lock_run in Hrun by assumption.
    discriminate.
  - unfold SetSendBuffer in Hrun.
    apply find_call_stops in Hrun as [Hn Hrun]; [|assumption].
    unfold stop in Hrun. injection Hrun as <-. split; [reflexivity|exact Hn].
  - unfold SetSendBufferWithData in Hrun.
    apply find_call_stops in Hrun as [Hn Hrun]; [|assumption].
    unfold stop in Hrun. injection Hrun as <-. split; [reflexivity|exact Hn].
  - unfold SetReceiveBuffer in Hrun.
    apply find_call_stops in Hrun as [Hn Hrun]; [|assumption].
    unfold stop in Hrun. injection Hrun as <-. split; [reflexivity|exact Hn].
  - discriminate.
Qed.

(** ** The lock, step by step *)

Local Abbreviation PrimT := (@Prim Chan).
Local Abbreviation CodeT := (@Code Chan).

Lemma bind_ext {A B : Type} (c c' : M Chan PF A) (k k' : A -> M Chan PF B)
    (m : MuxT) :
  c m = c' m ->
  (forall a m', k a m' = k' a m') ->
  bind c k m = bind c' k' m.
Proof.
  unfold bind. intros -> Hk. destruct (c' m); [apply Hk | reflexivity].
Qed.

Lemma bind_ret_tt (c : M Chan PF unit) (m : MuxT) :
  bind c (fun _ => ret tt) m = c m.
Proof. unfold bind, ret. destruct (c m) as [[] m'|]; reflexivity. Qed.

Lemma bind_ret_same {A : Type} (c : M Chan PF A) (m : MuxT) :
  bind c (fun a => ret a) m = c m.
Proof. unfold bind, ret. destruct (c m); reflexivity. Qed.

Lemma bind_gets {A B : Type} (f : MuxT -> A) (k : A -> M Chan PF B) (m : MuxT) :
  bind (gets f) k m = k (f m) m.
Proof. reflexivity. Qed.

Lemma for_each_ext {X : Type} (l : list X) (body body' : X -> M Chan PF unit) :
  (forall x m, body x m = body' x m) ->
  forall m, for_each l body m = for_each l body' m.
Proof.
  intros Hb. induction l as [|x l IH]; intros m; simpl; [reflexivity|].
  apply bind_ext; [apply Hb | intros _ m'; apply IH].
Qed.

Lemma scoped_lock_ext {A : Type} (body body' : M Chan PF A) :
  (forall m, body m = body' m) ->
  forall m, scoped_lock body m = scoped_lock body' m.
Proof.
  intros Hb m. unfold scoped_lock.
  apply bind_ext; [reflexivity|]. intros _ m1.
  apply bind_ext; [apply Hb | reflexivity].
Qed.

(** *** The steps stand for the member functions *)

Lemma run_bind {A B : Type} (c : CodeT A) (k : A -> CodeT B) :
  forall m : MuxT,
    run MaxChannelCount (code_bind c k) m
    = bind (run MaxChannelCount c) (fun a => run MaxChannelCount (k a)) m.
Proof.
  induction c as [a|f|B0 p k0 IH]; intros m; simpl; try reflexivity.
  unfold bind at 1 2 3. destruct (prim_run MaxChannelCount p m) as [b m'|];
    [apply IH | reflexivity].
Qed.

Lemma run_discard {A : Type} (c : CodeT A) (body : M Chan PF A) :
  (forall m, run MaxChannelCount c m = body m) ->
  forall m : MuxT,
    run MaxChannelCount (code_bind c (fun _ => Return tt)) m = discard body m.
Proof.
  intros Hc m. rewrite run_bind. unfold discard.
  apply bind_ext; [apply Hc | reflexivity].
Qed.

Lemma run_for_each {X : Type} (l : list X) (body : X -> CodeT unit) :
  forall m : MuxT,
    run MaxChannelCount (for_each_steps l body) m
    = for_each l (fun x => run MaxChannelCount (body x)) m.
Proof.
  induction l as [|x l IH]; intros m; simpl; [reflexivity|].
  rewrite run_bind. apply bind_ext; [reflexivity | intros _ m'; apply IH].
Qed.

Lemma run_scoped_lock {A : Type} (c : CodeT A) (body : M Chan PF A) :
  (forall m, run MaxChannelCount c m = body m) ->
  forall m : MuxT,
    run MaxChannelCount (scoped_lock_steps c) m = scoped_lock body m.
Proof.
  intros Hc m. unfold scoped_lock_steps, scoped_lock. simpl.
  apply bind_ext; [reflexivity|]. intros _ m1. rewrite run_bind.
  apply bind_ext; [apply Hc | reflexivity].
Qed.

Lemma run_logged_fst {A : Type} (c : CodeT A) :
  forall m : MuxT,
    fst (run_logged MaxChannelCount c m) = run MaxChannelCount c m.
Proof.
  induction c as [a|f|B0 p k0 IH]; intros m; simpl; try reflexivity.
  unfold bind. destruct (prim_run MaxChannelCount p m) as [b m'|];
    [|reflexivity].
  rewrite <- IH. destruct (run_logged MaxChannelCount (k0 b) m'). reflexivity.
Qed.

Lemma run_logged_bind {A B : Type} (c : CodeT A) (k : A -> CodeT B) :
  forall m : MuxT,
    run_logged MaxChannelCount (code_bind c k) m =
    match run_logged MaxChannelCount c m with
    | (Returns a m', l) =>
        let '(o, l') := run_logged MaxChannelCount (k a) m' in (o, l ++ l')
    | (Stops f, l) => (Stops f, l)
    end.
Proof.
  induction c as [a|f|B0 p k0 IH]; intros m; simpl.
  - destruct (run_logged MaxChannelCount (k a) m). reflexivity.
  - reflexivity.
  - destruct (prim_run MaxChannelCount p m) as [b m'|]; [|reflexivity].
    rewrite IH.
    destruct (run_logged MaxChannelCount (k0 b) m') as [[a m1|f] l];
      [|reflexivity].
    destruct (run_logged MaxChannelCount (k a) m1) as [o l'].
    now rewrite app_assoc.
Qed.

Ltac run_steps :=
  cbn [run prim_run for_each_steps for_each QuerySendPacket_loop_steps
       QuerySendPacket_loop].

Lemma SetVersion_steps_run (v : Z) (m : MuxT) :
  run MaxChannelCount (SetVersion_steps v) m = SetVersion v m.
Proof.
  unfold SetVersion_steps, SetVersion. run_steps.
  apply bind_ext; [reflexivity|]. intros _ m1.
  apply bind_ext; [reflexivity|]. intros pairs m2.
  rewrite run_for_each. apply for_each_ext. intros pr m3. run_steps.
  apply bind_ext; [reflexivity|]. intros v' m4. apply bind_ret_tt.
Qed.

Lemma CheckReceivedHeader_steps_run (header : PacketHeader) (m : MuxT) :
  run MaxChannelCount
    (CheckReceivedHeader_steps HtcGen2Signature sizeof_PacketBody header) m
  = CheckReceivedHeader HtcGen2Signature sizeof_PacketBody header m.
Proof.
  unfold CheckReceivedHeader_steps, CheckReceivedHeader.
  destruct (negb (signature header =? HtcGen2Signature)); [reflexivity|].
  rewrite bind_gets.
  destruct (packet_type header); run_steps; rewrite ?bind_gets;
    repeat match goal with
           | |- context [if ?b then _ else _] => destruct b
           end; reflexivity.
Qed.

Lemma SendErrorPacket_steps_run (ch : ChannelInternalType) (m : MuxT) :
  run MaxChannelCount (SendErrorPacket_steps ch) m = SendErrorPacket ch m.
Proof.
  unfold SendErrorPacket_steps, SendErrorPacket. run_steps.
  unfold record, bind, gets, modify, ret. cbv beta iota. read_fields.
  destruct (pf_MakeErrorPacket ch (m_packet_factory m)) as [packet pf'].
  cbv beta iota. read_fields.
  destruct (GlobalSendBuffer.AddPacket packet (m_global_send_buffer m))
    as [r q'].
  cbv beta iota. destruct (R_FAILED r); reflexivity.
Qed.

Lemma ProcessReceivePacket_steps_run (header : PacketHeader) (body : PacketBody)
    (n : Z) (m : MuxT) :
  run MaxChannelCount (ProcessReceivePacket_steps header body n) m
  = ProcessReceivePacket header body n m.
Proof.
  unfold ProcessReceivePacket_steps, ProcessReceivePacket.
  apply run_scoped_lock. clear m. intros m. run_steps.
  apply bind_ext; [reflexivity|]. intros pairs m1.
  destruct (map_find (channel header) pairs) as [it|].
  - run_steps. apply bind_ret_same.
  - rewrite run_bind. apply bind_ext; [|reflexivity].
    destruct (packet_type header); try reflexivity;
      rewrite run_bind; (apply bind_ext; [|reflexivity]);
      apply SendErrorPacket_steps_run.
Qed.

Lemma IsSendable_steps_run (kind : PacketType) (m : MuxT) :
  run MaxChannelCount (IsSendable_steps kind) m = IsSendable kind m.
Proof.
  unfold IsSendable_steps, IsSendable. run_steps.
  apply bind_ext; [reflexivity|]. intros [] m1; reflexivity.
Qed.

Lemma QuerySendPacket_loop_steps_run (out : SendOut)
    (pairs : list (ChannelInternalType * nat)) :
  forall m : MuxT,
    run MaxChannelCount (QuerySendPacket_loop_steps pairs out) m
    = QuerySendPacket_loop pairs out m.
Proof.
  induction pairs as [|pr rest IH]; intros m; run_steps; [reflexivity|].
  apply bind_ext; [reflexivity|]. intros [o|] m1; [|apply IH].
  rewrite run_bind. apply bind_ext; [|reflexivity].
  apply IsSendable_steps_run.
Qed.

Lemma QuerySendPacket_steps_run (out : SendOut) (m : MuxT) :
  run MaxChannelCount (QuerySendPacket_steps out) m = QuerySendPacket out m.
Proof.
  unfold QuerySendPacket_steps, QuerySendPacket.
  apply run_scoped_lock. clear m. intros m. run_steps.
  rewrite !bind_gets.
  destruct (GlobalSendBuffer.GetNextPacket (m_global_send_buffer m));
    [reflexivity|].
  run_steps. apply bind_ext; [reflexivity|]. intros pairs m1.
  apply QuerySendPacket_loop_steps_run.
Qed.

Lemma RemovePacket_steps_run (header : PacketHeader) (m : MuxT) :
  run MaxChannelCount (RemovePacket_steps header) m = RemovePacket header m.
Proof.
  unfold RemovePacket_steps, RemovePacket.
  apply run_scoped_lock. clear m. intros m.
  rewrite run_bind. apply bind_ext.
  - destruct (packet_type header); run_steps; try apply bind_ret_tt;
      (apply bind_ext; [reflexivity|]); intros pairs m1;
      (destruct (map_find (channel header) pairs) as [it|];
       [run_steps; apply bind_ret_tt | reflexivity]).
  - intros _ m1. run_steps. apply bind_ret_tt.
Qed.

Lemma UpdateChannelState_steps_run (m : MuxT) :
  run MaxChannelCount UpdateChannelState_steps m = UpdateChannelState m.
Proof.
  unfold UpdateChannelState_steps, UpdateChannelState.
  apply run_scoped_lock. clear m. intros m. run_steps.
  apply bind_ext; [reflexivity|]. intros pairs m1.
  rewrite run_for_each. apply for_each_ext. intros pr m2. run_steps.
  apply bind_ret_tt.
Qed.

Lemma UpdateMuxState_steps_run (m : MuxT) :
  run MaxChannelCount UpdateMuxState_steps m = UpdateMuxState m.
Proof.
  unfold UpdateMuxState_steps, UpdateMuxState.
  apply run_scoped_lock. clear m. intros m. run_steps.
  rewrite !bind_gets.
  destruct (IsSleeping (m_state_machine m)); run_steps.
  - apply bind_ret_tt.
  - apply bind_ext; [reflexivity|]. intros _ m1. apply bind_ret_tt.
Qed.

Lemma CheckChannelExist_steps_run (ch : ChannelInternalType) (m : MuxT) :
  run MaxChannelCount (CheckChannelExist_steps ch) m = CheckChannelExist ch m.
Proof.
  unfold CheckChannelExist_steps, CheckChannelExist. run_steps.
  apply bind_ext; [reflexivity|]. intros [] m1; reflexivity.
Qed.

Lemma Open_steps_run (ch : ChannelInternalType) (m : MuxT) :
  run MaxChannelCount (Open_steps ch) m = Open MaxChannelCount ch m.
Proof.
  unfold Open_steps, Open.
  apply run_scoped_lock. clear m. intros m. run_steps.
  apply bind_ext; [reflexivity|]. intros [] m1; [reflexivity|]. run_steps.
  apply bind_ext; [reflexivity|]. intros r m2.
  destruct (R_FAILED r); reflexivity.
Qed.

Lemma GetTaskEvent_steps_run (task_id : Z) (m : MuxT) :
  run MaxChannelCount (GetTaskEvent_steps task_id) m = GetTaskEvent task_id m.
Proof.
  unfold GetTaskEvent_steps, GetTaskEvent. apply run_scoped_lock. reflexivity.
Qed.

Lemma SetSendBuffer_steps_run (ch : ChannelInternalType) (b n k : Z) (m : MuxT) :
  run MaxChannelCount (SetSendBuffer_steps ch b n k) m = SetSendBuffer ch b n k m.
Proof.
  unfold SetSendBuffer_steps, SetSendBuffer.
  apply run_scoped_lock. clear m. intros m. run_steps.
  apply bind_ext; [reflexivity|]. intros pairs m1.
  destruct (map_find ch pairs); [run_steps; apply bind_ret_tt | reflexivity].
Qed.

Lemma SetSendBufferWithData_steps_run (ch : ChannelInternalType) (b n k : Z)
    (m : MuxT) :
  run MaxChannelCount (SetSendBufferWithData_steps ch b n k) m
  = SetSendBufferWithData ch b n k m.
Proof.
  unfold SetSendBufferWithData_steps, SetSendBufferWithData.
  apply run_scoped_lock. clear m. intros m. run_steps.
  apply bind_ext; [reflexivity|]. intros pairs m1.
  destruct (map_find ch pairs); [run_steps; apply bind_ret_tt | reflexivity].
Qed.

Lemma SetReceiveBuffer_steps_run (ch : ChannelInternalType) (b n : Z) (m : MuxT) :
  run MaxChannelCount (SetReceiveBuffer_steps ch b n) m = SetReceiveBuffer ch b n m.
Proof.
  unfold SetReceiveBuffer_steps, SetReceiveBuffer.
  apply run_scoped_lock. clear m. intros m. run_steps.
  apply bind_ext; [reflexivity|]. intros pairs m1.
  destruct (map_find ch pairs); [run_steps; apply bind_ret_tt | reflexivity].
Qed.

(** The steps of every call stand for the call. *)
Lemma steps_of_run (op : Operation) (m : MuxT) :
  run MaxChannelCount (steps_of HtcGen2Signature sizeof_PacketBody op) m
  = perform HtcGen2Signature sizeof_PacketBody MaxChannelCount op m.
Proof.
  destruct op; cbn [steps_of perform].
  - apply SetVersion_steps_run.
  - apply run_discard, CheckReceivedHeader_steps_run.
  - apply run_discard. intros m0. apply ProcessReceivePacket_steps_run.
  - apply run_discard. intros m0. apply QuerySendPacket_steps_run.
  - apply RemovePacket_steps_run.
  - apply UpdateChannelState_steps_run.
  - apply UpdateMuxState_steps_run.
  - apply run_discard. intros m0. apply CheckChannelExist_steps_run.
  - apply run_discard. intros m0. apply SendErrorPacket_steps_run.
  - apply run_discard. intros m0. apply Open_steps_run.
  - apply run_discard. intros m0. apply GetTaskEvent_steps_run.
  - apply SetSendBuffer_steps_run.
  - apply SetSendBufferWithData_steps_run.
  - apply SetReceiveBuffer_steps_run.
  - simpl. apply bind_ret_tt.
Qed.

(** *** A step touches only the guarded members it declares *)

(** A primitive step that declares no access to a guarded member
    neither reads nor writes it: overwriting the member before the step
    or after it comes to the same. *)
Lemma prim_untouched {B : Type} (p : PrimT B) (x : GuardedValue Chan) (m : MuxT) :
  touches (guarded_of x) p = false ->
  prim_run MaxChannelCount p (put x m) =
  match prim_run MaxChannelCount p m with
  | Returns b m' => Returns b (put x m')
  | Stops f => Stops f
  end.
Proof.
  destruct x, p; intros Ht; try discriminate Ht; clear Ht;
    cbn [prim_run put];
    unfold GetChannelImpl_call, AddChannel, channel_call, GetMap, mutex_lock,
      mutex_unlock, event_Signal, task_manager_NotifySendReady, record, bind,
      gets, modify, ret, stop;
    cbv beta iota; read_fields;
    repeat (match goal with
            | |- context [if ?b then _ else _] => destruct b
            | |- context [map_find ?ch ?l] => destruct (map_find ch l)
            | |- context [m_channel_impl_map ?m0 !! ?i] =>
                destruct (m_channel_impl_map m0 !! i) as [[? ?]|]
            | |- context [let '(_, _) := ?e in _] => destruct e
            end; cbv beta iota; read_fields);
    try reflexivity; f_equal; mux_eq.
Qed.

(** *** What the log of a run looks like *)

Lemma prim_keeps_mutex {B : Type} (p : PrimT B) (m : MuxT) (b : B) (m' : MuxT) :
  is_lock_prim p = false ->
  prim_run MaxChannelCount p m = Returns b m' ->
  m_mutex m' = m_mutex m.
Proof.
  intros Hp Hr.
  enough (Hl : lock_free_steps m m') by exact (proj1 Hl).
  revert b Hr.
  enough (Hc : respects (@lock_free_steps Chan PF) (prim_run MaxChannelCount p))
    by (intros b Hr; exact (Hc _ _ _ Hr)).
  destruct p; try discriminate Hp; cbn [prim_run];
    unfold AddChannel, GetChannelImpl_call; lock_free_body.
Qed.

Lemma prim_actions_not_lock {B : Type} (p : PrimT B) (held : bool) :
  is_lock_prim p = false ->
  all_steps_with held (map (fun a => (held, a)) (prim_actions p)).
Proof.
  intros Hp. destruct p; try discriminate Hp; repeat constructor.
Qed.

Lemma lock_free_log {A : Type} (c : CodeT A) :
  lock_free_code c ->
  forall m : MuxT,
    all_steps_with (m_mutex m) (snd (run_logged MaxChannelCount c m)) /\
    (forall a m', fst (run_logged MaxChannelCount c m) = Returns a m' ->
                  m_mutex m' = m_mutex m).
Proof.
  induction c as [a|f|B0 p k0 IH]; simpl.
  - intros _ m. split; [constructor|]. intros a' m' Hr. now injection Hr as _ <-.
  - intros _ m. split; [constructor|]. discriminate.
  - intros [Hp Hk] m.
    destruct (prim_run MaxChannelCount p m) as [b m1|] eqn:Ep.
    + pose proof (prim_keeps_mutex p m b m1 Hp Ep) as Hm.
      destruct (IH b (Hk b) m1) as [Hl Hr].
      destruct (run_logged MaxChannelCount (k0 b) m1) as [o l]. simpl in *.
      split.
      * apply Forall_app. split; [now apply prim_actions_not_lock|].
        now rewrite <- Hm.
      * intros a m' Ho. rewrite <- Hm. now apply (Hr a).
    + simpl. split; [now apply prim_actions_not_lock | discriminate].
Qed.

Lemma lock_free_bind {A B : Type} (c : CodeT A) (k : A -> CodeT B) :
  lock_free_code c ->
  (forall a, lock_free_code (k a)) ->
  lock_free_code (code_bind c k).
Proof.
  intros Hc Hk. induction c as [a|f|B0 p k0 IH]; simpl; [apply Hk|exact I|].
  destruct Hc as [Hp Hk0]. split; [exact Hp|]. intros b. now apply IH.
Qed.

Lemma lock_free_for_each {X : Type} (l : list X) (body : X -> CodeT unit) :
  (forall x, lock_free_code (body x)) ->
  lock_free_code (for_each_steps l body).
Proof.
  intros Hb. induction l as [|x l IH]; simpl; [exact I|].
  apply lock_free_bind; [apply Hb | intros _; exact IH].
Qed.

Lemma lock_free_SendErrorPacket (ch : ChannelInternalType) :
  lock_free_code (@SendErrorPacket_steps Chan ch).
Proof.
  simpl. split; [reflexivity|]. intros packet. split; [reflexivity|].
  intros r. destruct (R_FAILED r); simpl; [exact I|].
  split; [reflexivity|]. intros _. exact I.
Qed.

Lemma lock_free_loop_steps (pairs : list (ChannelInternalType * nat))
    (out : SendOut) :
  lock_free_code (QuerySendPacket_loop_steps pairs out).
Proof.
  induction pairs as [|pr rest IH]; simpl; [exact I|].
  split; [reflexivity|]. intros [o|]; [|exact IH].
  simpl. split; [reflexivity|]. intros []; exact I.
Qed.

Lemma scoped_lock_steps_logged {A : Type} (body : CodeT A) (m : MuxT) :
  m_mutex m = false ->
  run_logged MaxChannelCount (scoped_lock_steps body) m =
  match run_logged MaxChannelCount body (locked m) with
  | (Returns a m1, l) =>
      (Returns a (unlocked m1),
       (false, A_lock) :: l ++ [(m_mutex m1, A_unlock)])
  | (Stops f, l) => (Stops f, (false, A_lock) :: l)
  end.
Proof.
  intros Hm. unfold scoped_lock_steps.
  cbn [run_logged prim_run prim_actions map].
  assert (Hl : mutex_lock m = Returns tt (locked m)).
  { unfold mutex_lock, bind, gets. now rewrite Hm. }
  rewrite Hl, Hm, run_logged_bind.
  destruct (run_logged MaxChannelCount body (locked m)) as [[a m1|f] l];
    [|reflexivity].
  cbn [run_logged prim_run prim_actions map].
  change (mutex_unlock m1) with (@Returns Chan PF unit tt (unlocked m1)).
  cbv beta iota. now rewrite app_nil_r.
Qed.

(** A body under [std::scoped_lock]: the lock is the first step, every
    step of the body is made with the mutex held, and the release is
    the last step of a run that returns. *)
Lemma scoped_lock_log {A : Type} (body : CodeT A) (m : MuxT) :
  lock_free_code body ->
  m_mutex m = false ->
  lock_held_throughout (run_logged MaxChannelCount (scoped_lock_steps body) m).
Proof.
  intros Hb Hm. rewrite scoped_lock_steps_logged by exact Hm.
  destruct (lock_free_log body Hb (locked m)) as [Hl Hr].
  change (m_mutex (locked m)) with true in Hl, Hr.
  unfold lock_held_throughout.
  destruct (run_logged MaxChannelCount body (locked m)) as [[a m1|f] l];
    cbn [fst snd] in *.
  - rewrite (Hr a m1 eq_refl). exists l. split; [exact Hl|].
    split; reflexivity.
  - exists l. split; [exact Hl|]. reflexivity.
Qed.

Lemma discard_log {A : Type} (c : CodeT A) (m : MuxT) :
  snd (run_logged MaxChannelCount (code_bind c (fun _ => Return tt)) m)
  = snd (run_logged MaxChannelCount c m) /\
  match fst (run_logged MaxChannelCount c m) with
  | Returns _ m' =>
      fst (run_logged MaxChannelCount (code_bind c (fun _ => Return tt)) m)
      = Returns tt m'
  | Stops f =>
      fst (run_logged MaxChannelCount (code_bind c (fun _ => Return tt)) m)
      = Stops f
  end.
Proof.
  rewrite run_logged_bind.
  destruct (run_logged MaxChannelCount c m) as [[a m'|f] l]; simpl.
  - now rewrite app_nil_r.
  - split; reflexivity.
Qed.

Lemma discard_lock_held {A : Type} (c : CodeT A) (m : MuxT) :
  lock_held_throughout (run_logged MaxChannelCount c m) ->
  lock_held_throughout
    (run_logged MaxChannelCount (code_bind c (fun _ => Return tt)) m).
Proof.
  unfold lock_held_throughout. intros (body & Hb & Hr).
  destruct (discard_log c m) as [Hs Hf]. rewrite Hs.
  exists body. split; [exact Hb|].
  destruct (fst (run_logged MaxChannelCount c m)); rewrite Hf; exact Hr.
Qed.

Ltac lock_free_steps_body :=
  repeat first
    [ exact I
    | apply lock_free_SendErrorPacket
    | apply lock_free_loop_steps
    | apply lock_free_for_each; intros ?
    | apply lock_free_bind; [|intros ?]
    | match goal with
      | |- lock_free_code (Step _ _) =>
          cbn [lock_free_code]; split; [reflexivity | intros ?]
      | |- is_lock_prim _ = false /\ _ => split; [reflexivity | intros ?]
      | |- lock_free_code (if ?b then _ else _) => destruct b
      | |- lock_free_code (match ?x with _ => _ end) => destruct x
      end ].

(** The member functions that begin with [std::scoped_lock]. *)
Lemma locking_call_log (op : Operation) (m : MuxT) :
  takes_lock op = true ->
  m_mutex m = false ->
  lock_held_throughout
    (run_logged MaxChannelCount (steps_of HtcGen2Signature sizeof_PacketBody op) m).
Proof.
  intros Hop Hm. destruct op; try discriminate Hop; cbn [steps_of];
    try apply discard_lock_held;
    unfold ProcessReceivePacket_steps, QuerySendPacket_steps, RemovePacket_steps,
      UpdateChannelState_steps, UpdateMuxState_steps, Open_steps,
      GetTaskEvent_steps, SetSendBuffer_steps, SetSendBufferWithData_steps,
      SetReceiveBuffer_steps;
    (apply scoped_lock_log; [|exact Hm]); lock_free_steps_body.
Qed.

(** The member functions without [std::scoped_lock]. *)
Lemma unlocked_call_free (op : Operation) :
  takes_lock op = false ->
  lock_free_code (steps_of HtcGen2Signature sizeof_PacketBody op).
Proof.
  intros Hop. destruct op; try discriminate Hop; cbn [steps_of];
    unfold SetVersion_steps, CheckReceivedHeader_steps, CheckChannelExist_steps;
    lock_free_steps_body.
Qed.

Lemma first_step_logged {A B : Type} (p : PrimT B) (k : B -> CodeT A)
    (m : MuxT) (a : Action) :
  In a (prim_actions p) ->
  In (m_mutex m, a) (snd (run_logged MaxChannelCount (Step p k) m)).
Proof.
  intros Ha. cbn [run_logged].
  assert (Hin : In (m_mutex m, a)
                  (map (fun a0 => (m_mutex m, a0)) (prim_actions p)))
    by (apply in_map_iff; exists a; split; [reflexivity | exact Ha]).
  destruct (prim_run MaxChannelCount p m) as [b m'|]; [|exact Hin].
  destruct (run_logged MaxChannelCount (k b) m') as [o l]. cbn [snd].
  apply in_or_app. left. exact Hin.
Qed.

Lemma later_steps_logged {A B : Type} (p : PrimT B) (k : B -> CodeT A)
    (m : MuxT) (b : B) (m' : MuxT) :
  prim_run MaxChannelCount p m = Returns b m' ->
  snd (run_logged MaxChannelCount (Step p k) m)
  = map (fun a => (m_mutex m, a)) (prim_actions p)
    ++ snd (run_logged MaxChannelCount (k b) m').
Proof.
  intros E. cbn [run_logged]. rewrite E.
  destruct (run_logged MaxChannelCount (k b) m'). reflexivity.
Qed.

Lemma MakeErrorPacket_returns (ch : ChannelInternalType) (m : MuxT) :
  exists packet m',
    prim_run MaxChannelCount (P_MakeErrorPacket ch) m = Returns packet m'.
Proof.
  cbn [prim_run]. unfold record, bind, gets, modify, ret. cbv beta iota.
  read_fields.
  destruct (pf_MakeErrorPacket ch (m_packet_factory m)) as [packet pf'].
  eauto.
Qed.

Lemma unlocked_call_access (op : Operation) (m : MuxT) (a : Action) :
  unlocked_access HtcGen2Signature op = Some a ->
  In (m_mutex m, a)
    (snd (run_logged MaxChannelCount
            (steps_of HtcGen2Signature sizeof_PacketBody op) m)).
Proof.
  destruct op; try discriminate; cbn [unlocked_access steps_of].
  - intros Ha. injection Ha as <-.
    apply first_step_logged. left. reflexivity.
  - destruct (signature header =? HtcGen2Signature) eqn:Es; [|discriminate].
    destruct (packet_type header) eqn:Ek; try discriminate;
      intros Ha; injection Ha as <-;
      rewrite (proj1 (discard_log _ m));
      unfold CheckReceivedHeader_steps; rewrite Es, Ek; cbn [negb];
      apply first_step_logged; left; reflexivity.
  - intros Ha. injection Ha as <-.
    rewrite (proj1 (discard_log _ m)).
    apply first_step_logged. left. reflexivity.
  - intros Ha. injection Ha as <-.
    rewrite (proj1 (discard_log _ m)).
    unfold SendErrorPacket_steps.
    destruct (MakeErrorPacket_returns ch m) as (packet & m1 & E).
    rewrite (later_steps_logged _ _ _ _ _ E).
    rewrite <- (prim_keeps_mutex (P_MakeErrorPacket ch) m packet m1 eq_refl E).
    apply in_or_app. right. apply first_step_logged. right. left. reflexivity.
Qed.


(** * Further properties of the member functions *)

(** ** Calls that look a channel up *)

Lemma map_find_middle (pre post : ChannelImplMap Chan) ch c :
  forall i : nat,
    ch ∉ map fst pre ->
    map_find ch (pairs_from i (pre ++ (ch, c) :: post))
    = Some (ch, (i + length pre)%nat).
Proof.
  induction pre as [|[k0 c0] pre IH]; intros i Hn; simpl.
  - unfold map_find. simpl. rewrite Z.eqb_refl. f_equal. f_equal. lia.
  - simpl in Hn. apply not_elem_of_cons in Hn as [Hne Hn].
    unfold map_find. simpl. destruct (Z.eqb_spec k0 ch) as [->|_]; [congruence|].
    fold (map_find ch (pairs_from (S i) (pre ++ (ch, c) :: post))).
    rewrite IH by assumption. f_equal. f_equal. lia.
Qed.

(** A body under the lock that looks the channel up and calls into its
    engine: with the channel in the table, the call goes to the first
    entry with that id and only that entry changes. *)
Lemma find_call_run {B : Type} (m : MuxT) ch call (f : Chan -> B * Chan)
    (other : M Chan PF B) (pre post : ChannelImplMap Chan) (c : Chan) :
  m_mutex m = false ->
  m_channel_impl_map m = pre ++ (ch, c) :: post ->
  ch ∉ map fst pre ->
  scoped_lock
    (do pairs <- gets GetMap;
     match map_find ch pairs with
     | Some it => channel_call (snd it) call f
     | None => other
     end) m =
  Returns (fst (f c))
    (set_trace (m_trace m ++ [EvLock; EvChannel (length pre) call; EvUnlock])
       (set_channel_impl_map (pre ++ (ch, snd (f c)) :: post) m)).
Proof.
  intros Hm Ht Hn. rewrite scoped_lock_run by assumption.
  unfold bind at 1. unfold gets at 1. unfold GetMap.
  change (m_channel_impl_map (locked m)) with (m_channel_impl_map m).
  rewrite Ht, (map_find_middle pre post ch c 0%nat Hn).
  cbn [snd Nat.add].
  rewrite (channel_call_middle (locked m) call f pre post ch c Ht).
  unfold locked, unlocked. f_equal; mux_eq.
Qed.

Lemma find_call_absent {B : Type} (m : MuxT) ch call (f : Chan -> B * Chan)
    (other : M Chan PF B) :
  m_mutex m = false ->
  ch ∉ map fst (m_channel_impl_map m) ->
  scoped_lock
    (do pairs <- gets GetMap;
     match map_find ch pairs with
     | Some it => channel_call (snd it) call f
     | None => other
     end) m =
  match other (locked m) with
  | Returns a m1 => Returns a (unlocked m1)
  | Stops flt => Stops flt
  end.
Proof.
  intros Hm Hn. rewrite scoped_lock_run by assumption.
  unfold bind at 1. unfold gets at 1. unfold GetMap.
  change (m_channel_impl_map (locked m)) with (m_channel_impl_map m).
  now rewrite (proj2 (map_find_pairs_from_None _ 0%nat ch) Hn).
Qed.

(** X1. A packet for a channel that is in the table is handed to that
    channel's engine, whatever its kind, and the engine's result is
    returned as it is.  The multiplexer itself does no more than that:
    under the lock it makes this one call, into the first entry with
    the id, and no error reply; the entry then holds what the engine
    left and the entries of the other channels are as before. *)
Theorem X1_receive_delegates (m : MuxT) (header : PacketHeader)
    (body : PacketBody) (n : Z) (pre post : ChannelImplMap Chan) (c : Chan) :
  m_mutex m = false ->
  m_channel_impl_map m = pre ++ (channel header, c) :: post ->
  channel header ∉ map fst pre ->
  exists m',
    ProcessReceivePacket header body n m
    = Returns (fst (chan_ProcessReceivePacket header body n c)) m' /\
    m_channel_impl_map m'
    = pre ++ (channel header, snd (chan_ProcessReceivePacket header body n c))
          :: post /\
    m_trace m'
    = m_trace m ++ [EvLock;
                    EvChannel (length pre) Call_ProcessReceivePacket;
                    EvUnlock] /\
    m_mutex m' = false.
Proof.
  intros Hm Ht Hn. unfold ProcessReceivePacket.
  rewrite (find_call_run m (channel header) Call_ProcessReceivePacket
             (chan_ProcessReceivePacket header body n) _ pre post c Hm Ht Hn).
  eexists. split; [reflexivity|]. read_fields.
  split; [reflexivity|]. split; [reflexivity | exact Hm].
Qed.

(** X7. The three buffer setters abort when the channel is not in the
    table, and otherwise hand the buffer to that channel's engine and to
    no other. *)
Theorem X7_buffer_setters (m : MuxT) (ch : ChannelInternalType)
    (buf buf_size max_packet_size : Z) :
  m_mutex m = false ->
  (ch ∉ map fst (m_channel_impl_map m) ->
     SetSendBuffer ch buf buf_size max_packet_size m = Stops AbortUnlessFailed /\
     SetSendBufferWithData ch buf buf_size max_packet_size m
       = Stops AbortUnlessFailed /\
     SetReceiveBuffer ch buf buf_size m = Stops AbortUnlessFailed) /\
  (forall pre c post,
     m_channel_impl_map m = pre ++ (ch, c) :: post ->
     ch ∉ map fst pre ->
     SetSendBuffer ch buf buf_size max_packet_size m =
       Returns tt
         (set_trace (m_trace m ++ [EvLock; EvChannel (length pre) Call_SetSendBuffer;
                                   EvUnlock])
            (set_channel_impl_map
               (pre ++ (ch, chan_SetSendBuffer buf buf_size max_packet_size c)
                    :: post) m)) /\
     SetSendBufferWithData ch buf buf_size max_packet_size m =
       Returns tt
         (set_trace (m_trace m ++ [EvLock;
                                   EvChannel (length pre) Call_SetSendBufferWithData;
                                   EvUnlock])
            (set_channel_impl_map
               (pre ++ (ch, chan_SetSendBufferWithData buf buf_size
                              max_packet_size c) :: post) m)) /\
     SetReceiveBuffer ch buf buf_size m =
       Returns tt
         (set_trace (m_trace m ++ [EvLock;
                                   EvChannel (length pre) Call_SetReceiveBuffer;
                                   EvUnlock])
            (set_channel_impl_map
               (pre ++ (ch, chan_SetReceiveBuffer buf buf_size c) :: post) m))).
Proof.
  intros Hm. split.
  - intros Hn. unfold SetSendBuffer, SetSendBufferWithData, SetReceiveBuffer.
    rewrite !find_call_absent by assumption. repeat split; reflexivity.
  - intros pre c post Ht Hn.
    unfold SetSendBuffer, SetSendBufferWithData, SetReceiveBuffer.
    repeat split.
    + apply (find_call_run m ch Call_SetSendBuffer
               (fun c => (tt, chan_SetSendBuffer buf buf_size max_packet_size c))
               _ pre post c Hm Ht Hn).
    + apply (find_call_run m ch Call_SetSendBufferWithData
               (fun c => (tt, chan_SetSendBufferWithData buf buf_size
                                max_packet_size c))
               _ pre post c Hm Ht Hn).
    + apply (find_call_run m ch Call_SetReceiveBuffer
               (fun c => (tt, chan_SetReceiveBuffer buf buf_size c))
               _ pre post c Hm Ht Hn).
Qed.

(** ** Existence, opening, sleep, maintenance *)

Lemma CheckChannelExist_run (m : MuxT) (ch : ChannelInternalType) :
  CheckChannelExist ch m =
  Returns (if Exists ch m then ResultSuccess else ResultChannelNotExist) m.
Proof.
  unfold CheckChannelExist. unfold_monad. now destruct (Exists ch m).
Qed.

Lemma Exists_false (m : MuxT) ch :
  Exists ch m = false <-> ch ∉ map fst (m_channel_impl_map m).
Proof.
  split.
  - intros He Hin. apply Exists_spec in Hin. congruence.
  - intros Hn. destruct (Exists ch m) eqn:He; [|reflexivity].
    apply Exists_spec in He. contradiction.
Qed.

(** X3. [CheckChannelExist] returns success exactly for the ids that are
    in the channel table and [ChannelNotExist] for all others, and
    leaves the multiplexer, trace included, as it was. *)
Theorem X3_CheckChannelExist (m : MuxT) (ch : ChannelInternalType) :
  (ch ∈ channel_ids m -> CheckChannelExist ch m = Returns ResultSuccess m) /\
  (ch ∉ channel_ids m -> CheckChannelExist ch m = Returns ResultChannelNotExist m).
Proof.
  unfold channel_ids. rewrite CheckChannelExist_run. split; intros Hc.
  - apply Exists_spec in Hc. now rewrite Hc.
  - apply Exists_false in Hc. now rewrite Hc.
Qed.

(** X2. [Open] of an id that is in the table returns
    [ChannelAlreadyExist] and changes nothing.  [Open] of an id that is
    not in the table either succeeds or returns the failure of
    [AddChannel] with the table as it was; after it succeeded the id is
    in the table, [CheckChannelExist] succeeds for it, the ids that
    were there are all still there, and opening it again returns
    [ChannelAlreadyExist]. *)
Theorem X2_Open_once (m : MuxT) (ch : ChannelInternalType) :
  m_mutex m = false ->
  (ch ∈ channel_ids m ->
     Open MaxChannelCount ch m =
       Returns ResultChannelAlreadyExist
         (set_trace (m_trace m ++ [EvLock; EvUnlock]) m)) /\
  (ch ∉ channel_ids m ->
     exists r m',
       Open MaxChannelCount ch m = Returns r m' /\
       r <> ResultChannelAlreadyExist /\
       (r <> ResultSuccess -> m_channel_impl_map m' = m_channel_impl_map m) /\
       (r = ResultSuccess ->
          ch ∈ channel_ids m' /\
          (forall k, k ∈ channel_ids m -> k ∈ channel_ids m') /\
          CheckChannelExist ch m' = Returns ResultSuccess m' /\
          Open MaxChannelCount ch m' =
            Returns ResultChannelAlreadyExist
              (set_trace (m_trace m' ++ [EvLock; EvUnlock]) m'))).
Proof.
  intros Hm. unfold channel_ids. split; intros Hc.
  - rewrite Open_run by assumption. apply Exists_spec in Hc. now rewrite Hc.
  - rewrite Open_run by assumption.
    rewrite (proj2 (Exists_false m ch) Hc).
    destruct (length (m_channel_impl_map m) <? MaxChannelCount)%nat.
    + set (m' := set_trace
                   (m_trace m ++ [EvLock;
                                  EvChannel (length (m_channel_impl_map m))
                                            Call_SetVersion;
                                  EvUnlock])
                   (set_channel_impl_map
                      (m_channel_impl_map m
                       ++ [(ch, chan_SetVersion (m_version m) (chan_new ch))]) m)).
      exists ResultSuccess, m'. split; [reflexivity|]. split; [discriminate|].
      split; [congruence|]. intros _.
      assert (Hin : ch ∈ map fst (m_channel_impl_map m')).
      { unfold m'. read_fields. rewrite map_app. apply elem_of_app. right.
        simpl. now apply list_elem_of_singleton. }
      split; [exact Hin|]. split.
      { intros k Hk. unfold m'. read_fields. rewrite map_app.
        apply elem_of_app. now left. }
      split.
      * rewrite CheckChannelExist_run.
        now rewrite (proj2 (Exists_spec m' ch) Hin).
      * rewrite Open_run by (unfold m'; read_fields; exact Hm).
        now rewrite (proj2 (Exists_spec m' ch) Hin).
    + eexists _, _. split; [reflexivity|]. split; [discriminate|].
      split; [reflexivity|]. discriminate.
Qed.

(** X4. [UpdateMuxState] always returns.  When the detector reports
    sleeping the state becomes Sleep and the event is not signalled;
    otherwise the state becomes Normal and the event is signalled.
    Afterwards [IsSendable] answers the negation of what the detector
    reported, whatever the state was before; the channel table, the
    control queue and the version are untouched. *)
Theorem X4_UpdateMuxState (m : MuxT) :
  m_mutex m = false ->
  exists m',
    UpdateMuxState m = Returns tt m' /\
    m_state m' = (if IsSleeping (m_state_machine m)
                  then MuxState_Sleep else MuxState_Normal) /\
    m_event m' = (if IsSleeping (m_state_machine m) then m_event m else true) /\
    m_trace m' = m_trace m ++ [EvLock]
                   ++ (if IsSleeping (m_state_machine m) then [] else [EvSignal])
                   ++ [EvUnlock] /\
    (forall kind,
       IsSendable kind m' = Returns (negb (IsSleeping (m_state_machine m))) m') /\
    m_channel_impl_map m' = m_channel_impl_map m /\
    m_global_send_buffer m' = m_global_send_buffer m /\
    m_version m' = m_version m.
Proof.
  intros Hm. rewrite UpdateMuxState_run by assumption.
  eexists. split; [reflexivity|].
  destruct (IsSleeping (m_state_machine m)); read_fields;
    repeat split; try reflexivity; intros kind; now rewrite IsSendable_run.
Qed.

(** X5. [UpdateChannelState] always returns, having run [UpdateState]
    once on every channel of the table, in table order, between taking
    the lock and releasing it; every entry then holds what its engine
    left, under the same id and in the same place.  On an empty table
    it only takes and releases the lock. *)
Theorem X5_UpdateChannelState (m : MuxT) :
  m_mutex m = false ->
  exists m',
    UpdateChannelState m = Returns tt m' /\
    m_channel_impl_map m'
    = map (fun kc => (fst kc, chan_UpdateState (snd kc))) (m_channel_impl_map m) /\
    channel_ids m' = channel_ids m /\
    m_trace m'
    = m_trace m ++ [EvLock]
        ++ channel_events Call_UpdateState 0 (length (m_channel_impl_map m))
        ++ [EvUnlock] /\
    m_mutex m' = false.
Proof.
  intros Hm. rewrite UpdateChannelState_run by exact Hm.
  eexists. split; [reflexivity|]. unfold channel_ids. read_fields.
  split; [reflexivity|]. split; [|split; [reflexivity | exact Hm]].
  rewrite map_map. apply map_ext. reflexivity.
Qed.

(** X6. With an empty control queue and no channel that has a packet,
    [QuerySendPacket] returns false and writes nothing through its
    pointers; every channel was asked once, in table order. *)
Theorem X6_nothing_to_send (m : MuxT) (out : SendOut) :
  m_mutex m = false ->
  m_global_send_buffer m = [] ->
  Forall (fun kc => fst (chan_QuerySendPacket (snd kc)) = None)
         (m_channel_impl_map m) ->
  QuerySendPacket out m =
  Returns (false, out)
    (set_trace (m_trace m ++ [EvLock]
                ++ channel_events Call_QuerySendPacket 0
                     (length (m_channel_impl_map m))
                ++ [EvUnlock])
       (set_channel_impl_map (queried (m_channel_impl_map m)) m)).
Proof.
  intros Hm Hq Hnone. rewrite QuerySendPacket_run by assumption.
  now rewrite (scan_none_ready _ Hnone).
Qed.

(** ** Queries and the control queue *)

Lemma scan_again `{!RepeatableQuery Chan} (t : ChannelImplMap Chan) :
  scan (snd (fst (scan t))) = scan t.
Proof.
  induction t as [|[k c] t IH]; simpl; [reflexivity|].
  pose proof (query_again c) as Hagain.
  destruct (chan_QuerySendPacket c) as [[o|] c'] eqn:Hq; simpl in *.
  - now rewrite Hagain.
  - destruct (scan t) as [[r t''] n] eqn:Hs. simpl in *.
    now rewrite Hagain, IH.
Qed.

(** X12. A query does not consume anything: if [QuerySendPacket]
    returned an answer, asking again before anything else happens gives
    the same answer and leaves the table and the control queue as the
    first query left them (for channel packets: when the engines' own
    query is repeatable). *)
Theorem X12_query_repeatable (m m1 : MuxT) (out : SendOut) (r : bool * SendOut) :
  RepeatableQuery Chan ->
  QuerySendPacket out m = Returns r m1 ->
  exists m2,
    QuerySendPacket out m1 = Returns r m2 /\
    m_channel_impl_map m2 = m_channel_impl_map m1 /\
    m_global_send_buffer m2 = m_global_send_buffer m1.
Proof.
  intros Hrepeat Hrun. destruct (m_mutex m) eqn:Hm.
  { unfold QuerySendPacket in Hrun. now rewrite scoped_lock_held in Hrun. }
  destruct (m_global_send_buffer m) as [|p q] eqn:Hq.
  - rewrite QuerySendPacket_run in Hrun by assumption.
    injection Hrun as <- <-.
    rewrite QuerySendPacket_run by (read_fields; assumption).
    read_fields. rewrite scan_again.
    eexists. split; [reflexivity|]. read_fields. split; reflexivity.
  - rewrite (QuerySendPacket_control_run m out p q Hm Hq) in Hrun.
    injection Hrun as <- <-.
    rewrite (QuerySendPacket_control_run _ out p q) by (read_fields; assumption).
    eexists. split; [reflexivity|]. split; reflexivity.
Qed.

(** X13. The reply to a packet of an unknown channel goes round: after
    [ProcessReceivePacket] has refused a Data or MaxData packet of a
    channel that is not in the table (control queue empty, factory able
    to make the packet), [QuerySendPacket] returns that reply -- an
    Error header addressed to the channel, body size 0 -- and
    [RemovePacket] of that header empties the control queue again,
    without touching any channel. *)
Theorem X13_reply_round_trip (m : MuxT) (header : PacketHeader)
    (body : PacketBody) (n : Z) (p : Packet) (pf' : PF) (out : SendOut) :
  m_mutex m = false ->
  m_global_send_buffer m = [] ->
  channel header ∉ map fst (m_channel_impl_map m) ->
  packet_type header = PacketType_Data \/ packet_type header = PacketType_MaxData ->
  pf_MakeErrorPacket (channel header) (m_packet_factory m) = (Some p, pf') ->
  exists m1 m2 m3,
    ProcessReceivePacket header body n m = Returns ResultChannelNotExist m1 /\
    QuerySendPacket out m1
      = Returns (true, MkSendOut (GetHeader p) (out_body out) 0) m2 /\
    packet_type (GetHeader p) = PacketType_Error /\
    channel (GetHeader p) = channel header /\
    RemovePacket (GetHeader p) m2 = Returns tt m3 /\
    m_global_send_buffer m3 = [] /\
    m_channel_impl_map m3 = m_channel_impl_map m.
Proof.
  intros Hm Hq Hn Hk Hpf.
  destruct (pf_MakeErrorPacket_header _ _ _ _ Hpf) as (Hkind & Hch & _).
  assert (Hrun : ProcessReceivePacket header body n m =
                 Returns ResultChannelNotExist
                   (unlocked (after_error_packet_made (channel header) p pf'
                                (locked m)))).
  { rewrite ProcessReceivePacket_unknown by assumption.
    rewrite SendErrorPacket_run.
    change (m_packet_factory (locked m)) with (m_packet_factory m).
    rewrite Hpf. now destruct Hk as [-> | ->]. }
  eexists _, _, _. split; [exact Hrun|]. split.
  { apply (QuerySendPacket_control_run _ out p []).
    - reflexivity.
    - unfold unlocked, after_error_packet_made, locked. read_fields.
      now rewrite Hq. }
  split; [exact Hkind|]. split; [exact Hch|]. split.
  { apply RemovePacket_run. reflexivity. }
  unfold after_removal. rewrite Hkind.
  unfold unlocked, after_error_packet_made, locked. read_fields.
  rewrite Hq. split; reflexivity.
Qed.

(** ** What the operations leave alone *)

Section RespectsAll.

Variable R : MuxT -> MuxT -> Prop.
Context `{!PreOrder R}.

Lemma respects_loop (pairs : list (ChannelInternalType * nat)) (out : SendOut) :
  (forall i, respects R (channel_call i Call_QuerySendPacket chan_QuerySendPacket)) ->
  respects R (QuerySendPacket_loop pairs out).
Proof.
  intros Hcall. induction pairs as [|pr pairs IH]; simpl.
  - apply (respects_ret R).
  - apply (respects_bind R); [apply Hcall|].
    intros [o|]; [|exact IH]. unfold IsSendable. respects_steps fail.
Qed.

Lemma respects_perform_all (ops : list Operation) :
  (forall op, respects R
                (perform HtcGen2Signature sizeof_PacketBody MaxChannelCount op)) ->
  respects R (perform_all HtcGen2Signature sizeof_PacketBody MaxChannelCount ops).
Proof.
  intros Hop. induction ops as [|op ops IH]; simpl.
  - apply (respects_ret R).
  - apply (respects_bind R); [apply Hop | intros _; exact IH].
Qed.

End RespectsAll.

#[local] Instance same_on_preorder {A : Type} (f : MuxT -> A) :
  PreOrder (same_on f).
Proof.
  split; unfold same_on.
  - intros m. reflexivity.
  - intros m1 m2 m3 H12 H23. congruence.
Qed.

#[local] Instance event_kept_preorder : PreOrder (@event_kept Chan PF).
Proof.
  split; unfold event_kept.
  - intros m Hm. exact Hm.
  - intros m1 m2 m3 H12 H23 Hm. auto.
Qed.

(** A call into a channel engine changes the table and the trace and
    nothing else. *)
Lemma same_on_channel_call {A B : Type} (f : MuxT -> A) (index : nat) call
    (g : Chan -> B * Chan) :
  (forall m t tr, f (set_trace tr (set_channel_impl_map t m)) = f m) ->
  respects (same_on f) (channel_call index call g).
Proof.
  intros Hf m b m'. unfold channel_call.
  destruct (m_channel_impl_map m !! index) as [[k c]|]; [|discriminate].
  destruct (g c) as [b' c']. intros Hr. injection Hr as _ <-. apply Hf.
Qed.

Lemma event_kept_channel_call {B : Type} (index : nat) call (g : Chan -> B * Chan) :
  respects (@event_kept Chan PF) (channel_call index call g).
Proof.
  intros m b m'. unfold channel_call.
  destruct (m_channel_impl_map m !! index) as [[k c]|]; [|discriminate].
  destruct (g c) as [b' c']. intros Hr. injection Hr as _ <-.
  intros He. exact He.
Qed.

Lemma map_fst_insert (t : ChannelImplMap Chan) :
  forall (i : nat) k c c',
    t !! i = Some (k, c) -> map fst (<[i := (k, c')]> t) = map fst t.
Proof.
  induction t as [|[k0 c0] t IH]; intros [|i] k c c' Hl; simpl in *;
    try discriminate.
  - now injection Hl as -> _.
  - f_equal. now apply (IH i k c c').
Qed.

Lemma same_ids_channel_call {B : Type} (index : nat) call (g : Chan -> B * Chan) :
  respects (same_on (@channel_ids Chan PF)) (channel_call index call g).
Proof.
  intros m b m'. unfold channel_call.
  destruct (m_channel_impl_map m !! index) as [[k c]|] eqn:El; [|discriminate].
  destruct (g c) as [b' c']. intros Hr. injection Hr as _ <-.
  unfold same_on, channel_ids. read_fields. now apply (map_fst_insert _ _ _ c).
Qed.

Ltac unfold_ops :=
  unfold SetVersion, CheckReceivedHeader, ProcessReceivePacket, QuerySendPacket,
    RemovePacket, UpdateChannelState, UpdateMuxState, CheckChannelExist, Open,
    GetTaskEvent, SetSendBuffer, SetSendBufferWithData, SetReceiveBuffer.

(** The leaves of a computation for an observation that neither the
    table nor the trace enters. *)
Ltac frame_leaf :=
  first
    [ apply same_on_channel_call; intros; reflexivity
    | apply respects_loop; [exact _ | intros; apply same_on_channel_call;
                                      intros; reflexivity]
    | match goal with
      | |- respects ?R _ =>
          apply (respects_modify R); intros ?; reflexivity
      end ].

Ltac frame_steps := unfold_ops; unfold_steps; respects_steps frame_leaf.

Lemma perform_same_version (op : Operation) :
  is_SetVersion op = false ->
  respects (same_on (@m_version Chan PF))
    (perform HtcGen2Signature sizeof_PacketBody MaxChannelCount op).
Proof. destruct op; simpl; intros Hop; try discriminate; frame_steps. Qed.

Lemma perform_same_state (op : Operation) :
  is_UpdateMuxState op = false ->
  respects (same_on (@m_state Chan PF))
    (perform HtcGen2Signature sizeof_PacketBody MaxChannelCount op).
Proof. destruct op; simpl; intros Hop; try discriminate; frame_steps. Qed.

Lemma perform_same_notifications (op : Operation) :
  is_RemovePacket op = false ->
  respects (same_on (@notifications Chan PF))
    (perform HtcGen2Signature sizeof_PacketBody MaxChannelCount op).
Proof. destruct op; simpl; intros Hop; try discriminate; frame_steps. Qed.

(** X8. The protocol version is changed by [SetVersion] and by no other
    operation, and the operational state by [UpdateMuxState] and by no
    other operation: in particular Sleep lasts until the next
    [UpdateMuxState], whatever is received, queried, retired or opened
    in between. *)
Theorem X8_version_and_state_owners (op : Operation) (m m' : MuxT) :
  perform HtcGen2Signature sizeof_PacketBody MaxChannelCount op m = Returns tt m' ->
  (is_SetVersion op = false -> m_version m' = m_version m) /\
  (is_UpdateMuxState op = false -> m_state m' = m_state m).
Proof.
  intros Hrun. split; intros Hop.
  - exact (perform_same_version op Hop _ _ _ Hrun).
  - exact (perform_same_state op Hop _ _ _ Hrun).
Qed.

Lemma perform_event_kept (op : Operation) :
  respects (@event_kept Chan PF)
    (perform HtcGen2Signature sizeof_PacketBody MaxChannelCount op).
Proof.
  destruct op; simpl; unfold_ops; unfold_steps;
    respects_steps ltac:(first
      [ apply event_kept_channel_call
      | apply respects_loop; [exact _ | intros; apply event_kept_channel_call]
      | apply (respects_modify (@event_kept Chan PF)); intros ? He;
        first [exact He | reflexivity] ]).
Qed.

(** X9. The multiplexer never clears the readiness event: once it is
    signalled it stays signalled through every sequence of calls. *)
Theorem X9_event_never_cleared (ops : list Operation) (m m' : MuxT) :
  perform_all HtcGen2Signature sizeof_PacketBody MaxChannelCount ops m
    = Returns tt m' ->
  m_event m = true ->
  m_event m' = true.
Proof.
  intros Hrun.
  exact (respects_perform_all (@event_kept Chan PF) ops perform_event_kept
           _ _ _ Hrun).
Qed.

Lemma perform_notifications (op : Operation) (m m' : MuxT) :
  perform HtcGen2Signature sizeof_PacketBody MaxChannelCount op m = Returns tt m' ->
  notifications m' =
  ((if is_RemovePacket op then 1 else 0) + notifications m)%nat.
Proof.
  intros Hrun. destruct (is_RemovePacket op) eqn:Hop.
  - destruct op; try discriminate. simpl in Hrun.
    destruct (m_mutex m) eqn:Hm.
    { unfold RemovePacket in Hrun. now rewrite scoped_lock_held in Hrun. }
    rewrite RemovePacket_run in Hrun by assumption. injection Hrun as <-.
    reflexivity.
  - exact (perform_same_notifications op Hop _ _ _ Hrun).
Qed.

Lemma perform_all_notifications (ops : list Operation) (m m' : MuxT) :
  perform_all HtcGen2Signature sizeof_PacketBody MaxChannelCount ops m
    = Returns tt m' ->
  notifications m' = (count_RemovePacket_calls ops + notifications m)%nat.
Proof.
  revert m. induction ops as [|op ops IH]; intros m; simpl.
  - unfold ret. intros Hr. now injection Hr as <-.
  - unfold bind.
    destruct (perform HtcGen2Signature sizeof_PacketBody MaxChannelCount op m)
      as [[] m1|] eqn:Eop; [|discriminate].
    intros Hrest. rewrite (IH _ Hrest), (perform_notifications _ _ _ Eop). lia.
Qed.

(** X10. The task manager is notified by [RemovePacket] and by nothing
    else: over any sequence of calls the number of "send ready"
    notifications grows by the number of [RemovePacket] calls in it. *)
Theorem X10_notifications_count (ops : list Operation) (m m' : MuxT) :
  perform_all HtcGen2Signature sizeof_PacketBody MaxChannelCount ops m
    = Returns tt m' ->
  notifications m' = (count_RemovePacket_calls ops + notifications m)%nat.
Proof. apply perform_all_notifications. Qed.

Lemma perform_ids (op : Operation) (m m' : MuxT) :
  perform HtcGen2Signature sizeof_PacketBody MaxChannelCount op m = Returns tt m' ->
  channel_ids m' = channel_ids m \/
  exists ch, op = Op_Open ch /\ (ch ∉ channel_ids m) /\
             channel_ids m' = channel_ids m ++ [ch].
Proof.
  intros Hrun.
  assert (Hothers :
    respects (same_on (@channel_ids Chan PF))
      (perform HtcGen2Signature sizeof_PacketBody MaxChannelCount op) ->
    channel_ids m' = channel_ids m) by (intros Hr; exact (Hr _ _ _ Hrun)).
  destruct op; simpl in *;
    try (left; apply Hothers; unfold_ops; unfold_steps;
         respects_steps ltac:(first
           [ apply same_ids_channel_call
           | apply respects_loop; [exact _ | intros; apply same_ids_channel_call]
           | match goal with
             | |- respects ?R _ =>
                 apply (respects_modify R); intros ?; reflexivity
             end ]); fail).
  (* Open *)
  apply discard_returns in Hrun as [r Hrun].
  destruct (m_mutex m) eqn:Hm.
  { unfold Open in Hrun. now rewrite scoped_lock_held in Hrun. }
  rewrite Open_run in Hrun by assumption.
  destruct (Exists ch m) eqn:Hex.
  - injection Hrun as _ <-. now left.
  - destruct (length (m_channel_impl_map m) <? MaxChannelCount)%nat;
      injection Hrun as _ <-; [|now left].
    right. exists ch. split; [reflexivity|]. split.
    + now apply Exists_false.
    + unfold channel_ids. read_fields. now rewrite map_app.
Qed.

Lemma perform_all_ids (ops : list Operation) (m m' : MuxT) :
  perform_all HtcGen2Signature sizeof_PacketBody MaxChannelCount ops m
    = Returns tt m' ->
  (forall k, k ∈ channel_ids m -> k ∈ channel_ids m') /\
  (NoDup (channel_ids m) -> NoDup (channel_ids m')).
Proof.
  revert m. induction ops as [|op ops IH]; intros m; simpl.
  - unfold ret. intros Hr. injection Hr as <-. split; auto.
  - unfold bind.
    destruct (perform HtcGen2Signature sizeof_PacketBody MaxChannelCount op m)
      as [[] m1|] eqn:Eop; [|discriminate].
    intros Hrest. destruct (IH _ Hrest) as [Hin Hnd].
    destruct (perform_ids _ _ _ Eop) as [Hsame | (ch & _ & Hnew & Happ)].
    + rewrite Hsame in *. split; assumption.
    + split.
      * intros k Hk. apply Hin. rewrite Happ. apply elem_of_app. now left.
      * intros Hm. apply Hnd. rewrite Happ.
        apply (proj2 (list.NoDup_app _ _)).
        split; [exact Hm|]. split; [|apply list.NoDup_singleton].
        intros k Hk Hk'. apply list_elem_of_singleton in Hk'. now subst.
Qed.

(** X11. No operation removes a channel from the table or enters an id
    twice: through every sequence of calls the ids that were in the
    table stay in it, and a table without duplicate ids stays without
    duplicates. *)
Theorem X11_ids_kept_and_distinct (ops : list Operation) (m m' : MuxT) :
  perform_all HtcGen2Signature sizeof_PacketBody MaxChannelCount ops m
    = Returns tt m' ->
  (forall k, k ∈ channel_ids m -> k ∈ channel_ids m') /\
  (NoDup (channel_ids m) -> NoDup (channel_ids m')).
Proof. apply perform_all_ids. Qed.

(** ** Sequences of calls *)

Lemma perform_all_mutex_free (ops : list Operation) (m m' : MuxT) :
  perform_all HtcGen2Signature sizeof_PacketBody MaxChannelCount ops m
    = Returns tt m' ->
  m_mutex m = false ->
  m_mutex m' = false.
Proof.
  revert m. induction ops as [|op ops IH]; intros m; simpl.
  - unfold ret. intros Hr. now injection Hr as <-.
  - unfold bind.
    destruct (perform HtcGen2Signature sizeof_PacketBody MaxChannelCount op m)
      as [[] m1|] eqn:Eop; [|discriminate].
    intros Hrest Hm. apply (IH _ Hrest).
    apply perform_lock_discipline in Eop. destruct (takes_lock op).
    + destruct Eop as (_ & Hfree & _). exact Hfree.
    + destruct Eop as (Hsame & _). congruence.
Qed.

Lemma perform_all_same_version (ops : list Operation) (m m' : MuxT) :
  without_SetVersion ops = true ->
  perform_all HtcGen2Signature sizeof_PacketBody MaxChannelCount ops m
    = Returns tt m' ->
  m_version m' = m_version m.
Proof.
  revert m. induction ops as [|op ops IH]; intros m; simpl.
  - unfold ret. intros _ Hr. now injection Hr as <-.
  - intros Hops. apply andb_prop in Hops as [Hop Hops].
    apply negb_true_iff in Hop. unfold bind.
    destruct (perform HtcGen2Signature sizeof_PacketBody MaxChannelCount op m)
      as [[] m1|] eqn:Eop; [|discriminate].
    intros Hrest. rewrite (IH _ Hops Hrest).
    exact (perform_same_version op Hop _ _ _ Eop).
Qed.

Lemma perform_all_same_state (ops : list Operation) (m m' : MuxT) :
  without_UpdateMuxState ops = true ->
  perform_all HtcGen2Signature sizeof_PacketBody MaxChannelCount ops m
    = Returns tt m' ->
  m_state m' = m_state m.
Proof.
  revert m. induction ops as [|op ops IH]; intros m; simpl.
  - unfold ret. intros _ Hr. now injection Hr as <-.
  - intros Hops. apply andb_prop in Hops as [Hop Hops].
    apply negb_true_iff in Hop. unfold bind.
    destruct (perform HtcGen2Signature sizeof_PacketBody MaxChannelCount op m)
      as [[] m1|] eqn:Eop; [|discriminate].
    intros Hrest. rewrite (IH _ Hops Hrest).
    exact (perform_same_state op Hop _ _ _ Eop).
Qed.

(** X14. The lock never leaks: a sequence of calls that begins with
    the mutex free and returns leaves it free, whichever calls it holds
    and whatever they returned. *)
Theorem X14_lock_never_leaks (ops : list Operation) (m m' : MuxT) :
  perform_all HtcGen2Signature sizeof_PacketBody MaxChannelCount ops m
    = Returns tt m' ->
  m_mutex m = false ->
  m_mutex m' = false.
Proof. apply perform_all_mutex_free. Qed.

(** X15. A multiplexer as the constructor leaves it has the version
    [ProtocolVersion] until [SetVersion] is first called and is in
    state Normal, hence sendable, until [UpdateMuxState] is first
    called; since its table starts empty, the ids of its table are
    distinct in every state it reaches, and the task manager has been
    notified once per [RemovePacket] call. *)
Theorem X15_from_the_constructor (pf : PF) (sm : HtcctrlStateMachine)
    (ops : list Operation) (m : MuxT) :
  perform_all HtcGen2Signature sizeof_PacketBody MaxChannelCount ops
    (Mux_new ProtocolVersion pf sm) = Returns tt m ->
  (without_SetVersion ops = true -> m_version m = ProtocolVersion) /\
  (without_UpdateMuxState ops = true ->
     m_state m = MuxState_Normal /\
     forall kind, IsSendable kind m = Returns true m) /\
  NoDup (channel_ids m) /\
  notifications m = count_RemovePacket_calls ops.
Proof.
  intros Hrun. split; [|split; [|split]].
  - intros Hops. exact (perform_all_same_version ops _ _ Hops Hrun).
  - intros Hops. pose proof (perform_all_same_state ops _ _ Hops Hrun) as Hs.
    simpl in Hs. split; [exact Hs|].
    intros kind. rewrite IsSendable_run. unfold gate. now rewrite Hs.
  - apply (proj2 (perform_all_ids ops _ _ Hrun)). constructor.
  - rewrite (perform_all_notifications ops _ _ Hrun).
    change (notifications (Mux_new ProtocolVersion pf sm)) with 0%nat. lia.
Qed.

End Properties.

(** * The multiplexer run on the sample inputs *)

#[global] Instance TestChannel_version_stable :
  VersionOnlySetBySetVersion TestChannel.
Proof. split; intros; reflexivity. Qed.

#[global] Instance TestChannel_repeatable : RepeatableQuery TestChannel.
Proof. split. intros c. reflexivity. Qed.

(** An Error header with a valid signature and no body is accepted
    although its version, 2, is not the multiplexer's, 5. *)
Lemma C1_witness :
  signature sample_old_error = sample_signature /\
  CheckReceivedHeader sample_signature sample_body_capacity sample_old_error
    (sample_mux 0 MuxState_Normal [])
  = Returns ResultSuccess (sample_mux 0 MuxState_Normal []).
Proof.
  split; [reflexivity|].
  destruct (C1_header_validation_matrix sample_signature sample_body_capacity
              (sample_mux 0 MuxState_Normal []) sample_old_error eq_refl)
    as (_ & _ & Herror).
  destruct (Herror eq_refl) as [Haccept _].
  apply Haccept. reflexivity.
Defined.

(** With a control packet pending, it is what [QuerySendPacket] returns,
    although channel 20 has data and the state is Sleep. *)
Lemma C2_witness :
  m_mutex (sample_mux 0 MuxState_Sleep [sample_control_packet]) = false /\
  m_global_send_buffer (sample_mux 0 MuxState_Sleep [sample_control_packet])
    = [sample_control_packet] /\
  QuerySendPacket sample_out (sample_mux 0 MuxState_Sleep [sample_control_packet])
  = Returns (true, MkSendOut (GetHeader sample_control_packet) [] 0)
      (set_trace [EvLock; EvUnlock]
         (sample_mux 0 MuxState_Sleep [sample_control_packet])).
Proof.
  split; [reflexivity|]. split; [reflexivity|].
  apply (C2_control_precedes_data
           (sample_mux 0 MuxState_Sleep [sample_control_packet])
           sample_out sample_control_packet []); reflexivity.
Defined.

(** In Sleep with a pending control packet [QuerySendPacket] returns
    true, with that packet: it does not report "nothing to send". *)
Lemma C3_counterexample :
  m_state (sample_mux 0 MuxState_Sleep [sample_control_packet]) = MuxState_Sleep /\
  (exists m',
     QuerySendPacket sample_out (sample_mux 0 MuxState_Sleep [sample_control_packet])
     = Returns (true, MkSendOut (GetHeader sample_control_packet) [] 0) m') /\
  ~ (exists out m',
       QuerySendPacket sample_out
         (sample_mux 0 MuxState_Sleep [sample_control_packet])
       = Returns (false, out) m').
Proof.
  split; [reflexivity|]. split.
  - eexists. reflexivity.
  - intros (out & m' & Hq). vm_compute in Hq. discriminate Hq.
Qed.

(** In Sleep with no control packet, the packet of channel 20 is found
    but reported as not sendable; after the wake-up it is reported as
    sendable. *)
Lemma C3_witness :
  m_state (sample_mux 0 MuxState_Sleep []) = MuxState_Sleep /\
  m_mutex (sample_mux 0 MuxState_Sleep []) = false /\
  exists m1 m2 m3,
    QuerySendPacket sample_out (sample_mux 0 MuxState_Sleep [])
    = Returns (false, sample_packet) m1 /\
    UpdateMuxState (set_state_machine (MkStateMachine false) m1)
    = Returns tt m2 /\
    QuerySendPacket sample_out m2 = Returns (true, sample_packet) m3.
Proof.
  split; [reflexivity|]. split; [reflexivity|].
  destruct (C3_sleep_gates_channel_data (sample_mux 0 MuxState_Sleep [])
              eq_refl eq_refl) as (_ & Hdata & _).
  assert (Hpre : Forall (fun kc : Z * TestChannel =>
                           fst (chan_QuerySendPacket (snd kc)) = None)
                        [(10, sample_channel_10)]).
  { constructor; [reflexivity | constructor]. }
  destruct (Hdata sample_out [(10, sample_channel_10)] 20 sample_channel_20 []
              sample_packet sample_channel_20 eq_refl eq_refl Hpre eq_refl)
    as (m1 & Hq & _ & _ & Hwake).
  destruct (Hwake TestChannel_repeatable sample_out) as (m2 & m3 & Hu & _ & Hq2).
  exists m1, m2, m3. split; [exact Hq|]. split; [exact Hu | exact Hq2].
Defined.

(** A Data packet for the unknown channel 99 while the factory cannot
    make a packet: [ChannelNotExist] is returned and the control queue
    is still empty. *)
Lemma C4_counterexample :
  (99 ∉ map fst (m_channel_impl_map (sample_mux 0 MuxState_Normal []))) /\
  packet_type sample_unknown_data = PacketType_Data /\
  exists m',
    ProcessReceivePacket sample_unknown_data [] 0 (sample_mux 0 MuxState_Normal [])
    = Returns ResultChannelNotExist m' /\
    m_global_send_buffer m' = [].
Proof.
  split.
  - intros Hin. vm_compute in Hin. inversion Hin as [|? ? ? Hin2]; subst.
    inversion Hin2 as [|? ? ? Hin3]; subst. inversion Hin3.
  - split; [reflexivity|]. eexists. split; reflexivity.
Qed.

(** The same packet while the factory can make one packet: the reply is
    enqueued. *)
Lemma C4_witness :
  m_mutex (sample_mux 1 MuxState_Normal []) = false /\
  (channel sample_unknown_data
     ∉ map fst (m_channel_impl_map (sample_mux 1 MuxState_Normal []))) /\
  exists m',
    ProcessReceivePacket sample_unknown_data [] 0 (sample_mux 1 MuxState_Normal [])
    = Returns ResultChannelNotExist m' /\
    m_global_send_buffer m'
    = [MkPacket (MkPacketHeader 0 0 PacketType_Error 99 0)].
Proof.
  assert (Hn : channel sample_unknown_data
                 ∉ map fst (m_channel_impl_map (sample_mux 1 MuxState_Normal []))).
  { intros Hin. vm_compute in Hin. inversion Hin as [|? ? ? Hin2]; subst.
    inversion Hin2 as [|? ? ? Hin3]; subst. inversion Hin3. }
  split; [reflexivity|]. split; [exact Hn|].
  destruct (C4_unknown_channel_reply (sample_mux 1 MuxState_Normal [])
              sample_unknown_data [] 0 eq_refl Hn) as [Hdata _].
  destruct (Hdata (or_introl eq_refl)) as [Hmade _].
  destruct (Hmade (MkPacket (MkPacketHeader 0 0 PacketType_Error 99 0)) 0%nat
              eq_refl) as (_ & _ & Hrun).
  eexists. split; [exact Hrun | reflexivity].
Defined.

(** With an empty control queue, channel 10 is asked first and has
    nothing, channel 20 has [sample_packet], which is returned. *)
Lemma C5_witness :
  m_mutex (sample_mux 0 MuxState_Normal []) = false /\
  m_global_send_buffer (sample_mux 0 MuxState_Normal []) = [] /\
  exists m',
    QuerySendPacket sample_out (sample_mux 0 MuxState_Normal [])
    = Returns (true, sample_packet) m'.
Proof.
  split; [reflexivity|]. split; [reflexivity|].
  assert (Hpre : Forall (fun kc : Z * TestChannel =>
                           fst (chan_QuerySendPacket (snd kc)) = None)
                        [(10, sample_channel_10)]).
  { constructor; [reflexivity | constructor]. }
  destruct (C5_first_match (sample_mux 0 MuxState_Normal []) sample_out
              [(10, sample_channel_10)] [] 20 sample_channel_20
              sample_channel_20 sample_packet
              eq_refl eq_refl eq_refl Hpre eq_refl)
    as (sendable & Hs & Hq).
  vm_compute in Hs. injection Hs as <-.
  eexists. exact Hq.
Defined.

(** Retiring an Error packet for a channel that is not open still
    notifies the task manager, once. *)
Lemma C6_witness :
  m_mutex (sample_mux 0 MuxState_Normal [sample_control_packet]) = false /\
  exists m',
    RemovePacket sample_unknown_error
      (sample_mux 0 MuxState_Normal [sample_control_packet]) = Returns tt m' /\
    count_send_ready (m_trace m') = 1%nat /\
    m_global_send_buffer m' = [].
Proof.
  split; [reflexivity|].
  destruct (C6_RemovePacket_notifies_once
              (sample_mux 0 MuxState_Normal [sample_control_packet])
              sample_unknown_error eq_refl)
    as (m' & Hr & Hc & _ & _ & _ & Hq & _).
  exists m'. split; [exact Hr|]. split; [exact Hc | exact Hq].
Defined.

(** Open, change the version, open again, install a buffer: both
    channels end at version 7. *)
Lemma C7_witness :
  perform_all sample_signature sample_body_capacity sample_channel_count
    sample_calls sample_new = Returns tt sample_after_calls /\
  versions_agree sample_after_calls /\
  m_version sample_after_calls = 7.
Proof.
  assert (Hrun : perform_all sample_signature sample_body_capacity
                   sample_channel_count sample_calls sample_new
                 = Returns tt sample_after_calls) by (vm_compute; reflexivity).
  destruct (C7_version_propagation (Chan := TestChannel) (PF := nat)
              sample_signature sample_body_capacity sample_version
              sample_channel_count) as (_ & _ & Hinv).
  split; [exact Hrun|]. split; [|reflexivity].
  exact (Hinv TestChannel_version_stable 0%nat (MkStateMachine false)
           sample_calls sample_after_calls Hrun).
Defined.

(** The factory cannot make the reply: [SendErrorPacket] reports the
    failure, [ProcessReceivePacket] returns [ChannelNotExist] all the
    same. *)
Lemma C8_counterexample :
  fst (pf_MakeErrorPacket 99 (m_packet_factory (sample_mux 0 MuxState_Normal [])))
    = None /\
  (exists m1,
     SendErrorPacket 99 (sample_mux 0 MuxState_Normal [])
     = Returns ResultAllocationFailure m1) /\
  (exists m',
     ProcessReceivePacket sample_unknown_data [] 0 (sample_mux 0 MuxState_Normal [])
     = Returns ResultChannelNotExist m') /\
  ~ (exists m',
       ProcessReceivePacket sample_unknown_data [] 0 (sample_mux 0 MuxState_Normal [])
       = Returns ResultAllocationFailure m').
Proof.
  split; [reflexivity|]. split; [eexists; reflexivity|].
  split; [eexists; reflexivity|].
  intros (m' & Hr). vm_compute in Hr. discriminate Hr.
Qed.

Lemma C8_witness :
  m_mutex (sample_mux 0 MuxState_Normal []) = false /\
  pf_MakeErrorPacket (channel sample_unknown_data)
    (m_packet_factory (sample_mux 0 MuxState_Normal [])) = (None, 0%nat) /\
  ProcessReceivePacket sample_unknown_data [] 0 (sample_mux 0 MuxState_Normal [])
  = Returns ResultChannelNotExist
      (set_trace [EvLock; EvMakeErrorPacket 99; EvUnlock]
         (sample_mux 0 MuxState_Normal [])).
Proof.
  assert (Hn : channel sample_unknown_data
                 ∉ map fst (m_channel_impl_map (sample_mux 0 MuxState_Normal []))).
  { intros Hin. vm_compute in Hin. inversion Hin as [|? ? ? Hin2]; subst.
    inversion Hin2 as [|? ? ? Hin3]; subst. inversion Hin3. }
  assert (Hpf : pf_MakeErrorPacket (channel sample_unknown_data)
                   (m_packet_factory (sample_mux 0 MuxState_Normal []))
                 = (None, 0%nat)) by reflexivity.
  split; [reflexivity|]. split; [exact Hpf|].
  destruct (C8_reply_failure_not_surfaced (sample_mux 0 MuxState_Normal [])
              sample_unknown_data [] 0 0%nat eq_refl Hn (or_introl eq_refl)
              Hpf) as [_ Hrun].
  exact Hrun.
Defined.



(** The factory fails: the failure is returned, the event stays clear
    and the control queue stays empty. *)
Lemma C10_witness :
  exists r m',
    SendErrorPacket 99 (sample_mux 0 MuxState_Normal []) = Returns r m' /\
    R_FAILED r = true /\
    m_event m' = false /\
    m_global_send_buffer m' = [].
Proof.
  destruct (C10_SendErrorPacket_atomic (sample_mux 0 MuxState_Normal []) 99)
    as (r & m' & Hr & Hfail & _ & Hiff).
  assert (Hf : R_FAILED r = true) by (apply Hiff; reflexivity).
  destruct (Hfail Hf) as (Hq & He & _).
  exists r, m'. split; [exact Hr|]. split; [exact Hf|].
  split; [exact He | exact Hq].
Defined.

(** * The further properties on the sample inputs *)

Lemma X1_witness :
  m_mutex (sample_mux 0 MuxState_Normal []) = false /\
  exists m',
    ProcessReceivePacket sample_known_data [] 3 (sample_mux 0 MuxState_Normal [])
    = Returns ResultSuccess m' /\
    m_channel_impl_map m' = [(10, sample_channel_10); (20, sample_channel_20)] /\
    m_trace m' = [EvLock; EvChannel 1 Call_ProcessReceivePacket; EvUnlock].
Proof.
  split; [reflexivity|].
  assert (Hn : channel sample_known_data ∉ map fst [(10, sample_channel_10)]).
  { simpl. intros Hin. apply list_elem_of_singleton in Hin. discriminate Hin. }
  destruct (X1_receive_delegates (sample_mux 0 MuxState_Normal [])
              sample_known_data [] 3 [(10, sample_channel_10)] []
              sample_channel_20 eq_refl eq_refl Hn)
    as (m' & Hrun & Htable & Htrace & _).
  exists m'. split; [exact Hrun|]. split; [exact Htable | exact Htrace].
Defined.

Lemma X2_witness :
  m_mutex (sample_mux 0 MuxState_Normal []) = false /\
  (30 ∉ channel_ids (sample_mux 0 MuxState_Normal [])) /\
  exists m',
    Open sample_channel_count 30 (sample_mux 0 MuxState_Normal [])
    = Returns ResultSuccess m' /\
    exists m'',
      Open sample_channel_count 30 m' = Returns ResultChannelAlreadyExist m''.
Proof.
  assert (Hn : 30 ∉ channel_ids (sample_mux 0 MuxState_Normal [])).
  { intros Hin. vm_compute in Hin. inversion Hin as [|? ? ? Hin2]; subst.
    inversion Hin2 as [|? ? ? Hin3]; subst. inversion Hin3. }
  split; [reflexivity|]. split; [exact Hn|].
  destruct (X2_Open_once sample_channel_count (sample_mux 0 MuxState_Normal [])
              30 eq_refl) as [_ Hnew].
  destruct (Hnew Hn) as (r & m' & Hrun & _ & _ & Hok).
  assert (Hr : r = ResultSuccess).
  { vm_compute in Hrun. now injection Hrun as <- _. }
  subst r. destruct (Hok eq_refl) as (_ & _ & _ & Hagain).
  exists m'. split; [exact Hrun|]. eexists. exact Hagain.
Defined.

Lemma X3_witness :
  (99 ∉ channel_ids (sample_mux 0 MuxState_Normal [])) /\
  CheckChannelExist 99 (sample_mux 0 MuxState_Normal [])
  = Returns ResultChannelNotExist (sample_mux 0 MuxState_Normal []).
Proof.
  assert (Hn : 99 ∉ channel_ids (sample_mux 0 MuxState_Normal [])).
  { intros Hin. vm_compute in Hin. inversion Hin as [|? ? ? Hin2]; subst.
    inversion Hin2 as [|? ? ? Hin3]; subst. inversion Hin3. }
  split; [exact Hn|].
  exact (proj2 (X3_CheckChannelExist (sample_mux 0 MuxState_Normal []) 99) Hn).
Defined.

Lemma X4_witness :
  m_mutex (sample_mux 0 MuxState_Sleep []) = false /\
  exists m',
    UpdateMuxState (sample_mux 0 MuxState_Sleep []) = Returns tt m' /\
    m_state m' = MuxState_Normal /\
    m_event m' = true.
Proof.
  split; [reflexivity|].
  destruct (X4_UpdateMuxState (sample_mux 0 MuxState_Sleep []) eq_refl)
    as (m' & Hrun & Hs & He & _).
  exists m'. split; [exact Hrun|]. split; [exact Hs | exact He].
Defined.

Lemma X5_witness :
  m_mutex (sample_mux 0 MuxState_Normal []) = false /\
  exists m',
    UpdateChannelState (sample_mux 0 MuxState_Normal []) = Returns tt m' /\
    channel_ids m' = [10; 20] /\
    m_trace m' = [EvLock; EvChannel 0 Call_UpdateState;
                  EvChannel 1 Call_UpdateState; EvUnlock].
Proof.
  split; [reflexivity|].
  destruct (X5_UpdateChannelState (sample_mux 0 MuxState_Normal []) eq_refl)
    as (m' & Hrun & _ & Hids & Htrace & _).
  exists m'. split; [exact Hrun|]. split; [exact Hids | exact Htrace].
Defined.

Lemma X6_witness :
  m_mutex sample_idle_mux = false /\
  m_global_send_buffer sample_idle_mux = [] /\
  exists m',
    QuerySendPacket sample_out sample_idle_mux = Returns (false, sample_out) m'.
Proof.
  split; [reflexivity|]. split; [reflexivity|].
  assert (Hnone : Forall (fun kc : Z * TestChannel =>
                            fst (chan_QuerySendPacket (snd kc)) = None)
                         (m_channel_impl_map sample_idle_mux)).
  { constructor; [reflexivity | constructor]. }
  eexists.
  exact (X6_nothing_to_send sample_idle_mux sample_out eq_refl eq_refl Hnone).
Defined.

Lemma X7_witness :
  m_mutex (sample_mux 0 MuxState_Normal []) = false /\
  SetReceiveBuffer 99 0 16 (sample_mux 0 MuxState_Normal [])
  = Stops AbortUnlessFailed /\
  exists m',
    SetSendBufferWithData 20 0 8 8 (sample_mux 0 MuxState_Normal [])
    = Returns tt m'.
Proof.
  assert (Hn : 99 ∉ map fst (m_channel_impl_map (sample_mux 0 MuxState_Normal []))).
  { intros Hin. vm_compute in Hin. inversion Hin as [|? ? ? Hin2]; subst.
    inversion Hin2 as [|? ? ? Hin3]; subst. inversion Hin3. }
  assert (Hp : 20 ∉ map fst [(10, sample_channel_10)]).
  { simpl. intros Hin. apply list_elem_of_singleton in Hin. discriminate Hin. }
  split; [reflexivity|].
  destruct (X7_buffer_setters (sample_mux 0 MuxState_Normal []) 99 0 16 16
              eq_refl) as [Habsent _].
  destruct (Habsent Hn) as (_ & _ & Hstop).
  destruct (X7_buffer_setters (sample_mux 0 MuxState_Normal []) 20 0 8 8
              eq_refl) as [_ Hpresent].
  destruct (Hpresent [(10, sample_channel_10)] sample_channel_20 [] eq_refl Hp)
    as (_ & Hdata & _).
  split; [exact Hstop|]. eexists. exact Hdata.
Defined.

Lemma X8_witness :
  exists m',
    perform sample_signature sample_body_capacity sample_channel_count
      (Op_Open 30) (sample_mux 0 MuxState_Sleep []) = Returns tt m' /\
    m_version m' = 5 /\
    m_state m' = MuxState_Sleep.
Proof.
  destruct (perform sample_signature sample_body_capacity sample_channel_count
              (Op_Open 30) (sample_mux 0 MuxState_Sleep [])) as [[] m'|] eqn:E.
  - exists m'. split; [reflexivity|].
    destruct (X8_version_and_state_owners sample_signature sample_body_capacity
                sample_channel_count (Op_Open 30) _ m' E) as [Hv Hs].
    split; [exact (Hv eq_refl) | exact (Hs eq_refl)].
  - vm_compute in E. discriminate E.
Defined.

Lemma X9_witness :
  exists m',
    perform_all sample_signature sample_body_capacity sample_channel_count
      sample_going_to_sleep (set_event true (sample_mux 1 MuxState_Normal []))
    = Returns tt m' /\
    m_event m' = true.
Proof.
  destruct (perform_all sample_signature sample_body_capacity sample_channel_count
              sample_going_to_sleep
              (set_event true (sample_mux 1 MuxState_Normal [])))
    as [[] m'|] eqn:E.
  - exists m'. split; [reflexivity|].
    exact (X9_event_never_cleared sample_signature sample_body_capacity
             sample_channel_count sample_going_to_sleep _ m' E eq_refl).
  - vm_compute in E. discriminate E.
Defined.

Lemma X10_witness :
  exists m',
    perform_all sample_signature sample_body_capacity sample_channel_count
      sample_retirements sample_new = Returns tt m' /\
    notifications m' = 2%nat.
Proof.
  destruct (perform_all sample_signature sample_body_capacity sample_channel_count
              sample_retirements sample_new) as [[] m'|] eqn:E.
  - exists m'. split; [reflexivity|].
    exact (X10_notifications_count sample_signature sample_body_capacity
             sample_channel_count sample_retirements _ m' E).
  - vm_compute in E. discriminate E.
Defined.

Lemma X11_witness :
  perform_all sample_signature sample_body_capacity sample_channel_count
    sample_calls sample_new = Returns tt sample_after_calls /\
  NoDup (channel_ids sample_after_calls).
Proof.
  assert (Hrun : perform_all sample_signature sample_body_capacity
                   sample_channel_count sample_calls sample_new
                 = Returns tt sample_after_calls) by (vm_compute; reflexivity).
  split; [exact Hrun|].
  apply (proj2 (X11_ids_kept_and_distinct sample_signature sample_body_capacity
                  sample_channel_count sample_calls _ _ Hrun)).
  constructor.
Defined.

Lemma X12_witness :
  exists m1 m2,
    QuerySendPacket sample_out (sample_mux 0 MuxState_Normal [])
    = Returns (true, sample_packet) m1 /\
    QuerySendPacket sample_out m1 = Returns (true, sample_packet) m2.
Proof.
  assert (Hrun : QuerySendPacket sample_out (sample_mux 0 MuxState_Normal [])
                 = Returns (true, sample_packet)
                     (set_trace [EvLock; EvChannel 0 Call_QuerySendPacket;
                                 EvChannel 1 Call_QuerySendPacket; EvUnlock]
                        (sample_mux 0 MuxState_Normal [])))
    by (vm_compute; reflexivity).
  destruct (X12_query_repeatable _ _ sample_out _ TestChannel_repeatable Hrun)
    as (m2 & Hagain & _).
  eexists _, m2. split; [exact Hrun | exact Hagain].
Defined.

Lemma X13_witness :
  m_mutex (sample_mux 1 MuxState_Normal []) = false /\
  exists m1 m2 m3,
    ProcessReceivePacket sample_unknown_data [] 0 (sample_mux 1 MuxState_Normal [])
    = Returns ResultChannelNotExist m1 /\
    QuerySendPacket sample_out m1
    = Returns (true, MkSendOut (MkPacketHeader 0 0 PacketType_Error 99 0) [] 0) m2 /\
    RemovePacket (MkPacketHeader 0 0 PacketType_Error 99 0) m2 = Returns tt m3 /\
    m_global_send_buffer m3 = [].
Proof.
  assert (Hn : channel sample_unknown_data
                 ∉ map fst (m_channel_impl_map (sample_mux 1 MuxState_Normal []))).
  { intros Hin. vm_compute in Hin. inversion Hin as [|? ? ? Hin2]; subst.
    inversion Hin2 as [|? ? ? Hin3]; subst. inversion Hin3. }
  assert (Hpf : pf_MakeErrorPacket (channel sample_unknown_data)
                  (m_packet_factory (sample_mux 1 MuxState_Normal []))
                = (Some (MkPacket (MkPacketHeader 0 0 PacketType_Error 99 0)),
                   0%nat)) by reflexivity.
  split; [reflexivity|].
  destruct (X13_reply_round_trip (sample_mux 1 MuxState_Normal [])
              sample_unknown_data [] 0 _ _ sample_out eq_refl eq_refl Hn
              (or_introl eq_refl) Hpf)
    as (m1 & m2 & m3 & Hr & Hq & _ & _ & Hrm & Hempty & _).
  exists m1, m2, m3. split; [exact Hr|]. split; [exact Hq|].
  split; [exact Hrm | exact Hempty].
Defined.

Lemma X14_witness :
  m_mutex sample_new = false /\
  perform_all sample_signature sample_body_capacity sample_channel_count
    sample_calls sample_new = Returns tt sample_after_calls /\
  m_mutex sample_after_calls = false.
Proof.
  assert (Hrun : perform_all sample_signature sample_body_capacity
                   sample_channel_count sample_calls sample_new
                 = Returns tt sample_after_calls) by (vm_compute; reflexivity).
  split; [reflexivity|]. split; [exact Hrun|].
  exact (X14_lock_never_leaks sample_signature sample_body_capacity
           sample_channel_count sample_calls _ _ Hrun eq_refl).
Defined.

Lemma X15_witness :
  exists m,
    perform_all sample_signature sample_body_capacity sample_channel_count
      sample_retirements sample_new = Returns tt m /\
    m_version m = sample_version /\
    m_state m = MuxState_Normal /\
    NoDup (channel_ids m) /\
    notifications m = 2%nat.
Proof.
  destruct (perform_all sample_signature sample_body_capacity sample_channel_count
              sample_retirements sample_new) as [[] m|] eqn:E.
  - exists m. split; [reflexivity|].
    destruct (X15_from_the_constructor sample_signature sample_body_capacity
                sample_version sample_channel_count 0%nat (MkStateMachine false)
                sample_retirements m E) as (Hv & Hs & Hd & Hc).
    split; [exact (Hv eq_refl)|]. split; [exact (proj1 (Hs eq_refl))|].
    split; [exact Hd | exact Hc].
  - vm_compute in E. discriminate E.
Defined.
